(** * node-waf: a shallow embedding of the request-inspection core

    The development follows the layout of the JavaScript sources:

    - [JS]               the few JavaScript library notions the code relies on
                         (strings, truthiness, [Object.values]);
    - [RegExp]           regular expressions with the [lastIndex] cursor of
                         global patterns ([RegExp.prototype.test]);
    - [RuleEngine]       lib/core/rule-engine.js;
    - [RuleManager]      the rule manager and its default rules;
    - [XSSModule]        lib/modules/xss.js;
    - [SQLiModule]       lib/modules/sqli.js;
    - [RateLimitModule]  the rate-limit / IP-block module;
    - [AnomalyScorer]    lib/core/anomaly-scorer.js;
    - [AdaptiveLearning] lib/core/adaptive-learning.js;
    - [WAFMiddleware]    the middleware class (decision and event emission).

    JavaScript numbers that carry scores are modelled as exact rationals
    ([Q]): the rounding of floating-point arithmetic, [NaN] and the
    infinities are not modelled.  Clock readings, counters and sizes are
    integers ([Z]) or naturals, and so is the learning period, a whole
    number of days.  Strings are sequences of code units below 256.  The clock readings of
    one synchronous call are taken at one instant.  The rule manager
    enters the middleware as the list of enabled rules it hands to the
    engine; [createWAF] builds it with its default rules.  The metrics
    registry and the parts of the stats collector that no decision reads
    are left out. *)

From Stdlib Require Import ZArith QArith Qround Lqa Lia Bool List Ascii String.
From stdpp Require Import base option list strings pretty gmap.
Import ListNotations.

Local Open Scope Z_scope.
Local Open Scope string_scope.
Local Open Scope list_scope.

(* ===================================================================== *)
(** ** JavaScript library notions *)
(* ===================================================================== *)

Module JS.

(** Values found in the maps of a request (query, headers, cookies):
    a string, or any other value that is not [null] or [undefined] (an
    array, an object, a number).  The code distinguishes the two by
    [typeof value === 'string']; where it tests the truthiness of a
    value that is not a string, the value counts as truthy. *)
Inductive value : Type :=
| VString (s : string)
| VOther.

(** An object used as a string-keyed map; [Object.values] and
    [Object.entries] enumerate in insertion order. *)
Definition object : Type := list (string * value).

Definition values (o : object) : list value := map snd o.
Definition keys (o : object) : list string := map fst o.

(** [obj[key]] (an object holds one definition per key). *)
Fixpoint get (o : object) (key : string) : option value :=
  match o with
  | [] => None
  | (k, v) :: o' => if String.eqb k key then Some v else get o' key
  end.

(** The string-valued members, in order: the
    [forEach(value => if (typeof value === 'string') texts.push(value))]
    loop shared by every [extractSearchTexts]. *)
Fixpoint string_values (vs : list value) : list string :=
  match vs with
  | [] => []
  | VString s :: vs' => s :: string_values vs'
  | VOther :: vs' => string_values vs'
  end.

(** A request body: absent ([null]/[undefined]), a string, or a
    structured value; the code only ever reads a structured body through
    [JSON.stringify], so the body carries its serialisation. *)
Inductive body : Type :=
| BNone
| BString (s : string)
| BObject (json : string).

(** Truthiness of a string: the empty string is falsy. *)
Definition truthy_string (s : string) : bool :=
  negb (String.eqb s "").

Definition chars (s : string) : list ascii := list_ascii_of_string s.

Definition is_upper (c : ascii) : bool :=
  let n := nat_of_ascii c in (65 <=? n)%nat && (n <=? 90)%nat.
Definition is_lower (c : ascii) : bool :=
  let n := nat_of_ascii c in (97 <=? n)%nat && (n <=? 122)%nat.

(** The capital and the small letters above 127: U+00C0 to U+00DE and
    U+00E0 to U+00FE, the signs U+00D7 and U+00F7 apart. *)
Definition is_upper_latin1 (c : ascii) : bool :=
  let n := nat_of_ascii c in
  (192 <=? n)%nat && (n <=? 222)%nat && negb (n =? 215)%nat.
Definition is_lower_latin1 (c : ascii) : bool :=
  let n := nat_of_ascii c in
  (224 <=? n)%nat && (n <=? 254)%nat && negb (n =? 247)%nat.

Definition to_lower_char (c : ascii) : ascii :=
  if is_upper c || is_upper_latin1 c
  then ascii_of_nat (nat_of_ascii c + 32) else c.
Definition to_upper_char (c : ascii) : ascii :=
  if is_lower c || is_lower_latin1 c
  then ascii_of_nat (nat_of_ascii c - 32) else c.

(** [String.prototype.toLowerCase], on strings of code units below
    256. *)
Fixpoint toLowerCase (s : string) : string :=
  match s with
  | EmptyString => EmptyString
  | String c s' => String (to_lower_char c) (toLowerCase s')
  end.

(** [String.prototype.startsWith]. *)
Fixpoint startsWith (s p : string) : bool :=
  match p, s with
  | EmptyString, _ => true
  | String _ _, EmptyString => false
  | String a p', String b s' => Ascii.eqb a b && startsWith s' p'
  end.

(** [String.prototype.includes]. *)
Fixpoint includes (s p : string) : bool :=
  startsWith s p ||
  match s with
  | EmptyString => false
  | String _ s' => includes s' p
  end.

(** [Array.prototype.join]. *)
Fixpoint join (sep : string) (l : list string) : string :=
  match l with
  | [] => ""
  | [x] => x
  | x :: l' => x ++ sep ++ join sep l'
  end.

(** [s.substring(0, n)]. *)
Definition substring0 (n : nat) (s : string) : string :=
  String.substring 0 n s.

End JS.

(* ===================================================================== *)
(** ** Regular expressions *)
(* ===================================================================== *)

Module RegExp.

(** Abstract syntax of the pattern language used by the sources:
    literals, [.], character classes, [^] and [$], concatenation,
    alternation, groups and (greedy or lazy) quantifiers. *)
Inductive regex : Type :=
| Empty
| Char (c : ascii)
| Dot
| Cls (negated : bool) (ranges : list (nat * nat))
| Bol
| Eol
| Cat (r1 r2 : regex)
| Or (r1 r2 : regex)
| Repeat (lo : nat) (hi : option nat) (greedy : bool) (r : regex).

Record flags : Type := Flags {
  global : bool;
  ignoreCase : bool;
  multiline : bool
}.

(** *** Reading a pattern from its source text *)

Definition ws_ranges : list (nat * nat) := [(9, 13); (32, 32); (160, 160)]%nat.
Definition digit_ranges : list (nat * nat) := [(48, 57)]%nat.
Definition word_ranges : list (nat * nat) :=
  [(65, 90); (97, 122); (48, 57); (95, 95)]%nat.

Definition is_digit (c : ascii) : bool :=
  let n := nat_of_ascii c in (48 <=? n)%nat && (n <=? 57)%nat.

(** A decimal number at the head of the input. *)
Fixpoint read_nat (acc : nat) (s : list ascii) : nat * list ascii :=
  match s with
  | c :: s' =>
      if is_digit c then read_nat (10 * acc + (nat_of_ascii c - 48))%nat s'
      else (acc, s)
  | [] => (acc, s)
  end.

(** The escape [\c] outside or inside a class: a class shorthand or the
    character itself. *)
Definition escape_ranges (c : ascii) : list (nat * nat) :=
  if Ascii.eqb c "s" then ws_ranges
  else if Ascii.eqb c "d" then digit_ranges
  else if Ascii.eqb c "w" then word_ranges
  else if Ascii.eqb c "n" then [(10, 10)]%nat
  else if Ascii.eqb c "r" then [(13, 13)]%nat
  else if Ascii.eqb c "t" then [(9, 9)]%nat
  else [(nat_of_ascii c, nat_of_ascii c)].

Definition is_shorthand (c : ascii) : bool :=
  Ascii.eqb c "s" || Ascii.eqb c "d" || Ascii.eqb c "w".

Definition escape_atom (c : ascii) : regex :=
  if is_shorthand c then Cls false (escape_ranges c)
  else match escape_ranges c with
       | [(n, _)] => Char (ascii_of_nat n)
       | rs => Cls false rs
       end.

(** The members of a class, up to the closing bracket. *)
Fixpoint class_items (fuel : nat) (s : list ascii)
  : option (list (nat * nat) * list ascii) :=
  match fuel with
  | O => None
  | S fuel' =>
      match s with
      | [] => None
      | "]"%char :: rest => Some ([], rest)
      | "\"%char :: c :: rest =>
          match class_items fuel' rest with
          | Some (items, rest') => Some (escape_ranges c ++ items, rest')
          | None => None
          end
      | a :: "-"%char :: b :: rest =>
          if Ascii.eqb b "]" then
            match class_items fuel' ("-"%char :: b :: rest) with
            | Some (items, rest') =>
                Some ((nat_of_ascii a, nat_of_ascii a) :: items, rest')
            | None => None
            end
          else
            match class_items fuel' rest with
            | Some (items, rest') =>
                Some ((nat_of_ascii a, nat_of_ascii b) :: items, rest')
            | None => None
            end
      | a :: rest =>
          match class_items fuel' rest with
          | Some (items, rest') =>
              Some ((nat_of_ascii a, nat_of_ascii a) :: items, rest')
          | None => None
          end
      end
  end.

(** A quantifier after an atom, if any: [*], [+], [?], [{n}], [{n,}],
    [{n,m}], each optionally followed by [?] (lazy). *)
Definition lazy_mark (s : list ascii) : bool * list ascii :=
  match s with
  | "?"%char :: rest => (false, rest)
  | _ => (true, s)
  end.

Definition quantifier (a : regex) (s : list ascii) : regex * list ascii :=
  match s with
  | "*"%char :: rest =>
      let (g, rest') := lazy_mark rest in (Repeat 0 None g a, rest')
  | "+"%char :: rest =>
      let (g, rest') := lazy_mark rest in (Repeat 1 None g a, rest')
  | "?"%char :: rest =>
      let (g, rest') := lazy_mark rest in (Repeat 0 (Some 1%nat) g a, rest')
  | "{"%char :: rest =>
      let (lo, r1) := read_nat 0 rest in
      match r1 with
      | "}"%char :: r2 =>
          let (g, rest') := lazy_mark r2 in (Repeat lo (Some lo) g a, rest')
      | ","%char :: "}"%char :: r2 =>
          let (g, rest') := lazy_mark r2 in (Repeat lo None g a, rest')
      | ","%char :: r2 =>
          let (hi, r3) := read_nat 0 r2 in
          match r3 with
          | "}"%char :: r4 =>
              let (g, rest') := lazy_mark r4 in
              (Repeat lo (Some hi) g a, rest')
          | _ => (a, s)
          end
      | _ => (a, s)
      end
  | _ => (a, s)
  end.

Fixpoint disjunction (fuel : nat) (s : list ascii)
  : option (regex * list ascii) :=
  match fuel with
  | O => None
  | S fuel' =>
      match alternative fuel' s with
      | Some (a, "|"%char :: rest) =>
          match disjunction fuel' rest with
          | Some (b, rest') => Some (Or a b, rest')
          | None => None
          end
      | r => r
      end
  end
with alternative (fuel : nat) (s : list ascii)
  : option (regex * list ascii) :=
  match fuel with
  | O => None
  | S fuel' =>
      match s with
      | [] => Some (Empty, s)
      | "|"%char :: _ => Some (Empty, s)
      | ")"%char :: _ => Some (Empty, s)
      | _ =>
          match term fuel' s with
          | Some (t, rest) =>
              match alternative fuel' rest with
              | Some (Empty, rest') => Some (t, rest')
              | Some (a, rest') => Some (Cat t a, rest')
              | None => None
              end
          | None => None
          end
      end
  end
with term (fuel : nat) (s : list ascii) : option (regex * list ascii) :=
  match fuel with
  | O => None
  | S fuel' =>
      match s with
      | [] => None
      | "^"%char :: rest => Some (Bol, rest)
      | "$"%char :: rest => Some (Eol, rest)
      | "."%char :: rest => Some (quantifier Dot rest)
      | "\"%char :: c :: rest => Some (quantifier (escape_atom c) rest)
      | "["%char :: "^"%char :: rest =>
          match class_items fuel' rest with
          | Some (items, rest') => Some (quantifier (Cls true items) rest')
          | None => None
          end
      | "["%char :: rest =>
          match class_items fuel' rest with
          | Some (items, rest') => Some (quantifier (Cls false items) rest')
          | None => None
          end
      | "("%char :: rest =>
          let inner :=
            match rest with
            | "?"%char :: ":"%char :: rest' => rest'
            | _ => rest
            end in
          match disjunction fuel' inner with
          | Some (d, ")"%char :: rest') => Some (quantifier d rest')
          | _ => None
          end
      | c :: rest => Some (quantifier (Char c) rest)
      end
  end.

(** The pattern of a regular-expression literal [/src/]; a text that is
    not a pattern of the supported language reads as a pattern that
    matches nothing ([Cls false []]). *)
Definition parse (src : string) : regex :=
  let s := JS.chars src in
  match disjunction (4 * List.length s + 4) s with
  | Some (r, []) => r
  | _ => Cls false []
  end.

(** *** Matching *)

(** [Canonicalize] of the standard, for patterns with the [i] flag. *)
Definition canonicalize (ic : bool) (c : ascii) : ascii :=
  if ic then JS.to_upper_char c else c.

Definition in_range (n : nat) (r : nat * nat) : bool :=
  (fst r <=? n)%nat && (n <=? snd r)%nat.

(** Membership in a class: some member of the set has the same canonical
    form as the input character. *)
Definition in_ranges (ic : bool) (rs : list (nat * nat)) (c : ascii) : bool :=
  existsb (in_range (nat_of_ascii c)) rs
  || (ic && (existsb (in_range (nat_of_ascii (JS.to_upper_char c))) rs
             || existsb (in_range (nat_of_ascii (JS.to_lower_char c))) rs)).

Definition is_line_terminator (c : ascii) : bool :=
  let n := nat_of_ascii c in (n =? 10)%nat || (n =? 13)%nat.

Section Matcher.
Variable fl : flags.
(** The whole input, for the look-behind of [^] in multiline mode. *)
Variable input : list ascii.

(** Backtracking matcher in continuation-passing style: [m r pos rest k]
    matches [r] at offset [pos], where [rest] is the input from [pos] on,
    and hands the end offset to [k]; the result is the end offset of the
    first successful alternative in priority order. *)
Fixpoint m (r : regex) (pos : nat) (rest : list ascii)
  (k : nat -> list ascii -> option nat) {struct r} : option nat :=
  match r with
  | Empty => k pos rest
  | Char c =>
      match rest with
      | a :: rest' =>
          if Ascii.eqb (canonicalize (ignoreCase fl) a)
                       (canonicalize (ignoreCase fl) c)
          then k (S pos) rest' else None
      | [] => None
      end
  | Dot =>
      match rest with
      | a :: rest' => if is_line_terminator a then None else k (S pos) rest'
      | [] => None
      end
  | Cls neg rs =>
      match rest with
      | a :: rest' =>
          if xorb neg (in_ranges (ignoreCase fl) rs a)
          then k (S pos) rest' else None
      | [] => None
      end
  | Bol =>
      match pos with
      | O => k pos rest
      | S p =>
          if multiline fl then
            match nth_error input p with
            | Some a => if is_line_terminator a then k pos rest else None
            | None => None
            end
          else None
      end
  | Eol =>
      match rest with
      | [] => k pos rest
      | a :: _ =>
          if multiline fl && is_line_terminator a then k pos rest else None
      end
  | Cat r1 r2 => m r1 pos rest (fun p t => m r2 p t k)
  | Or r1 r2 =>
      match m r1 pos rest k with
      | Some e => Some e
      | None => m r2 pos rest k
      end
  | Repeat lo hi greedy r1 =>
      (* optional iterations: each must consume input *)
      let budget :=
        match hi with
        | Some h => (h - lo)%nat
        | None => List.length rest
        end in
      let opt :=
        fix opt (n : nat) (pos : nat) (rest : list ascii) : option nat :=
          match n with
          | O => k pos rest
          | S n' =>
              let again :=
                m r1 pos rest
                  (fun p t => if (p =? pos)%nat then None else opt n' p t) in
              if greedy then
                match again with
                | Some e => Some e
                | None => k pos rest
                end
              else
                match k pos rest with
                | Some e => Some e
                | None => again
                end
          end in
      (* mandatory iterations *)
      let req :=
        fix req (n : nat) (pos : nat) (rest : list ascii) : option nat :=
          match n with
          | O => opt budget pos rest
          | S n' => m r1 pos rest (fun p t => req n' p t)
          end in
      req lo pos rest
  end.

(** The leftmost match starting at or after [pos]: its end offset. *)
Fixpoint search (r : regex) (pos : nat) (rest : list ascii) : option nat :=
  match m r pos rest (fun p _ => Some p) with
  | Some e => Some e
  | None =>
      match rest with
      | [] => None
      | _ :: rest' => search r (S pos) rest'
      end
  end.
End Matcher.

(** *** RegExp objects *)

(** A RegExp instance: the pattern, its flags and the mutable
    [lastIndex] cursor. *)
Record t : Type := Make {
  source : regex;
  fl : flags;
  lastIndex : nat
}.

Definition set_lastIndex (re : t) (i : nat) : t :=
  {| source := source re; fl := fl re; lastIndex := i |}.

(** [RegExpBuiltinExec], as far as [test] observes it: a global pattern
    starts at [lastIndex], stores the end of the match there on success
    and resets it to 0 on failure; other patterns start at 0 and leave
    [lastIndex] alone. *)
Definition test (re : t) (s : string) : t * bool :=
  let input := JS.chars s in
  let start := if global (fl re) then lastIndex re else O in
  if (List.length input <? start)%nat then
    (if global (fl re) then set_lastIndex re 0 else re, false)
  else
    match search (fl re) input (source re) start (skipn start input) with
    | Some e => (if global (fl re) then set_lastIndex re e else re, true)
    | None => (if global (fl re) then set_lastIndex re 0 else re, false)
    end.

(** Regular-expression literals [/src/gi], [/src/gm], [/src/i], [/src/]. *)
Definition gi (src : string) : t :=
  Make (parse src) (Flags true true false) 0.
Definition gm (src : string) : t :=
  Make (parse src) (Flags true false true) 0.
Definition i (src : string) : t :=
  Make (parse src) (Flags false true false) 0.
Definition plain (src : string) : t :=
  Make (parse src) (Flags false false false) 0.

End RegExp.

(* ===================================================================== *)
(** ** The analysis record shared by the pipeline *)
(* ===================================================================== *)

Module Threat.
Record t : Type := Make {
  type : string;
  pattern : string;
  description : string;
  score : Q;
  matched : string
}.
End Threat.

(** The [{ score, threats, module }] object a detection module returns
  (or [null], modelled by [None]). *)
Module ModuleResult.
Record t : Type := Make {
  score : Q;
  threats : list Threat.t;
  module : string
}.
End ModuleResult.

(** The object [calculateScore] returns:
  [{ totalScore, factors, isAnomaly, confidence }]. *)
Module AnomalyResult.
(** A factor of the result: [{ type, score }]. *)
Record Factor : Type := MkFactor {
  type : string;
  score : Q
}.

(** The value of [totalScore > this.config.anomalyThreshold || 5]: a
    boolean or a number. *)
Inductive BoolOrNumber : Type :=
| JBool (b : bool)
| JNumber (n : Q).

Definition truthy (v : BoolOrNumber) : bool :=
  match v with
  | JBool b => b
  | JNumber n => negb (Qeq_bool n 0)
  end.

Record t : Type := Make {
  totalScore : Q;
  factors : list Factor;
  isAnomaly : BoolOrNumber;
  confidence : Q
}.
End AnomalyResult.

Module Analysis.
Record t : Type := Make {
  timestamp : Z;
  ip : string;
  userAgent : string;
  method : string;
  path : string;
  query : option JS.object;
  body : JS.body;
  headers : JS.object;
  cookies : JS.object;
  score : Q;
  threats : list Threat.t;
  modules : list string;
  (* anomalyScore, anomalyFactors, isAnomaly, confidence: undefined until
     the anomaly scorer has run *)
  anomaly : option AnomalyResult.t
}.

(** [analysis.anomalyScore = r.totalScore; ...;
    analysis.score += r.totalScore]. *)
Definition add_anomaly_result (a : t) (r : AnomalyResult.t) : t :=
  Make (timestamp a) (ip a) (userAgent a) (method a) (path a) (query a)
       (body a) (headers a) (cookies a)
       (score a + AnomalyResult.totalScore r)%Q
       (threats a) (modules a) (Some r).

(** [analysis.score += r.score; analysis.threats.push(...r.threats);
    analysis.modules.push(name)]. *)
Definition add_module_result (a : t) (name : string) (r : ModuleResult.t) : t :=
  Make (timestamp a) (ip a) (userAgent a) (method a) (path a) (query a)
       (body a) (headers a) (cookies a)
       (score a + ModuleResult.score r)%Q
       (threats a ++ ModuleResult.threats r)
       (modules a ++ [name])
       (anomaly a).

(** [extractSearchTexts], identical in the rule engine and in the
    signature modules: the path, the string query values, the body (a
    non-empty string, or the serialisation of a structured body), the
    string header values and the string cookie values, in this order. *)
Definition extractSearchTexts (a : t) : list string :=
  [path a]
  ++ match query a with
     | Some q => JS.string_values (JS.values q)
     | None => []
     end
  ++ match body a with
     | JS.BNone => []
     | JS.BString s => if JS.truthy_string s then [s] else []
     | JS.BObject json => [json]
     end
  ++ JS.string_values (JS.values (headers a))
  ++ JS.string_values (JS.values (cookies a)).
End Analysis.

(* ===================================================================== *)
(** ** Signature modules (lib/modules/xss.js, lib/modules/sqli.js) *)
(* ===================================================================== *)

(** The two signature modules share their [analyze] loop; they differ in
  the pattern table, the threat type and the combination checks. *)
Module Signature.

Record Pattern : Type := MkPattern {
  name : string;
  pattern : RegExp.t;
  score : Q;
  description : string
}.

Definition set_pattern (p : Pattern) (re : RegExp.t) : Pattern :=
  MkPattern (name p) re (score p) (description p).

(** [text.substring(0, 100) + (text.length > 100 ? '...' : '')]. *)
Definition excerpt (text : string) : string :=
  JS.substring0 100 text ++ (if (100 <? String.length text)%nat then "..." else "").

(** The inner [searchTexts.forEach]: the pattern object is shared by the
    successive [test] calls, which read and write its [lastIndex]. *)
Fixpoint scan_texts (ty : string) (p : Pattern) (texts : list string)
  (threats : list Threat.t) (totalScore : Q)
  : Pattern * list Threat.t * Q :=
  match texts with
  | [] => (p, threats, totalScore)
  | text :: texts' =>
      let (re', hit) := RegExp.test (pattern p) text in
      let p' := set_pattern p re' in
      if hit then
        scan_texts ty p' texts'
          (threats ++ [Threat.Make ty (name p) (description p) (score p)
                                   (excerpt text)])
          (totalScore + score p)%Q
      else scan_texts ty p' texts' threats totalScore
  end.

(** The outer [this.patterns.forEach]. *)
Fixpoint scan_patterns (ty : string) (ps : list Pattern) (texts : list string)
  (threats : list Threat.t) (totalScore : Q)
  : list Pattern * list Threat.t * Q :=
  match ps with
  | [] => ([], threats, totalScore)
  | p :: ps' =>
      let '(p', threats', total') := scan_texts ty p texts threats totalScore in
      let '(ps'', threats'', total'') :=
        scan_patterns ty ps' texts threats' total' in
      (p' :: ps'', threats'', total'')
  end.

(** [combinationThreats.reduce((sum, threat) => sum + threat.score, 0)]. *)
Definition sum_scores (ts : list Threat.t) : Q :=
  fold_left (fun sum threat => (sum + Threat.score threat)%Q) ts 0%Q.

(** [analyze]: the module object (its patterns) after the call and the
    result. *)
Definition analyze (ty : string)
  (checkCombinations : list string -> list Threat.t)
  (patterns : list Pattern) (analysis : Analysis.t)
  : list Pattern * option ModuleResult.t :=
  let searchTexts := Analysis.extractSearchTexts analysis in
  let '(patterns', threats, totalScore) :=
    scan_patterns ty patterns searchTexts [] 0%Q in
  let combinationThreats := checkCombinations searchTexts in
  let threats := threats ++ combinationThreats in
  let totalScore := (totalScore + sum_scores combinationThreats)%Q in
  if (0 <? List.length threats)%nat
  then (patterns', Some (ModuleResult.Make totalScore threats ty))
  else (patterns', None).

End Signature.

(** The double-quote character, for the patterns that mention it. *)
Definition dquote : string := String (ascii_of_nat 34) EmptyString.

Module XSSModule.
Import Signature.

Record t : Type := Make { patterns : list Pattern }.

Definition P (name src : string) (score : Q) (description : string) : Pattern :=
  MkPattern name (RegExp.gi src) score description.

Definition loadXSSPatterns : list Pattern :=
  [ P "script-tag" "<script[^>]*>.*?<\/script>" 3 "Script tag injection";
    P "script-src" "<script[^>]*src\s*=" 2 "External script source";
    P "onload-event" "onload\s*=" 2 "onload event handler";
    P "onclick-event" "onclick\s*=" 2 "onclick event handler";
    P "onerror-event" "onerror\s*=" 2 "onerror event handler";
    P "javascript-url" "javascript:" 3 "JavaScript URL scheme";
    P "vbscript-url" "vbscript:" 3 "VBScript URL scheme";
    P "expression" "expression\s*\(" 2 "CSS expression";
    P "iframe-src" "<iframe[^>]*src\s*=" 2 "Iframe with external source";
    P "object-data" "<object[^>]*data\s*=" 2 "Object with external data";
    P "embed-src" "<embed[^>]*src\s*=" 2 "Embed with external source";
    P "form-action" "<form[^>]*action\s*=" 1 "Form with action attribute";
    P "meta-refresh"
      ("<meta[^>]*http-equiv\s*=\s*[" ++ dquote ++ "']refresh[" ++ dquote ++ "']")
      2 "Meta refresh redirect";
    P "base-href" "<base[^>]*href\s*=" 2 "Base tag with href";
    P "link-href" "<link[^>]*href\s*=" 1 "Link with href attribute";
    P "style-tag" "<style[^>]*>.*?<\/style>" 1 "Style tag injection";
    P "alert-payload" "alert\s*\(" 2 "Alert function call";
    P "confirm-payload" "confirm\s*\(" 2 "Confirm function call";
    P "prompt-payload" "prompt\s*\(" 2 "Prompt function call";
    P "document-cookie" "document\.cookie" 3 "Document cookie access";
    P "document-write" "document\.write" 2 "Document write";
    P "innerHTML" "innerHTML\s*=" 2 "innerHTML assignment";
    P "outerHTML" "outerHTML\s*=" 2 "outerHTML assignment";
    P "html-encoded" "&#x?[0-9a-fA-F]+;" 1 "HTML encoded characters";
    P "url-encoded" "%[0-9a-fA-F]{2}" 1 "URL encoded characters";
    P "svg-script" "<svg[^>]*>.*?<script" 3 "SVG with script tag";
    P "data-uri-javascript" "data:text\/html.*javascript" 3
      "Data URI with JavaScript" ].

(** [new XSSModule(config)]. *)
Definition new : t := Make loadXSSPatterns.

Definition checkCombinations (searchTexts : list string) : list Threat.t :=
  let text := JS.toLowerCase (JS.join " " searchTexts) in
  (if JS.includes text "<script"
      && (JS.includes text "alert" || JS.includes text "document")
   then [Threat.Make "xss" "script-suspicious-content"
           "Script tag with suspicious content" 4
           "Script tag with alert/document access"]
   else [])
  ++ (if (JS.includes text "onclick" || JS.includes text "onload")
         && JS.includes text "javascript:"
      then [Threat.Make "xss" "event-handler-javascript"
              "Event handler with JavaScript URL" 4
              "Event handler with JavaScript URL"]
      else [])
  ++ (if JS.includes text "&#x"
         && (JS.includes text "script" || JS.includes text "alert")
      then [Threat.Make "xss" "encoded-payload" "Encoded XSS payload" 3
              "Encoded XSS payload detected"]
      else []).

Definition analyze (self : t) (analysis : Analysis.t)
  : t * option ModuleResult.t :=
  let (ps, r) :=
    Signature.analyze "xss" checkCombinations (patterns self) analysis in
  (Make ps, r).

End XSSModule.

Module SQLiModule.
Import Signature.

Record t : Type := Make { patterns : list Pattern }.

Definition P (name src : string) (score : Q) (description : string) : Pattern :=
  MkPattern name (RegExp.gi src) score description.
Definition PM (name src : string) (score : Q) (description : string) : Pattern :=
  MkPattern name (RegExp.gm src) score description.

Definition loadSQLiPatterns : list Pattern :=
  [
    P "union-select" "union\s+select" 4 "UNION SELECT injection";
    P "union-all-select" "union\s+all\s+select" 4 "UNION ALL SELECT injection";
    P "or-1-1" "or\s+1\s*=\s*1" 3 "OR 1=1 injection";
    P "or-1-0" "or\s+1\s*=\s*0" 3 "OR 1=0 injection";
    P "and-1-1" "and\s+1\s*=\s*1" 3 "AND 1=1 injection";
    P "and-1-0" "and\s+1\s*=\s*0" 3 "AND 1=0 injection";
    P "sleep-function" "sleep\s*\(" 4 "SLEEP function injection";
    P "waitfor-delay" "waitfor\s+delay" 4 "WAITFOR DELAY injection";
    P "benchmark-function" "benchmark\s*\(" 4 "BENCHMARK function injection";
    P "extractvalue" "extractvalue\s*\(" 4 "EXTRACTVALUE function injection";
    P "updatexml" "updatexml\s*\(" 4 "UPDATEXML function injection";
    P "exp-function" "exp\s*\(" 3 "EXP function injection";
    P "semicolon" ";\s*(select|insert|update|delete|drop|create|alter)" 3 "Semicolon stacked query";
    PM "comment-dash" "--\s*$" 2 "SQL comment injection";
    PM "comment-hash" "#\s*$" 2 "SQL hash comment injection";
    P "comment-slash" "\/\*.*?\*\/" 2 "SQL block comment injection";
    P "mysql-version" "version\s*\(" 3 "MySQL VERSION function";
    P "mysql-database" "database\s*\(" 3 "MySQL DATABASE function";
    P "mysql-user" "user\s*\(" 3 "MySQL USER function";
    P "mysql-current-user" "current_user\s*\(" 3 "MySQL CURRENT_USER function";
    P "information-schema" "information_schema" 3 "INFORMATION_SCHEMA access";
    P "mysql-tables" "mysql\.tables" 3 "MySQL tables access";
    P "load-file" "load_file\s*\(" 4 "LOAD_FILE function injection";
    P "into-outfile" "into\s+outfile" 4 "INTO OUTFILE injection";
    P "into-dumpfile" "into\s+dumpfile" 4 "INTO DUMPFILE injection";
    P "grant-privileges" "grant\s+.*\s+on" 5 "GRANT privileges injection";
    P "revoke-privileges" "revoke\s+.*\s+on" 5 "REVOKE privileges injection";
    P "drop-table" "drop\s+table" 5 "DROP TABLE injection";
    P "drop-database" "drop\s+database" 5 "DROP DATABASE injection";
    P "truncate-table" "truncate\s+table" 4 "TRUNCATE TABLE injection";
    P "delete-from" "delete\s+from" 4 "DELETE FROM injection";
    P "alter-table" "alter\s+table" 4 "ALTER TABLE injection";
    P "create-table" "create\s+table" 4 "CREATE TABLE injection";
    P "create-database" "create\s+database" 4 "CREATE DATABASE injection";
    P "if-statement" "if\s*\(" 3 "IF statement injection";
    P "case-statement" "case\s+when" 3 "CASE statement injection";
    P "concat-function" "concat\s*\(" 2 "CONCAT function injection";
    P "substring-function" "substring\s*\(" 2 "SUBSTRING function injection";
    P "ascii-function" "ascii\s*\(" 2 "ASCII function injection";
    P "char-function" "char\s*\(" 2 "CHAR function injection";
    P "count-function" "count\s*\(" 2 "COUNT function injection";
    P "length-function" "length\s*\(" 2 "LENGTH function injection";
    P "select-asterisk" "select\s+\*" 2 "SELECT * injection";
    P "insert-into" "insert\s+into" 3 "INSERT INTO injection";
    P "update-set" "update\s+.*\s+set" 3 "UPDATE SET injection";
    P "order-by" "order\s+by" 2 "ORDER BY injection";
    P "group-by" "group\s+by" 2 "GROUP BY injection";
    P "having-clause" "having\s+" 2 "HAVING clause injection";
    P "limit-offset" "limit\s+\d+.*offset" 2 "LIMIT OFFSET injection";
    P "like-operator" ("like\s+['" ++ dquote ++ "]%") 2 "LIKE operator with wildcard";
    P "in-operator" "in\s*\(" 2 "IN operator injection";
    P "between-operator" "between\s+" 2 "BETWEEN operator injection";
    P "subquery-select" "\(\s*select\s+" 3 "Subquery SELECT injection";
    P "exists-subquery" "exists\s*\(" 2 "EXISTS subquery injection";
    P "admin-bypass" "admin'--" 3 "Admin bypass attempt";
    P "or-true" "or\s+true" 3 "OR TRUE injection";
    P "or-false" "or\s+false" 3 "OR FALSE injection" ].

(** [new SQLiModule(config)]. *)
Definition new : t := Make loadSQLiPatterns.

Definition checkCombinations (searchTexts : list string) : list Threat.t :=
  let text := JS.toLowerCase (JS.join " " searchTexts) in
  (if JS.includes text "union" && JS.includes text "information_schema"
   then [Threat.Make "sqli" "union-information-schema"
           "UNION with INFORMATION_SCHEMA access" 5
           "UNION with INFORMATION_SCHEMA access"]
   else [])
  ++ (if JS.includes text "sleep"
         && (JS.includes text "union" || JS.includes text "or")
      then [Threat.Make "sqli" "time-based-union"
              "Time-based injection with UNION" 5
              "Time-based injection with UNION"]
      else [])
  ++ (if JS.includes text ";"
         && (JS.includes text "select" || JS.includes text "drop")
      then [Threat.Make "sqli" "stacked-queries"
              "Stacked queries injection" 4 "Stacked queries injection"]
      else [])
  ++ (if (JS.includes text "--" || JS.includes text "#")
         && (JS.includes text "select" || JS.includes text "union")
      then [Threat.Make "sqli" "comment-sql-keywords"
              "Comment injection with SQL keywords" 4
              "Comment injection with SQL keywords"]
      else []).

Definition analyze (self : t) (analysis : Analysis.t)
  : t * option ModuleResult.t :=
  let (ps, r) :=
    Signature.analyze "sqli" checkCombinations (patterns self) analysis in
  (Make ps, r).

End SQLiModule.

(* ===================================================================== *)
(** ** Flat rules *)
(* ===================================================================== *)

(** A rule of the engine's flat rule set:
  [{ id, name, pattern, score, module, description }]. *)
Module Rule.
Record t : Type := Make {
  id : string;
  name : string;
  pattern : RegExp.t;
  score : Q;
  module : string;
  description : string
}.

Definition set_pattern (r : t) (re : RegExp.t) : t :=
  Make (id r) (name r) re (score r) (module r) (description r).
End Rule.

(* ===================================================================== *)
(** ** Configuration *)
(* ===================================================================== *)

(** The merged configuration object ([ConfigManager.loadConfig]).
    Optional members are those the code reads with a [||] default or that
    the defaults leave undefined.  [modules] is always an array here: the
    stats collector iterates over it when an instance is built.
    [learningPeriod] counts whole days. *)
Module Config.
Record RateLimit : Type := MkRateLimit {
  rl_enabled : bool;
  windowMs : option Z;
  max : option Z
}.
Record IpBlocking : Type := MkIpBlocking {
  ib_enabled : bool;
  blockDuration : option Z;
  maxViolations : option Z
}.
(** The configuration object; an absent member is [None].
    [learningPeriod] counts whole days. *)
Record t : Type := Make {
  dryRun : bool;
  threshold : option Q;
  modules : list string;
  adaptiveLearning : bool;
  learningPeriod : option Z;
  anomalyThreshold : option Q;
  skipPaths : option (list string);
  rateLimit : option RateLimit;
  ipBlocking : option IpBlocking;
  rules : option (list Rule.t)
}.

(** [x || d] on an optional number: [undefined] and [0] are falsy. *)
Definition orZ (x : option Z) (d : Z) : Z :=
  match x with
  | Some v => if (v =? 0)%Z then d else v
  | None => d
  end.
Definition orQ (x : option Q) (d : Q) : Q :=
  match x with
  | Some v => if Qeq_bool v 0 then d else v
  | None => d
  end.
End Config.

(* ===================================================================== *)
(** ** Rate-limit / IP-block module *)
(* ===================================================================== *)

Module RateLimitModule.

(** [{ count, firstRequest, violations }] *)
Record RequestRecord : Type := MkRequest {
  count : Z;
  firstRequest : Z;
  violations : Z
}.

(** [{ blockedUntil, reason, blockedAt }] *)
Record BlockRecord : Type := MkBlock {
  blockedUntil : Z;
  reason : string;
  blockedAt : Z
}.

Record t : Type := Make {
  enabled : bool;
  windowMs : Z;
  max : Z;
  ipBlocking_enabled : bool;
  blockDuration : Z;
  maxViolations : Z;
  requests : gmap string RequestRecord;
  blockedIPs : gmap string BlockRecord
}.

Definition set_tables (self : t) (rq : gmap string RequestRecord)
  (bl : gmap string BlockRecord) : t :=
  Make (enabled self) (windowMs self) (max self) (ipBlocking_enabled self)
       (blockDuration self) (maxViolations self) rq bl.

(** The constructor: the [||] defaults and two empty tables. *)
Definition new (config : Config.t) : t :=
  let rl := Config.rateLimit config in
  let ib := Config.ipBlocking config in
  Make (match rl with Some c => Config.rl_enabled c | None => false end)
       (Config.orZ (match rl with Some c => Config.windowMs c | None => None end)
                   (15 * 60 * 1000))
       (Config.orZ (match rl with Some c => Config.max c | None => None end) 100)
       (match ib with Some c => Config.ib_enabled c | None => false end)
       (Config.orZ (match ib with Some c => Config.blockDuration c | None => None end)
                   (24 * 60 * 60 * 1000))
       (Config.orZ (match ib with Some c => Config.maxViolations c | None => None end) 5)
       ∅ ∅.

(** [isIPBlocked(ip)] at clock reading [now]: an expired entry is removed
    on the way. *)
Definition isIPBlocked (self : t) (now : Z) (ip : string) : t * bool :=
  match blockedIPs self !! ip with
  | None => (self, false)
  | Some blockRecord =>
      if (blockedUntil blockRecord <? now)%Z
      then (set_tables self (requests self) (delete ip (blockedIPs self)), false)
      else (self, true)
  end.

(** [blockIP(ip, reason)] *)
Definition blockIP (self : t) (now : Z) (ip : string) (reason : string) : t :=
  set_tables self
    (delete ip (requests self))
    (<[ip := MkBlock (now + blockDuration self) reason now]> (blockedIPs self)).

(** [unblockIP(ip)] *)
Definition unblockIP (self : t) (ip : string) : t :=
  set_tables self (requests self) (delete ip (blockedIPs self)).

(** [cleanup()] at clock reading [now]. *)
Definition cleanup (self : t) (now : Z) : t :=
  set_tables self
    (filter (λ kv, ¬ (windowMs self < now - firstRequest kv.2)%Z) (requests self))
    (filter (λ kv, ¬ (blockedUntil kv.2 < now)%Z) (blockedIPs self)).

(** [reset()] *)
Definition reset (self : t) : t := set_tables self ∅ ∅.

Definition threat (pattern description : string) (score : Q) (matched : string)
  : Threat.t :=
  Threat.Make "ratelimit" pattern description score matched.

(** [analyze(analysis)]; the clock readings of one synchronous call are
    taken at one instant [now]. *)
Definition analyze (self : t) (now : Z) (analysis : Analysis.t)
  : t * option ModuleResult.t :=
  if negb (enabled self) then (self, None)
  else
    let ip := Analysis.ip analysis in
    let (self, blocked) := isIPBlocked self now ip in
    if blocked then
      (self,
       Some (ModuleResult.Make 10
               [threat "ip-blocked"
                  "IP address is blocked due to rate limiting violations" 10
                  ("IP " ++ ip ++ " is blocked")]
               "ratelimit"))
    else
      (* get or create the record of this IP *)
      let requestRecord :=
        match requests self !! ip with
        | Some r => r
        | None => MkRequest 0 now 0
        end in
      (* window expired: reset *)
      let requestRecord :=
        if (windowMs self <? now - firstRequest requestRecord)%Z
        then MkRequest 0 now 0
        else requestRecord in
      (* count++ *)
      let requestRecord :=
        MkRequest (count requestRecord + 1) (firstRequest requestRecord)
                  (violations requestRecord) in
      if (max self <? count requestRecord)%Z then
        (* violations++ *)
        let requestRecord :=
          MkRequest (count requestRecord) (firstRequest requestRecord)
                    (violations requestRecord + 1) in
        if ipBlocking_enabled self
           && (maxViolations self <=? violations requestRecord)%Z
        then
          (blockIP (set_tables self (<[ip := requestRecord]> (requests self))
                               (blockedIPs self))
                   now ip "Rate limit violations exceeded",
           Some (ModuleResult.Make 10
                   [threat "ip-blocked-violations"
                      "IP blocked due to repeated rate limit violations" 10
                      ("IP " ++ ip ++ " blocked after "
                       ++ pretty (violations requestRecord) ++ " violations")]
                   "ratelimit"))
        else
          (set_tables self (<[ip := requestRecord]> (requests self))
                      (blockedIPs self),
           Some (ModuleResult.Make 5
                   [threat "rate-limit-exceeded"
                      ("Rate limit exceeded: " ++ pretty (count requestRecord)
                       ++ "/" ++ pretty (max self) ++ " requests in window") 5
                      ("Rate limit exceeded: " ++ pretty (count requestRecord)
                       ++ "/" ++ pretty (max self))]
                   "ratelimit"))
      else
        (set_tables self (<[ip := requestRecord]> (requests self))
                    (blockedIPs self),
         None).

(** What [getIPStatus] returns; [Date] objects are their instants. *)
Inductive IPStatus : Type :=
| blocked (blockedUntil : Z) (reason : string) (blockedAt : Z)
| active (requests maxRequests windowStart windowEnd remainingTime violations : Z)
| clean (requests maxRequests violations : Z).

(** [getIPStatus(ip)] at clock reading [now]. *)
Definition getIPStatus (self : t) (now : Z) (ip : string) : IPStatus :=
  match blockedIPs self !! ip with
  | Some blockRecord =>
      blocked (blockedUntil blockRecord) (reason blockRecord)
              (blockedAt blockRecord)
  | None =>
      match requests self !! ip with
      | Some requestRecord =>
          let windowStart := firstRequest requestRecord in
          let windowEnd := (windowStart + windowMs self)%Z in
          active (count requestRecord) (max self) windowStart windowEnd
                 (Z.max 0 (windowEnd - now)) (violations requestRecord)
      | None => clean 0 (max self) 0
      end
  end.

(** What [getStats] returns. *)
Record Stats : Type := MkStats {
  st_enabled : bool;
  st_windowMs : Z;
  st_maxRequests : Z;
  st_activeIPs : nat;
  st_blockedIPs : nat;
  st_totalViolations : Z;
  st_ipBlockingEnabled : bool;
  st_maxViolations : Z;
  st_blockDuration : Z
}.

(** [getStats()] at clock reading [now]. *)
Definition getStats (self : t) (now : Z) : Stats :=
  MkStats (enabled self) (windowMs self) (max self)
    (size (filter (λ kv, (now - firstRequest kv.2 <= windowMs self)%Z)
                  (requests self)))
    (size (filter (λ kv, (now <= blockedUntil kv.2)%Z) (blockedIPs self)))
    (fold_left (fun sum record => (sum + violations record)%Z)
               (List.map snd (map_to_list (requests self))) 0%Z)
    (ipBlocking_enabled self) (maxViolations self) (blockDuration self).

End RateLimitModule.

(* ===================================================================== *)
(** ** Rule engine (lib/core/rule-engine.js) *)
(* ===================================================================== *)

(** What the environment supplies to one synchronous call: the clock
  ([Date.now()]), the local hour and day of week of that instant
  ([getHours()], [getDay()]) and the text [Math.random()] contributes to
  a request id. *)
Module Env.
Record t : Type := Make {
  now : Z;
  hour : Z;
  day : Z;
  random : string
}.
End Env.

Module RuleEngine.

(** The module objects [require('../modules/<name>')] can produce. *)
Inductive ModuleInstance : Type :=
| XSS (m : XSSModule.t)
| SQLi (m : SQLiModule.t)
| RateLimit (m : RateLimitModule.t).

Record t : Type := Make {
  modules : list (string * ModuleInstance);
  rules : list Rule.t;
  threshold : Q
}.

(** Whether [moduleName] names the module file [file].js of the
    package: the loader tries the name as it is and with the extension
    [.js]. *)
Definition names_file (moduleName file : string) : bool :=
  String.eqb moduleName file || String.eqb moduleName (file ++ ".js").

(** [new ModuleClass(this.config)] where [ModuleClass] is
    [require(`../modules/${moduleName}`)], for the three module files of
    the package.  A name that does not resolve fails to load and is
    skipped with a warning.  The resolution of names that are paths
    (with [/], [.] or [..] segments), and of names that differ from a
    file name by case on a file system that ignores case, is not
    modelled: here such a name does not resolve. *)
Definition require (config : Config.t) (moduleName : string)
  : option ModuleInstance :=
  if names_file moduleName "xss" then Some (XSS XSSModule.new)
  else if names_file moduleName "sqli" then Some (SQLi SQLiModule.new)
  else if names_file moduleName "ratelimit"
       then Some (RateLimit (RateLimitModule.new config))
  else None.

(** [Map.prototype.set]: a present key keeps its position. *)
Fixpoint map_set {A : Type} (m : list (string * A)) (k : string) (v : A)
  : list (string * A) :=
  match m with
  | [] => [(k, v)]
  | (k', v') :: m' =>
      if String.eqb k' k then (k, v) :: m' else (k', v') :: map_set m' k v
  end.

(** [Map.prototype.get]. *)
Fixpoint map_get {A : Type} (m : list (string * A)) (k : string) : option A :=
  match m with
  | [] => None
  | (k', v) :: m' => if String.eqb k' k then Some v else map_get m' k
  end.

Definition loadModules (config : Config.t) : list (string * ModuleInstance) :=
  fold_left
    (fun mods moduleName =>
       match require config moduleName with
       | Some module => map_set mods moduleName module
       | None => mods
       end)
    (Config.modules config) [].

Definition R (id name src : string) (score : Q) (module description : string)
  : Rule.t :=
  Rule.Make id name (RegExp.gi src) score module description.

Definition loadBuiltInRules : list Rule.t :=
  [ R "xss-script-tag" "XSS Script Tag Detection"
      "<script[^>]*>.*?<\/script>" 3 "xss"
      "Detects script tag injection attempts";
    R "xss-javascript-url" "XSS JavaScript URL Detection"
      "javascript:" 2 "xss" "Detects javascript: URL schemes";
    R "sqli-union" "SQL Union Injection"
      "union\s+select" 4 "sqli" "Detects UNION SELECT injection attempts";
    R "sqli-or-1-1" "SQL OR 1=1 Injection"
      "or\s+1\s*=\s*1" 3 "sqli" "Detects OR 1=1 injection attempts";
    R "sqli-drop-table" "SQL DROP TABLE Injection"
      "drop\s+table" 5 "sqli" "Detects DROP TABLE injection attempts";
    R "nosqli-operator" "NoSQL Operator Injection"
      "\$where|\$ne|\$gt|\$lt|\$regex" 3 "nosqli"
      "Detects NoSQL operator injection" ].

(** [loadRules]: the built-in rules, then the custom rules of the
    configuration. *)
Definition loadRules (config : Config.t) : list Rule.t :=
  loadBuiltInRules
  ++ match Config.rules config with
     | Some rs => rs
     | None => []
     end.

(** [new RuleEngine(config)] *)
Definition new (config : Config.t) : t :=
  Make (loadModules config) (loadRules config)
       (Config.orQ (Config.threshold config) 10).

(** [setRuleManager(ruleManager)]: the rule set is replaced by the
    enabled rules of the manager. *)
Definition setRuleManager (self : t) (enabledRules : list Rule.t) : t :=
  Make (modules self) enabledRules (threshold self).

Definition addRule (self : t) (rule : Rule.t) : t :=
  Make (modules self) (rules self ++ [rule]) (threshold self).

Definition removeRule (self : t) (ruleId : string) : t :=
  Make (modules self)
       (List.filter (fun rule => negb (String.eqb (Rule.id rule) ruleId))
                    (rules self))
       (threshold self).

Definition getModule (self : t) (name : string) : option ModuleInstance :=
  map_get (modules self) name.

(** [searchTexts.some(text => { rule.pattern.lastIndex = 0;
    return rule.pattern.test(text); })] on the shared pattern object. *)
Fixpoint some_test (re : RegExp.t) (texts : list string) : RegExp.t * bool :=
  match texts with
  | [] => (re, false)
  | text :: texts' =>
      let (re', hit) := RegExp.test (RegExp.set_lastIndex re 0) text in
      if hit then (re', true) else some_test re' texts'
  end.

Definition evaluateRule (rule : Rule.t) (analysis : Analysis.t)
  : Rule.t * bool :=
  let searchTexts := Analysis.extractSearchTexts analysis in
  let (re, hit) := some_test (Rule.pattern rule) searchTexts in
  (Rule.set_pattern rule re, hit).

Inductive Action : Type := allow | block.

(** [`Threat score ${score} exceeds threshold ${threshold}`] *)
Inductive Reason : Type :=
| ThreatScoreExceeds (score threshold : Q).

(** [`req_${Date.now()}_${Math.random().toString(36).substr(2, 9)}`] *)
Definition generateRequestId (env : Env.t) : string :=
  "req_" ++ pretty (Env.now env) ++ "_" ++ Env.random env.

Record Result : Type := MkResult {
  action : Action;
  score : Q;
  reason : option Reason;
  requestId : string;
  analysis : Analysis.t;
  matchedRules : list Rule.t
}.

(** The [this.rules.forEach] loop of [evaluate]: the rules after the
    scan, the matched rules and the running score. *)
Fixpoint scan_rules (rs : list Rule.t) (analysis : Analysis.t)
  (matched : list Rule.t) (score : Q) : list Rule.t * list Rule.t * Q :=
  match rs with
  | [] => ([], matched, score)
  | rule :: rs' =>
      let (rule', hit) := evaluateRule rule analysis in
      let '(rs'', matched', score') :=
        if hit
        then scan_rules rs' analysis (matched ++ [rule']) (score + Rule.score rule')%Q
        else scan_rules rs' analysis matched score in
      (rule' :: rs'', matched', score')
  end.

(** [evaluate(analysis)] *)
Definition evaluate (self : t) (env : Env.t) (analysis : Analysis.t)
  : t * Result :=
  let requestId := generateRequestId env in
  (* Check threshold *)
  let '(action0, reason0) :=
    if Qle_bool (threshold self) (Analysis.score analysis)
    then (block,
          Some (ThreatScoreExceeds (Analysis.score analysis) (threshold self)))
    else (allow, None) in
  (* Check individual rules *)
  let '(rules', matched, score') :=
    scan_rules (rules self) analysis [] (Analysis.score analysis) in
  (* Re-check threshold with updated score *)
  let '(action1, reason1) :=
    if Qle_bool (threshold self) score'
    then (block, Some (ThreatScoreExceeds score' (threshold self)))
    else (action0, reason0) in
  (Make (modules self) rules' (threshold self),
   MkResult action1 score' reason1 requestId analysis matched).

End RuleEngine.

(* ===================================================================== *)
(** ** Rule manager (lib/core/rule-manager.js) *)
(* ===================================================================== *)

(** The rule manager as far as the engine reads it: the map of rules
    and [getEnabledRules].  The members [severity], [tags] and [addedAt]
    of a rule, the category index and the list of custom rules are
    written but not read on this path.  [config.customRules] and
    [config.autoUpdate] are not members of the configuration record:
    there are no custom rules and no update timer. *)
Module RuleManager.

(** A rule literal handed to [addRules]; [enabled] may be absent. *)
Record RuleSpec : Type := MkSpec {
  sp_id : string;
  sp_name : string;
  sp_category : string;
  sp_pattern : RegExp.t;
  sp_score : Q;
  sp_description : string;
  sp_enabled : option bool
}.

(** A rule of the map: [{ ...rule, source, addedAt, enabled }]. *)
Record ManagedRule : Type := MkManaged {
  id : string;
  name : string;
  category : string;
  pattern : RegExp.t;
  score : Q;
  description : string;
  source : string;
  enabled : bool
}.

Record t : Type := Make {
  rules : list (string * ManagedRule)
}.

Definition D (id name category : string) (pattern : RegExp.t) (score : Q)
  (description : string) : RuleSpec :=
  MkSpec id name category pattern score description None.

(** The rules of [createDefaultBuiltInRules]. *)
Definition defaultRules : list RuleSpec :=
  [ D "xss-script-tag" "XSS Script Tag Detection" "xss"
      (RegExp.gi "<script[^>]*>.*?<\/script>") 3
      "Detects script tag injection attempts";
    D "xss-javascript-url" "XSS JavaScript URL Detection" "xss"
      (RegExp.gi "javascript:") 2 "Detects javascript: URL schemes";
    D "xss-event-handler" "XSS Event Handler Detection" "xss"
      (RegExp.gi "on\w+\s*=") 2 "Detects event handler injection";
    D "sqli-union" "SQL Union Injection" "sqli"
      (RegExp.gi "union\s+select") 4 "Detects UNION SELECT injection attempts";
    D "sqli-or-1-1" "SQL OR 1=1 Injection" "sqli"
      (RegExp.gi "or\s+1\s*=\s*1") 3 "Detects OR 1=1 injection attempts";
    D "sqli-drop-table" "SQL DROP TABLE Injection" "sqli"
      (RegExp.gi "drop\s+table") 5 "Detects DROP TABLE injection attempts";
    D "sqli-comment" "SQL Comment Injection" "sqli"
      (RegExp.gm "--\s*$") 2 "Detects SQL comment injection";
    D "nosqli-operator" "NoSQL Operator Injection" "nosqli"
      (RegExp.gi "\$where|\$ne|\$gt|\$lt|\$regex") 3
      "Detects NoSQL operator injection";
    D "path-traversal" "Path Traversal Detection" "path-traversal"
      (RegExp.gi "\.\.\/|\.\.\\|\.\.%2f|\.\.%5c") 4
      "Detects path traversal attempts";
    D "cmd-injection" "Command Injection Detection" "cmd-injection"
      (RegExp.gi "[;&|`$(){}[\]\\]") 2
      "Detects command injection characters" ].

(** [addRules(rules, source)].  A rule literal of the record type has
    the five required members, so [validateRule] accepts it, and its
    pattern is a compiled expression already. *)
Definition addRules (self : t) (rules0 : list RuleSpec) (source : string) : t :=
  fold_left
    (fun self rule =>
       Make (RuleEngine.map_set (rules self) (sp_id rule)
               (MkManaged (sp_id rule) (sp_name rule) (sp_category rule)
                  (sp_pattern rule) (sp_score rule) (sp_description rule)
                  source
                  (match sp_enabled rule with
                   | Some false => false
                   | _ => true
                   end))))
    rules0 self.

(** [createDefaultBuiltInRules()] *)
Definition createDefaultBuiltInRules (self : t) : t :=
  addRules self defaultRules "builtin".

(** [new RuleManager(config)]: the package ships no
    [lib/rules/builtin.json], so [loadBuiltInRules] creates the default
    rules; the configuration has no [customRules] and the community
    rules are switched off. *)
Definition new (config : Config.t) : t :=
  createDefaultBuiltInRules (Make []).

(** [getEnabledRules()] *)
Definition getEnabledRules (self : t) : list ManagedRule :=
  List.filter enabled (List.map snd (rules self)).

(** The [enabledRules.map] of [RuleEngine.loadRulesFromManager]: the
    rules as the engine keeps them, [module] being the category. *)
Definition loadRulesFromManager (self : t) : list Rule.t :=
  List.map
    (fun rule =>
       Rule.Make (id rule) (name rule) (pattern rule) (score rule)
                 (category rule) (description rule))
    (getEnabledRules self).

End RuleManager.

(* ===================================================================== *)
(** ** Anomaly scorer (lib/core/anomaly-scorer.js) *)
(* ===================================================================== *)

Module AnomalyScorer.
Import AnomalyResult.
Local Open Scope Q_scope.

(** [{ count, window }] *)
Record IpData : Type := MkIpData {
  count : Z;
  window : Z
}.

Record Baseline : Type := MkBaseline {
  requestFrequency : gmap string IpData;
  userAgentPatterns : gmap string Z;
  pathPatterns : gmap string Z;
  queryPatterns : gmap string Z;
  bodySizePatterns : gmap Z Z
}.

Record t : Type := Make {
  config : Config.t;
  baseline : Baseline;
  isLearning : bool
}.

Definition set_baseline (self : t) (b : Baseline) : t :=
  Make (config self) b (isLearning self).

Definition set_requestFrequency (b : Baseline) (m : gmap string IpData)
  : Baseline :=
  MkBaseline m (userAgentPatterns b) (pathPatterns b) (queryPatterns b)
             (bodySizePatterns b).

(** [new AnomalyScorer(config)] *)
Definition new (config : Config.t) : t :=
  Make config (MkBaseline ∅ ∅ ∅ ∅ ∅) true.

(** [a > b] where [b] may be [undefined] (the comparison is then false). *)
Definition gt_opt (a : Q) (b : option Q) : bool :=
  match b with
  | Some v => negb (Qle_bool a v)
  | None => false
  end.

(** [a > b] where [a] may be [undefined]. *)
Definition opt_gt (a : option Q) (b : Q) : bool :=
  match a with
  | Some v => negb (Qle_bool v b)
  | None => false
  end.

Definition Qgtb (a b : Q) : bool := negb (Qle_bool a b).
Definition Qltb (a b : Q) : bool := negb (Qle_bool b a).
Definition Qmin (a b : Q) : Q := if Qle_bool a b then a else b.

(** [Math.round(x)]: the nearest integer, halves upwards. *)
Definition round (x : Q) : Z := Qfloor (x + (1 # 2)).

Definition sumZ (l : list Z) : Z := fold_left Z.add l 0%Z.

Definition calculateAverageRequestsPerWindow (b : Baseline) : Q :=
  let totalRequests :=
    sumZ (List.map (fun kv => count (snd kv)) (map_to_list (requestFrequency b))) in
  let uniqueIPs := Z.of_nat (size (requestFrequency b)) in
  if (0 <? uniqueIPs)%Z then inject_Z totalRequests / inject_Z uniqueIPs
  else 0.

Definition calculateAverageBodySize (b : Baseline) : Q :=
  let entries := map_to_list (bodySizePatterns b) in
  let totalCount := sumZ (List.map snd entries) in
  if (totalCount =? 0)%Z then 0
  else
    let weightedSum := sumZ (List.map (fun kv => (fst kv * snd kv)%Z) entries) in
    inject_Z weightedSum / inject_Z totalCount.

(** 1. Request frequency: the per-IP window counter is updated on the
    way. *)
Definition calculateFrequencyAnomaly (self : t) (now : Z)
  (analysis : Analysis.t) : t * Q :=
  let ip := Analysis.ip analysis in
  let windowMs := (5 * 60 * 1000)%Z in
  let ipData :=
    match requestFrequency (baseline self) !! ip with
    | Some d => d
    | None => MkIpData 0 now
    end in
  let ipData :=
    if (windowMs <? now - window ipData)%Z then MkIpData 0 now else ipData in
  let ipData := MkIpData (count ipData + 1) (window ipData) in
  let b :=
    set_requestFrequency (baseline self)
      (<[ip := ipData]> (requestFrequency (baseline self))) in
  let avgRequestsPerWindow := calculateAverageRequestsPerWindow b in
  let expectedMax := avgRequestsPerWindow * 2 in
  (set_baseline self b,
   if Qgtb (inject_Z (count ipData)) expectedMax then
     let excess := inject_Z (count ipData) - expectedMax in
     Qmin (excess * (1 # 2)) 10
   else 0).

Definition botPatterns : list RegExp.t :=
  List.map RegExp.i
    ["bot"; "crawler"; "spider"; "scraper"; "curl"; "wget"; "python";
     "java"; "postman"; "insomnia"].

Definition knownBots : list string :=
  ["Googlebot"; "Bingbot"; "Slurp"; "DuckDuckBot"; "Baiduspider";
   "YandexBot"; "facebookexternalhit"].

Definition isKnownBot (userAgent : string) : bool :=
  existsb (fun bot => JS.includes userAgent bot) knownBots.

(** [pattern.test(text)] for a pattern without the global flag: the
    pattern object is not changed. *)
Definition matches (re : RegExp.t) (text : string) : bool :=
  snd (RegExp.test re text).

Definition lookup0 (m : gmap string Z) (k : string) : Z :=
  match m !! k with
  | Some v => v
  | None => 0
  end.

Definition total (m : gmap string Z) : Z :=
  sumZ (List.map snd (map_to_list m)).

(** 2. User-Agent *)
Definition calculateUserAgentAnomaly (self : t) (analysis : Analysis.t) : Q :=
  let userAgent := Analysis.userAgent analysis in
  if negb (JS.truthy_string userAgent) || (String.length userAgent <? 10)%nat
  then 3
  else if existsb (fun pattern => matches pattern userAgent) botPatterns
          && negb (isKnownBot userAgent)
  then 2
  else if (500 <? String.length userAgent)%nat then 4
  else
    let frequency := lookup0 (userAgentPatterns (baseline self)) userAgent in
    let totalRequests := total (userAgentPatterns (baseline self)) in
    if (0 <? totalRequests)%Z
       && Qltb (inject_Z frequency / inject_Z totalRequests) (1 # 100)
    then 1
    else 0.

Definition suspiciousPatterns : list RegExp.t :=
  List.map RegExp.plain
    ["\.\."; "\/admin"; "\/wp-admin"; "\/phpmyadmin"; "\.env"; "\.git";
     "\.svn"; "\/api\/v\d+\/.*\/.*\/.*"; "\/[a-f0-9]{32,}";
     "\/[A-Za-z0-9+/]{20,}={0,2}"].

(** 3. Path *)
Definition calculatePathAnomaly (self : t) (analysis : Analysis.t) : Q :=
  let path := Analysis.path analysis in
  if existsb (fun pattern => matches pattern path) suspiciousPatterns then 2
  else if (200 <? String.length path)%nat then 1
  else
    let frequency := lookup0 (pathPatterns (baseline self)) path in
    let totalRequests := total (pathPatterns (baseline self)) in
    if (0 <? totalRequests)%Z
       && Qltb (inject_Z frequency / inject_Z totalRequests) (5 # 1000)
    then 1
    else 0.

Definition suspiciousParams : list string :=
  ["cmd"; "exec"; "eval"; "system"; "shell"; "file"; "path"; "dir"; "root";
   "admin"; "password"; "passwd"; "pwd"; "secret"; "token"; "key"; "auth";
   "login"].

Definition isEncoded (str : string) : bool :=
  matches (RegExp.plain "^[A-Za-z0-9+/]+={0,2}$") str
  || matches (RegExp.plain "%[0-9a-fA-F]{2}") str
  || matches (RegExp.plain "&#x?[0-9a-fA-F]+;") str.

(** 4. Query parameters *)
Definition calculateQueryAnomaly (analysis : Analysis.t) : Q :=
  match Analysis.query analysis with
  | None => 0
  | Some [] => 0
  | Some query =>
      let score :=
        fold_left
          (fun (score : Q) (kv : string * JS.value) =>
             let (key, value) := kv in
             let score :=
               if existsb (fun param => JS.includes (JS.toLowerCase key) param)
                          suspiciousParams
               then score + 2 else score in
             let score :=
               match value with
               | JS.VString v =>
                   if (1000 <? String.length v)%nat then score + 1 else score
               | JS.VOther => score
               end in
             match value with
             | JS.VString v => if isEncoded v then score + 1 else score
             | JS.VOther => score
             end)
          query 0 in
      Qmin score 5
  end.

Definition bodySize (body : JS.body) : Z :=
  match body with
  | JS.BNone => 0
  | JS.BString s => Z.of_nat (String.length s)
  | JS.BObject json => Z.of_nat (String.length json)
  end.

(** 5. Body size *)
Definition calculateBodySizeAnomaly (self : t) (analysis : Analysis.t) : Q :=
  let bodySize := inject_Z (bodySize (Analysis.body analysis)) in
  let avgBodySize := calculateAverageBodySize (baseline self) in
  let maxBodySize := avgBodySize * 3 in
  if Qgtb bodySize maxBodySize then
    let excess := bodySize - maxBodySize in
    Qmin (excess / 1000) 5
  else 0.

(** [!headers[header]]: the header is absent or holds the empty string. *)
Definition header_missing (headers : JS.object) (header : string) : bool :=
  match JS.get headers header with
  | None => true
  | Some (JS.VString v) => negb (JS.truthy_string v)
  | Some JS.VOther => false
  end.

(** 6. Headers *)
Definition calculateHeaderAnomaly (analysis : Analysis.t) : Q :=
  let headers := Analysis.headers analysis in
  let commonHeaders := ["user-agent"; "accept"; "accept-language"] in
  let missingHeaders := List.filter (header_missing headers) commonHeaders in
  let score : Q := if (1 <? List.length missingHeaders)%nat then 2 else 0 in
  let score :=
    fold_left
      (fun (score : Q) (kv : string * JS.value) =>
         match snd kv with
         | JS.VString value =>
             let score :=
               if (500 <? String.length value)%nat then score + 1 else score in
             if isEncoded value && (100 <? String.length value)%nat
             then score + 1 else score
         | JS.VOther => score
         end)
      headers score in
  Qmin score 3.

(** 7. Time of the request *)
Definition calculateTimeAnomaly (env : Env.t) : Q :=
  let hour := Env.hour env in
  if (2 <=? hour)%Z && (hour <=? 6)%Z then 1
  else
    let dayOfWeek := Env.day env in
    if (dayOfWeek =? 0)%Z || (dayOfWeek =? 6)%Z then 1 # 2
    else 0.

(** 8. Geography: not implemented by the code. *)
Definition calculateGeographicAnomaly (analysis : Analysis.t) : Q := 0.

Definition calculateConfidence (factors : list Factor) : Q :=
  match factors with
  | [] => 0
  | _ =>
      let totalScore := fold_left (fun sum factor => sum + score factor) factors 0 in
      let factorCount := inject_Z (Z.of_nat (List.length factors)) in
      Qmin ((totalScore / factorCount) * (1 # 10)) 1
  end.

(** [if (s > 0) { totalScore += s; factors.push({ type, score: s }) }] *)
Definition add_factor (acc : Q * list Factor) (ty : string) (s : Q)
  : Q * list Factor :=
  if Qgtb s 0 then (fst acc + s, snd acc ++ [MkFactor ty s]) else acc.

(** [calculateScore(analysis)] *)
Definition calculateScore (self : t) (env : Env.t) (analysis : Analysis.t)
  : t * AnomalyResult.t :=
  if opt_gt (Config.anomalyThreshold (config self)) 100
  then (self, AnomalyResult.Make 0 [] (JBool false) 0)
  else
    let acc : Q * list Factor := (0, []) in
    let (self, frequencyScore) :=
      calculateFrequencyAnomaly self (Env.now env) analysis in
    let acc := add_factor acc "frequency" frequencyScore in
    let acc := add_factor acc "userAgent" (calculateUserAgentAnomaly self analysis) in
    let acc := add_factor acc "path" (calculatePathAnomaly self analysis) in
    let acc := add_factor acc "query" (calculateQueryAnomaly analysis) in
    let acc := add_factor acc "bodySize" (calculateBodySizeAnomaly self analysis) in
    let acc := add_factor acc "header" (calculateHeaderAnomaly analysis) in
    let acc := add_factor acc "time" (calculateTimeAnomaly env) in
    let acc := add_factor acc "geographic" (calculateGeographicAnomaly analysis) in
    let (totalScore, factors) := acc in
    (self,
     AnomalyResult.Make (inject_Z (round (totalScore * 100)) / 100)
              factors
              (if gt_opt totalScore (Config.anomalyThreshold (config self))
               then JBool true
               else JNumber 5)
              (calculateConfidence factors)).

Definition bump (m : gmap string Z) (k : string) : gmap string Z :=
  <[k := (lookup0 m k + 1)%Z]> m.

(** [updateBaseline(analysis)] at clock reading [now]. *)
Definition updateBaseline (self : t) (now : Z) (analysis : Analysis.t) : t :=
  if negb (isLearning self) then self
  else
    let b := baseline self in
    let ip := Analysis.ip analysis in
    let userAgent := Analysis.userAgent analysis in
    let path := Analysis.path analysis in
    let ipData :=
      match requestFrequency b !! ip with
      | Some d => d
      | None => MkIpData 0 now
      end in
    let freq :=
      <[ip := MkIpData (count ipData + 1) (window ipData)]> (requestFrequency b) in
    let uas :=
      if JS.truthy_string userAgent then bump (userAgentPatterns b) userAgent
      else userAgentPatterns b in
    let paths := bump (pathPatterns b) path in
    let queries :=
      match Analysis.query analysis with
      | Some query => fold_left bump (JS.keys query) (queryPatterns b)
      | None => queryPatterns b
      end in
    let size := bodySize (Analysis.body analysis) in
    let sizes :=
      if (0 <? size)%Z then
        <[size := (match bodySizePatterns b !! size with
                   | Some c => c
                   | None => 0%Z
                   end + 1)%Z]> (bodySizePatterns b)
      else bodySizePatterns b in
    set_baseline self (MkBaseline freq uas paths queries sizes).

(** The callback of the timer set by [startLearning]:
    [this.isLearning = false; this.finalizeBaseline()] (the averages
    [finalizeBaseline] stores are never read again). *)
Definition endLearning (self : t) : t :=
  Make (config self) (baseline self) false.

End AnomalyScorer.

(* ===================================================================== *)
(** ** Adaptive learning (lib/core/adaptive-learning.js) *)
(* ===================================================================== *)

Module AdaptiveLearning.
Local Open Scope Q_scope.

Inductive Phase : Type := COLLECTING | ANALYZING | ADAPTING | PROTECTING.

(** An entry of [learningData.threats]:
    [{ timestamp, ip, threats, score }]. *)
Record ThreatEntry : Type := MkThreatEntry {
  te_timestamp : Z;
  te_ip : string;
  te_threats : list Threat.t;
  te_score : Q
}.

(** The learner.  [requests] and [threats] are the two buffers of
    [learningData]; an entry of [requests] copies the members of the
    analysis record.  The profile derived from the buffers when a phase
    is entered (patterns, normal behaviour, thresholds, adaptations) is
    written but never read by request processing and is not part of the
    state modelled here. *)
Record t : Type := Make {
  isLearning : bool;
  learningPeriod : Z;
  startTime : Z;
  endTime : Z;
  requests : list Analysis.t;
  threats : list ThreatEntry;
  learningProgress : Q;
  currentPhase : Phase
}.

Definition dayMs : Z := (24 * 60 * 60 * 1000)%Z.

(** [new AdaptiveLearning(config, anomalyScorer)] at clock reading [now]. *)
Definition new (config : Config.t) (now : Z) : t :=
  let isLearning := Config.adaptiveLearning config in
  let learningPeriod := Config.orZ (Config.learningPeriod config) 7 in
  Make isLearning learningPeriod now (now + learningPeriod * dayMs)%Z
       [] [] 0
       (if isLearning then COLLECTING else PROTECTING).

(** The buffer cap of [recordRequest]. *)
Definition cap : nat := 100 * 100.

(** [a.slice(-n)]: the last [n] elements. *)
Definition slice_last {A : Type} (n : nat) (l : list A) : list A :=
  skipn (List.length l - n) l.

(** [recordRequest(analysis)] *)
Definition recordRequest (self : t) (analysis : Analysis.t) : t :=
  let requests := requests self ++ [analysis] in
  let requests :=
    if (cap <? List.length requests)%nat then slice_last cap requests
    else requests in
  let threats :=
    if (0 <? List.length (Analysis.threats analysis))%nat
    then threats self
         ++ [MkThreatEntry (Analysis.timestamp analysis) (Analysis.ip analysis)
                           (Analysis.threats analysis) (Analysis.score analysis)]
    else threats self in
  Make (isLearning self) (learningPeriod self) (startTime self) (endTime self)
       requests threats (learningProgress self) (currentPhase self).

Definition Qmin (a b : Q) : Q := if Qle_bool a b then a else b.

(** [updateLearningProgress()] at clock reading [now]. *)
Definition updateLearningProgress (self : t) (now : Z) : t :=
  let totalDuration := (endTime self - startTime self)%Z in
  let elapsed := (now - startTime self)%Z in
  Make (isLearning self) (learningPeriod self) (startTime self) (endTime self)
       (requests self) (threats self)
       (Qmin (inject_Z elapsed / inject_Z totalDuration) 1)
       (currentPhase self).

(** What [processRequest] returns. *)
Record LearningResult : Type := MkLearningResult {
  lr_action : string;
  lr_reason : string;
  lr_learningPhase : option Phase;
  lr_progress : option Q
}.

(** [processRequest(analysis)] *)
Definition processRequest (self : t) (now : Z) (analysis : Analysis.t)
  : t * LearningResult :=
  if negb (isLearning self) then
    (self, MkLearningResult "allow" "Not in learning mode" None None)
  else
    let self := recordRequest self analysis in
    let self := updateLearningProgress self now in
    (self,
     MkLearningResult "allow" "Learning mode - collecting data"
                      (Some (currentPhase self))
                      (Some (learningProgress self))).

(** [finalizeLearning()] *)
Definition finalizeLearning (self : t) : t :=
  Make false (learningPeriod self) (startTime self) (endTime self)
       (requests self) (threats self) 1 (currentPhase self).

(** [transitionToPhase(newPhase)]; entering [ANALYZING] or [ADAPTING]
    only computes the derived profile. *)
Definition transitionToPhase (self : t) (newPhase : Phase) : t :=
  let self :=
    Make (isLearning self) (learningPeriod self) (startTime self)
         (endTime self) (requests self) (threats self)
         (learningProgress self) newPhase in
  match newPhase with
  | PROTECTING => finalizeLearning self
  | _ => self
  end.

(** The three timers of [setupPhaseTransitions]: the phase each one
    enters and the instant it is due (60 %, 80 % and 100 % of the
    learning period after [startTime]). *)
Definition setupPhaseTransitions (self : t) : list (Z * Phase) :=
  [ ((startTime self + learningPeriod self * dayMs * 6 / 10)%Z, ANALYZING);
    ((startTime self + learningPeriod self * dayMs * 8 / 10)%Z, ADAPTING);
    (endTime self, PROTECTING) ].

End AdaptiveLearning.

(* ===================================================================== *)
(** ** The middleware (class WAFMiddleware) *)
(* ===================================================================== *)

(** The request object the HTTP framework hands over. *)
Module Request.
Record t : Type := Make {
  ip : option string;
  remoteAddress : option string;
  method : string;
  path : string;
  query : option JS.object;
  body : JS.body;
  headers : JS.object;
  cookies : option JS.object
}.
End Request.

Module WAFMiddleware.

(** Timer callbacks registered by the constructors. *)
Inductive Callback : Type :=
| ScorerLearningDone
| PhaseTransition (p : AdaptiveLearning.Phase).

(** Counters of the stats collector that the middleware drives. *)
Record Stats : Type := MkStats {
  totalRequests : Z;
  blockedRequests : Z;
  threatsDetected : Z;
  learningModeRequests : Z
}.

Record t : Type := Make {
  config : Config.t;
  ruleEngine : RuleEngine.t;
  anomalyScorer : AnomalyScorer.t;
  adaptiveLearning : AdaptiveLearning.t;
  isLearningMode : bool;
  stats : Stats;
  (* pending one-shot timers, in firing order *)
  timers : list (Z * Callback)
}.

(** Pending timers are kept in firing order: in order of expiry, and in
    order of creation among equals. *)
Fixpoint insert_timer (due : Z) (cb : Callback) (ts : list (Z * Callback))
  : list (Z * Callback) :=
  match ts with
  | [] => [(due, cb)]
  | (d, c) :: ts' =>
      if (due <? d)%Z then (due, cb) :: ts
      else (d, c) :: insert_timer due cb ts'
  end.

Definition TIMEOUT_MAX : Z := 2147483647.

(** [setTimeout(cb, delay)] at clock reading [now]: a delay below 1 ms or
    above [TIMEOUT_MAX] counts as 1 ms. *)
Definition setTimeout (now delay : Z) (cb : Callback) (ts : list (Z * Callback))
  : list (Z * Callback) :=
  let delay :=
    if (delay <? 1)%Z || (TIMEOUT_MAX <? delay)%Z then 1%Z else delay in
  insert_timer (now + delay) cb ts.

(** [createWAF(options)] at clock reading [now]: the engine and the
    collaborators are built from the merged configuration, the engine
    takes over the enabled rules of the rule manager, and [isLearningMode]
    is computed. *)
Definition new (config : Config.t) (enabledRules : list Rule.t) (now : Z) : t :=
  let ruleEngine := RuleEngine.new config in
  let anomalyScorer := AnomalyScorer.new config in
  let timers :=
    if Config.adaptiveLearning config
    then setTimeout now
           (Config.orZ (Config.learningPeriod config) 7 * AdaptiveLearning.dayMs)%Z
           ScorerLearningDone []
    else [] in
  let adaptiveLearning := AdaptiveLearning.new config now in
  let timers :=
    if AdaptiveLearning.isLearning adaptiveLearning
    then fold_left
           (fun ts dp =>
              setTimeout now (fst dp - now)%Z (PhaseTransition (snd dp)) ts)
           (AdaptiveLearning.setupPhaseTransitions adaptiveLearning) timers
    else timers in
  let ruleEngine := RuleEngine.setRuleManager ruleEngine enabledRules in
  Make config ruleEngine anomalyScorer adaptiveLearning
       (Config.adaptiveLearning config
        && AdaptiveLearning.isLearning adaptiveLearning)
       (MkStats 0 0 0 0)
       timers.

Definition set_adaptiveLearning (self : t) (al : AdaptiveLearning.t) : t :=
  Make (config self) (ruleEngine self) (anomalyScorer self) al
       (isLearningMode self) (stats self) (timers self).
Definition set_anomalyScorer (self : t) (sc : AnomalyScorer.t) : t :=
  Make (config self) (ruleEngine self) sc (adaptiveLearning self)
       (isLearningMode self) (stats self) (timers self).
Definition set_ruleEngine (self : t) (re : RuleEngine.t) : t :=
  Make (config self) re (anomalyScorer self) (adaptiveLearning self)
       (isLearningMode self) (stats self) (timers self).
Definition set_stats (self : t) (st : Stats) : t :=
  Make (config self) (ruleEngine self) (anomalyScorer self)
       (adaptiveLearning self) (isLearningMode self) st (timers self).
Definition set_timers (self : t) (ts : list (Z * Callback)) : t :=
  Make (config self) (ruleEngine self) (anomalyScorer self)
       (adaptiveLearning self) (isLearningMode self) (stats self) ts.

(** One timer callback. *)
Definition run_callback (self : t) (cb : Callback) : t :=
  match cb with
  | ScorerLearningDone =>
      set_anomalyScorer self (AnomalyScorer.endLearning (anomalyScorer self))
  | PhaseTransition p =>
      set_adaptiveLearning self
        (AdaptiveLearning.transitionToPhase (adaptiveLearning self) p)
  end.

(** The event loop at clock reading [now]: every timer that is due
    fires, in order. *)
Fixpoint fire_due (now : Z) (ts : list (Z * Callback)) (self : t) : t :=
  match ts with
  | [] => set_timers self []
  | (due, cb) :: ts' =>
      if (due <=? now)%Z then fire_due now ts' (run_callback self cb)
      else set_timers self ts
  end.

Definition run_timers (self : t) (now : Z) : t :=
  fire_due now (timers self) self.

(** Events the middleware emits. *)
Inductive Event : Type :=
| threat_detected (type : string) (analysis : Analysis.t)
    (learningResult : option AdaptiveLearning.LearningResult)
| request_blocked (decision : RuleEngine.Result)
| error.

(** The JSON body of the 403 response. *)
Record BlockBody : Type := MkBlockBody {
  bb_error : string;
  bb_reason : option RuleEngine.Reason;
  bb_requestId : string;
  bb_score : Q;
  bb_anomalyScore : option Q;
  bb_threats : list string;
  bb_timestamp : Z
}.

(** How the middleware leaves a request: it calls [next()] or it sends
    the 403 response. *)
Inductive Outcome : Type :=
| next
| status403 (body : BlockBody).

(** [s.split(',')[0]] *)
Fixpoint first_token (s : string) : string :=
  match s with
  | EmptyString => EmptyString
  | String c s' => if Ascii.eqb c "," then EmptyString else String c (first_token s')
  end.

Definition is_space (c : ascii) : bool :=
  existsb (RegExp.in_range (nat_of_ascii c)) RegExp.ws_ranges.

Fixpoint trim_start (s : string) : string :=
  match s with
  | EmptyString => EmptyString
  | String c s' => if is_space c then trim_start s' else s
  end.

Fixpoint trim_end (s : string) : string :=
  match s with
  | EmptyString => EmptyString
  | String c s' =>
      match trim_end s' with
      | EmptyString => if is_space c then EmptyString else String c EmptyString
      | t => String c t
      end
  end.

(** [String.prototype.trim] *)
Definition trim (s : string) : string := trim_end (trim_start s).

(** [a || b] on optional strings ([undefined] and the empty string are
    falsy). *)
Definition or_string (a : option string) (b : option string) : option string :=
  match a with
  | Some s => if JS.truthy_string s then a else b
  | None => b
  end.

(** [getClientIP(req)].  The header is read only when the request has
    no address of its own; [?.] guards an absent header only, so a
    header value that is not a string makes the call of [split] throw a
    [TypeError], for which [None] stands. *)
Definition getClientIP (req : Request.t) : option string :=
  match or_string (Request.ip req)
          (or_string (Request.remoteAddress req) None) with
  | Some s => Some s
  | None =>
      match JS.get (Request.headers req) "x-forwarded-for" with
      | None => Some "unknown"
      | Some (JS.VString v) =>
          match or_string (Some (trim (first_token v))) None with
          | Some s => Some s
          | None => Some "unknown"
          end
      | Some JS.VOther => None
      end
  end.

(** [req.get('User-Agent') || ''], for a header that is a string when it
    is present. *)
Definition userAgent_of (req : Request.t) : string :=
  match JS.get (Request.headers req) "user-agent" with
  | Some (JS.VString v) => v
  | _ => ""
  end.

(** [shouldSkipPath(path)] *)
Definition shouldSkipPath (self : t) (path : string) : bool :=
  let skipPaths :=
    match Config.skipPaths (config self) with
    | Some l => l
    | None => ["/health"; "/metrics"; "/favicon.ico"]
    end in
  existsb (fun skipPath => JS.startsWith path skipPath) skipPaths.

(** [module.analyze(analysis)] by dynamic dispatch. *)
Definition module_analyze (m : RuleEngine.ModuleInstance) (env : Env.t)
  (analysis : Analysis.t)
  : RuleEngine.ModuleInstance * option ModuleResult.t :=
  match m with
  | RuleEngine.XSS x =>
      let (x', r) := XSSModule.analyze x analysis in (RuleEngine.XSS x', r)
  | RuleEngine.SQLi x =>
      let (x', r) := SQLiModule.analyze x analysis in (RuleEngine.SQLi x', r)
  | RuleEngine.RateLimit x =>
      let (x', r) := RateLimitModule.analyze x (Env.now env) analysis in
      (RuleEngine.RateLimit x', r)
  end.

(** The [this.config.modules.forEach] loop of [analyzeRequest]. *)
Fixpoint run_modules (names : list string) (env : Env.t)
  (engine : RuleEngine.t) (analysis : Analysis.t)
  : RuleEngine.t * Analysis.t :=
  match names with
  | [] => (engine, analysis)
  | moduleName :: names' =>
      match RuleEngine.getModule engine moduleName with
      | Some module =>
          let (module', moduleResult) := module_analyze module env analysis in
          let engine' :=
            RuleEngine.Make
              (RuleEngine.map_set (RuleEngine.modules engine) moduleName module')
              (RuleEngine.rules engine) (RuleEngine.threshold engine) in
          match moduleResult with
          | Some r =>
              run_modules names' env engine'
                (Analysis.add_module_result analysis moduleName r)
          | None => run_modules names' env engine' analysis
          end
      | None => run_modules names' env engine analysis
      end
  end.

(** The fresh analysis record of [analyzeRequest]; [None] when
    [getClientIP] throws. *)
Definition initial_analysis (env : Env.t) (req : Request.t)
  : option Analysis.t :=
  match getClientIP req with
  | Some ip =>
      Some (Analysis.Make (Env.now env) ip (userAgent_of req)
              (Request.method req) (Request.path req) (Request.query req)
              (Request.body req) (Request.headers req)
              (match Request.cookies req with Some c => c | None => [] end)
              0 [] [] None)
  | None => None
  end.

(** [analyzeRequest(req)]; [None] when it throws, which it does before
    any module has run. *)
Definition analyzeRequest (self : t) (env : Env.t) (req : Request.t)
  : option (t * Analysis.t) :=
  match initial_analysis env req with
  | None => None
  | Some analysis =>
      (* Run enabled modules *)
      let (engine, analysis) :=
        run_modules (Config.modules (config self)) env (ruleEngine self)
                    analysis in
      (* Calculate anomaly score and add it to the total score *)
      let (scorer, anomalyResult) :=
        AnomalyScorer.calculateScore (anomalyScorer self) env analysis in
      let analysis := Analysis.add_anomaly_result analysis anomalyResult in
      (* Update baseline for learning *)
      let scorer :=
        AnomalyScorer.updateBaseline scorer (Env.now env) analysis in
      Some (set_anomalyScorer (set_ruleEngine self engine) scorer, analysis)
  end.

(** [statsCollector.recordRequest] and [statsCollector.recordThreat]. *)
Definition recordRequest (st : Stats) : Stats :=
  MkStats (totalRequests st + 1) (blockedRequests st) (threatsDetected st)
          (learningModeRequests st).

Definition recordThreat (st : Stats) (action : string) : Stats :=
  MkStats (totalRequests st)
          (if String.eqb action "blocked"
           then blockedRequests st + 1 else blockedRequests st)
          (threatsDetected st + 1)
          (if String.eqb action "learning"
           then learningModeRequests st + 1 else learningModeRequests st).

(** [handleLearningMode(req, analysis)] *)
Definition handleLearningMode (self : t) (env : Env.t)
  (analysis : Analysis.t) : t * list Event :=
  let (al, learningResult) :=
    AdaptiveLearning.processRequest (adaptiveLearning self) (Env.now env)
                                    analysis in
  let self := set_adaptiveLearning self al in
  if negb (Qle_bool (Analysis.score analysis) 0) then
    (set_stats self (recordThreat (stats self) "learning"),
     [threat_detected "learning" analysis (Some learningResult)])
  else (self, []).

(** [handleBlock(req, res, decision)] *)
Definition handleBlock (self : t) (env : Env.t) (decision : RuleEngine.Result)
  : t * Outcome * list Event :=
  let analysis := RuleEngine.analysis decision in
  (set_stats self (recordThreat (stats self) "blocked"),
   status403
     (MkBlockBody "Request blocked by WAF"
        (RuleEngine.reason decision)
        (RuleEngine.requestId decision)
        (Analysis.score analysis)
        (option_map AnomalyResult.totalScore (Analysis.anomaly analysis))
        (List.map Threat.description (Analysis.threats analysis))
        (Env.now env)),
   [request_blocked decision]).

(** The middleware function.  On the requests of the model the body of
    the [try] can throw in [analyzeRequest] only, before anything has
    been recorded; the [catch] branch then emits [error] and calls
    [next()].  (The instance has a listener for [error], as in the
    examples of the package.) *)
Definition middleware (self : t) (env : Env.t) (req : Request.t)
  : t * Outcome * list Event :=
  (* Skip WAF for certain paths *)
  if shouldSkipPath self (Request.path req) then (self, next, [])
  else
    (* Analyze request *)
    match analyzeRequest self env req with
    | None =>
        (* In case of error, allow request to continue *)
        (self, next, [error])
    | Some (self, analysis) =>
        (* Update stats *)
        let self := set_stats self (recordRequest (stats self)) in
        (* Check if in learning mode *)
        if isLearningMode self then
          let (self, events) := handleLearningMode self env analysis in
          (self, next, events)
        else
          (* Apply rules and make decision *)
          let (engine, decision) :=
            RuleEngine.evaluate (ruleEngine self) env analysis in
          let self := set_ruleEngine self engine in
          match RuleEngine.action decision with
          | RuleEngine.block =>
              if Config.dryRun (config self) then
                (set_stats self (recordThreat (stats self) "dry-run"),
                 next,
                 [threat_detected "dry-run" analysis None])
              else handleBlock self env decision
          | RuleEngine.allow => (self, next, [])
          end
    end.

(** The sweeper of the rate-limit module ([setInterval(cleanup, 60000)]):
    every rate-limit module the engine has loaded is swept. *)
Definition sweep_module (now : Z) (m : RuleEngine.ModuleInstance)
  : RuleEngine.ModuleInstance :=
  match m with
  | RuleEngine.RateLimit m => RuleEngine.RateLimit (RateLimitModule.cleanup m now)
  | _ => m
  end.

Definition sweep (self : t) (now : Z) : t :=
  set_ruleEngine self
    (RuleEngine.Make
       (List.map (fun nm => (fst nm, sweep_module now (snd nm)))
                 (RuleEngine.modules (ruleEngine self)))
       (RuleEngine.rules (ruleEngine self))
       (RuleEngine.threshold (ruleEngine self))).

(** What happens to a running instance: a request arrives, the event
    loop runs the due timers, or the sweeper runs. *)
Inductive Input : Type :=
| HttpRequest (env : Env.t) (req : Request.t)
| Timers (now : Z)
| Sweep (now : Z).

Definition step (self : t) (i : Input) : t :=
  match i with
  | HttpRequest env req => fst (fst (middleware self env req))
  | Timers now => run_timers self now
  | Sweep now => sweep self now
  end.

Definition run (self : t) (inputs : list Input) : t :=
  fold_left step inputs self.

End WAFMiddleware.

(** [createWAF(options)] of lib/index.js at clock reading [now], for the
    merged configuration [config]. *)
Definition createWAF (config : Config.t) (now : Z) : WAFMiddleware.t :=
  let ruleManager := RuleManager.new config in
  WAFMiddleware.new config (RuleManager.loadRulesFromManager ruleManager) now.

(* ===================================================================== *)
(** * Vocabulary of the properties *)
(* ===================================================================== *)

Module RuleEngineSpec.
Local Open Scope Q_scope.

(** The sum the [forEach] loop accumulates: the scores of the given
    rules added, in order, to a starting score. *)
Definition add_rule_scores (start : Q) (rs : list Rule.t) : Q :=
  fold_left (fun sum rule => sum + Rule.score rule) rs start.

Definition nonneg_rule (r : Rule.t) : Prop := 0 <= Rule.score r.

Definition nonneg_pattern (p : Signature.Pattern) : Prop :=
  0 <= Signature.score p.
End RuleEngineSpec.

Module RateLimitSpec.
Import RateLimitModule.

(** Operations on a module instance. *)
Inductive Op : Type :=
| OpAnalyze (now : Z) (analysis : Analysis.t)
| OpIsIPBlocked (now : Z) (ip : string)
| OpBlockIP (now : Z) (ip : string) (reason : string)
| OpUnblockIP (ip : string)
| OpCleanup (now : Z)
| OpReset.

Definition apply_op (self : t) (op : Op) : t :=
  match op with
  | OpAnalyze now analysis => fst (analyze self now analysis)
  | OpIsIPBlocked now ip => fst (isIPBlocked self now ip)
  | OpBlockIP now ip reason => blockIP self now ip reason
  | OpUnblockIP ip => unblockIP self ip
  | OpCleanup now => cleanup self now
  | OpReset => reset self
  end.

(** No IP is in the rate table and in the block table at once. *)
Definition tables_disjoint (self : t) : Prop :=
  forall ip : string,
    ~ (is_Some (requests self !! ip) /\ is_Some (blockedIPs self !! ip)).

(** The module after the requests of one record sent at the given
    instants, and the results, oldest first. *)
Fixpoint send_all (self : t) (analysis : Analysis.t) (instants : list Z)
  : t * list (option ModuleResult.t) :=
  match instants with
  | [] => (self, [])
  | now :: instants' =>
      let (self', r) := analyze self now analysis in
      let (self'', rs) := send_all self' analysis instants' in
      (self'', r :: rs)
  end.

End RateLimitSpec.

(* ===================================================================== *)
(** * Scenarios *)
(* ===================================================================== *)

(** Concrete configurations, requests and runs used by the properties
  below. *)
Module Scenario.

(** A configuration with the given modules and threshold and the
    defaults elsewhere. *)
Definition config_with (modules : list string) (threshold : option Q)
  : Config.t :=
  Config.Make false threshold modules false None None None None None None.

(** An analysis record as the unit tests build them: a path and nothing
    else. *)
Definition record_with_path (path : string) : Analysis.t :=
  Analysis.Make 0 "1.2.3.4" "" "GET" path (Some []) JS.BNone [] [] 0 [] [] None.

(** *** Rate limiting: [max = 2], [windowMs = 60000],
        [maxViolations = 2], [blockDuration = 60000], blocking enabled *)

Definition rl_config : Config.t :=
  Config.Make false None ["ratelimit"] false None None None
    (Some (Config.MkRateLimit true (Some 60000) (Some 2)))
    (Some (Config.MkIpBlocking true (Some 60000) (Some 2)))
    None.

Definition rl_ip : string := "1.2.3.4".

Definition rl_request : Analysis.t := record_with_path "/".

(** The module after the requests sent at the given instants, and the
    result of the last one. *)
Fixpoint rl_send (self : RateLimitModule.t) (instants : list Z)
  : RateLimitModule.t * option ModuleResult.t :=
  match instants with
  | [] => (self, None)
  | [now] => RateLimitModule.analyze self now rl_request
  | now :: instants' =>
      rl_send (fst (RateLimitModule.analyze self now rl_request)) instants'
  end.

Definition rl_start : RateLimitModule.t := RateLimitModule.new rl_config.

(** What a module result says: score and pattern of its threats. *)
Definition summary (r : option ModuleResult.t) : option (Q * list string) :=
  match r with
  | Some r => Some (ModuleResult.score r,
                    List.map Threat.pattern (ModuleResult.threats r))
  | None => None
  end.

End Scenario.

Module ScenarioXSS.
Import Scenario.

(** *** Signature scanning: a path that carries a [javascript:] URL *)

Definition js_url_record : Analysis.t := record_with_path "/javascript:".

(** The module after the first call. *)
Definition xss_after_first : XSSModule.t :=
  fst (XSSModule.analyze XSSModule.new js_url_record).

End ScenarioXSS.

Module ScenarioAnomaly.
Import Scenario.

(** *** Anomaly scoring: an ordinary browser request, threshold 5 *)

Definition browser_agent : string := "Mozilla/5.0 (X11; Linux x86_64)".

Definition browser_headers : JS.object :=
  [ ("host", JS.VString "localhost");
    ("user-agent", JS.VString browser_agent);
    ("accept", JS.VString "*/*");
    ("accept-language", JS.VString "en") ].

Definition quiet_record : Analysis.t :=
  Analysis.Make 0 "1.2.3.4" browser_agent "GET" "/" (Some []) JS.BNone
    browser_headers [] 0 [] [] None.

Definition anomaly_config : Config.t :=
  Config.Make false None ["xss"; "sqli"] false None (Some 5%Q) None None None
    None.

(** The same with an anomaly threshold above 100, which switches
    anomaly scoring off. *)
Definition test_mode_config : Config.t :=
  Config.Make false None ["xss"; "sqli"] false None (Some 101%Q) None None None
    None.

(** A Wednesday at noon. *)
Definition noon : Env.t := Env.Make 0 12 3 "k3x9q2m1z".

End ScenarioAnomaly.

Module ScenarioLearning.
Import Scenario.

(** *** Learning buffers: requests that each carry one threat *)

Definition sample_threat : Threat.t :=
  Threat.Make "xss" "javascript-url" "JavaScript URL scheme" 3 "/javascript:".

Definition threat_record : Analysis.t :=
  Analysis.Make 0 "1.2.3.4" "" "GET" "/javascript:" (Some []) JS.BNone [] []
    3 [sample_threat] ["xss"] None.

Definition learning_config : Config.t :=
  Config.Make false (Some 5%Q) ["xss"; "sqli"] true (Some 7%Z) None None None
    None None.

(** The learner after recording the given records, oldest first. *)
Definition record_all (self : AdaptiveLearning.t) (records : list Analysis.t)
  : AdaptiveLearning.t :=
  fold_left AdaptiveLearning.recordRequest records self.

End ScenarioLearning.

(** What the module loop of [analyzeRequest] produced: the results of the
  modules that returned one, in order.  The function follows
  [WAFMiddleware.run_modules] and only collects. *)
Module Observation.
Import WAFMiddleware.

Fixpoint module_results (names : list string) (env : Env.t)
  (engine : RuleEngine.t) (analysis : Analysis.t) : list ModuleResult.t :=
  match names with
  | [] => []
  | moduleName :: names' =>
      match RuleEngine.getModule engine moduleName with
      | Some module =>
          let (module', moduleResult) := module_analyze module env analysis in
          let engine' :=
            RuleEngine.Make
              (RuleEngine.map_set (RuleEngine.modules engine) moduleName module')
              (RuleEngine.rules engine) (RuleEngine.threshold engine) in
          match moduleResult with
          | Some r =>
              r :: module_results names' env engine'
                     (Analysis.add_module_result analysis moduleName r)
          | None => module_results names' env engine' analysis
          end
      | None => module_results names' env engine analysis
      end
  end.

(** The scores of the given module results added, in order, to a
    starting score. *)
Definition add_module_scores (start : Q) (rs : list ModuleResult.t) : Q :=
  fold_left (fun sum r => (sum + ModuleResult.score r)%Q) rs start.

(** The module results of a request handled by a middleware instance;
    no module runs when the analysis throws. *)
Definition results_of (self : t) (env : Env.t) (req : Request.t)
  : list ModuleResult.t :=
  match initial_analysis env req with
  | Some analysis =>
      module_results (Config.modules (config self)) env (ruleEngine self)
                     analysis
  | None => []
  end.

(** The verdict of the rule engine on a request: [analyzeRequest]
    followed by [evaluate]; there is none when the analysis throws. *)
Definition verdict_of (self : t) (env : Env.t) (req : Request.t)
  : option RuleEngine.Result :=
  match analyzeRequest self env req with
  | Some (self', analysis) =>
      Some (snd (RuleEngine.evaluate (ruleEngine self') env analysis))
  | None => None
  end.

Definition nonneg_module (m : RuleEngine.ModuleInstance) : Prop :=
  match m with
  | RuleEngine.XSS x =>
      Forall (fun p => (0 <= Signature.score p)%Q) (XSSModule.patterns x)
  | RuleEngine.SQLi x =>
      Forall (fun p => (0 <= Signature.score p)%Q) (SQLiModule.patterns x)
  | RuleEngine.RateLimit _ => True
  end.

(** Rule scores and pattern scores are non-negative, as in the data
    model of rules and in the pattern tables of the modules. *)
Definition nonneg_engine (engine : RuleEngine.t) : Prop :=
  Forall (fun nm => nonneg_module (snd nm)) (RuleEngine.modules engine)
  /\ Forall (fun r => (0 <= Rule.score r)%Q) (RuleEngine.rules engine).

End Observation.

Module ScenarioPipeline.
Import Scenario.

(** *** A request without the usual browser headers, default modules *)

Definition bare_request : Request.t :=
  Request.Make (Some "1.2.3.4") None "GET" "/"
    (Some []) JS.BNone [("host", JS.VString "localhost")] None.

Definition default_waf : WAFMiddleware.t :=
  createWAF (config_with ["xss"; "sqli"] None) 0.

End ScenarioPipeline.

Module ScenarioLearningMode.
Import Scenario ScenarioAnomaly ScenarioLearning.

(** *** Learning mode: [adaptiveLearning = true], [learningPeriod = 7],
        threshold 5, and a request that carries a script tag *)

Definition xss_payload : string :=
  "<script>alert(" ++ dquote ++ "xss" ++ dquote ++ ")</script>".

Definition xss_request : Request.t :=
  Request.Make (Some "1.2.3.4") None "GET" "/api/search"
    (Some [("q", JS.VString xss_payload)]) JS.BNone browser_headers None.

Definition sevenDays : Z := 7 * AdaptiveLearning.dayMs.

(** The instance built at instant 0. *)
Definition learning_waf : WAFMiddleware.t :=
  createWAF learning_config 0.

(** The payload is sent at instant 0. *)
Definition at_start : Env.t := Env.Make 0 12 3 "k3x9q2m1z".
Definition first_visit := WAFMiddleware.middleware learning_waf at_start xss_request.

(** The learning period elapses: the event loop runs at an instant past
    seven days. *)
Definition after_period : WAFMiddleware.t :=
  WAFMiddleware.run_timers (fst (fst first_visit)) (sevenDays + 1).

(** The same payload is sent again. *)
Definition later : Env.t := Env.Make (sevenDays + 1) 12 3 "p7w2c5n8d".
Definition second_visit := WAFMiddleware.middleware after_period later xss_request.

(** The kind of an emitted event. *)
Definition event_kind (e : WAFMiddleware.Event) : string :=
  match e with
  | WAFMiddleware.threat_detected ty _ _ => "threat-detected:" ++ ty
  | WAFMiddleware.request_blocked _ => "request-blocked"
  | WAFMiddleware.error => "error"
  end.

End ScenarioLearningMode.

Module ScenarioRuleEngine.
Import Scenario.

(** *** Rule engine: threshold 3, a record that arrives with score 15
        and carries a script tag *)

Definition engine : RuleEngine.t :=
  RuleEngine.new (config_with ["xss"; "sqli"] (Some 3%Q)).

Definition scored_record : Analysis.t :=
  Analysis.Make 0 "1.2.3.4" "" "GET" "/test"
    (Some [("q", JS.VString ScenarioLearningMode.xss_payload)])
    JS.BNone [] [] 15 [] [] None.

(** *** Rule engine: threshold 3 and a custom rule with a negative
        score, and a record that arrives with score 3 and matches it *)

Definition discount_rule : Rule.t :=
  RuleEngine.R "internal-path" "Internal path" "^\/internal" (-1) "custom"
    "Lowers the score of internal paths".

Definition discount_engine : RuleEngine.t :=
  RuleEngine.new
    (Config.Make false (Some 3%Q) [] false None None None None None
       (Some [discount_rule])).

Definition internal_record : Analysis.t :=
  Analysis.Make 0 "1.2.3.4" "" "GET" "/internal/status" (Some []) JS.BNone
    [] [] 3 [] [] None.

End ScenarioRuleEngine.

Module ScenarioUnitTests.
Import Scenario.

(** *** Records of the repository's unit tests *)

Definition test_record (query headers cookies : JS.object) (body : JS.body)
  (score : Q) : Analysis.t :=
  Analysis.Make 0 "" "" "" "/test" (Some query) body headers cookies score [] []
    None.

Definition in_query (key value : string) : Analysis.t :=
  test_record [(key, JS.VString value)] [] [] JS.BNone 0.

(** The patterns of the threats a module call reports. *)
Definition reported (r : option ModuleResult.t) : list string :=
  match r with
  | Some r => List.map Threat.pattern (ModuleResult.threats r)
  | None => []
  end.

Definition xss (analysis : Analysis.t) : option ModuleResult.t :=
  snd (XSSModule.analyze XSSModule.new analysis).

(** A pattern was read in full from its source text. *)
Definition readable (re : RegExp.t) : bool :=
  match RegExp.source re with
  | RegExp.Cls false [] => false
  | _ => true
  end.

End ScenarioUnitTests.

Module LearningSpec.
Import WAFMiddleware.

(** The phase timers among the pending timers, in firing order. *)
Fixpoint phase_timers (ts : list (Z * WAFMiddleware.Callback))
  : list AdaptiveLearning.Phase :=
  match ts with
  | [] => []
  | (_, WAFMiddleware.PhaseTransition p) :: ts' => p :: phase_timers ts'
  | (_, WAFMiddleware.ScorerLearningDone) :: ts' => phase_timers ts'
  end.

(** What holds of every state a running instance reaches:
    [isLearningMode] is the configuration flag, and an instance configured
    without adaptive learning has its learner in [PROTECTING] and no phase
    timer pending. *)
Definition learning_invariant (self : WAFMiddleware.t) : Prop :=
  isLearningMode self = Config.adaptiveLearning (config self)
  /\ (Config.adaptiveLearning (config self) = false ->
      AdaptiveLearning.currentPhase (adaptiveLearning self)
        = AdaptiveLearning.PROTECTING
      /\ phase_timers (timers self) = []).

End LearningSpec.

(* ===================================================================== *)
(** ** Further concrete instances *)
(* ===================================================================== *)

Module ScenarioCoverage.

(** A module that limits rates but never blocks on its own. *)
Definition rate_only : RateLimitModule.t :=
  RateLimitModule.new
    (Config.Make false None ["ratelimit"] false None None None
       (Some (Config.MkRateLimit true (Some 60000) (Some 2))) None None).

End ScenarioCoverage.

Module RuleSetSpec.

(** A rule as it reads once the cursor of its pattern is disregarded. *)
Definition forget_cursor (rule : Rule.t) : Rule.t :=
  Rule.set_pattern rule (RegExp.set_lastIndex (Rule.pattern rule) 0).

(** [getRules()]: a copy of the rule array. *)
Definition getRules (self : RuleEngine.t) : list Rule.t := RuleEngine.rules self.

End RuleSetSpec.

Module AnomalySpec.
Local Open Scope Q_scope.

(** The sum of the scores of a list of factors. *)
Definition factor_sum (factors : list AnomalyResult.Factor) : Q :=
  fold_left (fun sum factor => sum + AnomalyResult.score factor) factors 0.

(** What the accumulation of [calculateScore] keeps: the running total
    lies between 0 and [bound] and is the sum of the factors listed so
    far, every factor listed is positive and at most 10, and at most
    [count] factors are listed. *)
Definition within (bound : Q) (count : nat)
  (acc : Q * list AnomalyResult.Factor) : Prop :=
  0 <= fst acc <= bound
  /\ fst acc == factor_sum (snd acc)
  /\ Forall (fun f => 0 < AnomalyResult.score f <= 10) (snd acc)
  /\ (List.length (snd acc) <= count)%nat.

End AnomalySpec.

Module MiddlewareSpec.
Import WAFMiddleware.

(** The decision the rule engine takes on a request: the record
    [analyzeRequest] builds, evaluated by the engine [analyzeRequest]
    leaves behind; there is none when the analysis throws. *)
Definition decision_of (self : t) (env : Env.t) (req : Request.t)
  : option RuleEngine.Result :=
  match analyzeRequest self env req with
  | Some (self', analysis) =>
      Some (snd (RuleEngine.evaluate (ruleEngine self') env analysis))
  | None => None
  end.

Definition is_403 (outcome : Outcome) : bool :=
  match outcome with
  | status403 _ => true
  | next => false
  end.

(** The skip paths in force. *)
Definition skipPaths_of (self : t) : list string :=
  match Config.skipPaths (config self) with
  | Some l => l
  | None => ["/health"; "/metrics"; "/favicon.ico"]
  end.

(** An input that the stats collector counts as a request: an HTTP
    request whose path is not skipped and whose analysis does not
    throw. *)
Definition counted (self : t) (input : Input) : bool :=
  match input with
  | HttpRequest _ req =>
      negb (shouldSkipPath self (Request.path req))
      && match getClientIP req with Some _ => true | None => false end
  | _ => false
  end.

(** The four counters agree with each other. *)
Definition counters_consistent (st : Stats) : Prop :=
  (0 <= blockedRequests st)%Z
  /\ (0 <= learningModeRequests st)%Z
  /\ (blockedRequests st + learningModeRequests st <= threatsDetected st)%Z
  /\ (threatsDetected st <= totalRequests st)%Z.

End MiddlewareSpec.

Module SignatureSpec.
Local Open Scope Q_scope.

(** A threat as the signature module of type [ty] reports it: of that
    type, with a score of at least 1 and an excerpt of at most 103
    characters. *)
Definition well_formed (ty : string) (threat : Threat.t) : Prop :=
  Threat.type threat = ty
  /\ 1 <= Threat.score threat
  /\ (String.length (Threat.matched threat) <= 103)%nat.

(** The running state of the [analyze] loop agrees with the threats
    found so far. *)
Definition agrees (ty : string) (threats : list Threat.t) (totalScore : Q)
  : Prop :=
  totalScore == Signature.sum_scores threats
  /\ inject_Z (Z.of_nat (List.length threats)) <= totalScore
  /\ Forall (well_formed ty) threats.

(** What a result of the signature module [ty] satisfies. *)
Definition sound_result (ty : string) (r : ModuleResult.t) : Prop :=
  ModuleResult.module r = ty
  /\ ModuleResult.threats r <> []
  /\ agrees ty (ModuleResult.threats r) (ModuleResult.score r).

(** The module objects after they analysed the given records, oldest
    first. *)
Definition xss_after (records : list Analysis.t) : XSSModule.t :=
  fold_left (fun m a => fst (XSSModule.analyze m a)) records XSSModule.new.

Definition sqli_after (records : list Analysis.t) : SQLiModule.t :=
  fold_left (fun m a => fst (SQLiModule.analyze m a)) records SQLiModule.new.

End SignatureSpec.

Module LearningBufferSpec.

(** The entry [recordRequest] appends to the threats buffer. *)
Definition entry_of (analysis : Analysis.t) : AdaptiveLearning.ThreatEntry :=
  AdaptiveLearning.MkThreatEntry
    (Analysis.timestamp analysis) (Analysis.ip analysis)
    (Analysis.threats analysis) (Analysis.score analysis).

(** [analysis.threats.length > 0] *)
Definition has_threats (analysis : Analysis.t) : bool :=
  (0 <? List.length (Analysis.threats analysis))%nat.

End LearningBufferSpec.

(** [ConfigManager.validateConfig(config)]: [inr true], or [inl] the
    message of the error thrown.  The modules of a configuration record
    are an array by construction, so the second check never fails
    here. *)
Module ConfigManager.

Definition validateConfig (config : Config.t) : string + bool :=
  let errors : list string := [] in
  (* Validate threshold *)
  let errors :=
    match Config.threshold config with
    | Some threshold =>
        if negb (Qle_bool 0 threshold)
        then errors ++ ["Threshold must be a non-negative number"]
        else errors
    | None => errors ++ ["Threshold must be a non-negative number"]
    end in
  (* Validate learning period *)
  let errors :=
    if Config.adaptiveLearning config
       && match Config.learningPeriod config with
          | Some learningPeriod => (learningPeriod <=? 0)%Z
          | None => true
          end
    then errors ++ ["Learning period must be a positive number"]
    else errors in
  if (0 <? List.length errors)%nat
  then inl ("Configuration validation failed: " ++ JS.join ", " errors)%string
  else inr true.

End ConfigManager.

Module ScenarioTimers.

(** *** Adaptive learning with a learning period of 30 days *)





End ScenarioTimers.

(** The derived profile of the learner: the helpers of
    lib/core/adaptive-learning.js that turn the recorded scores into
    thresholds.  Scores are exact rationals here; [(p / 100) * n] is an
    integer in double arithmetic exactly when it is one here, for the
    seven percentiles and every length an array can have. *)
Module LearningProfile.
Local Open Scope Q_scope.

(** [numbers.sort((a, b) => a - b)]: ascending, stable. *)
Fixpoint insert (x : Q) (sorted : list Q) : list Q :=
  match sorted with
  | [] => [x]
  | y :: sorted' =>
      if Qle_bool x y then x :: sorted else y :: insert x sorted'
  end.

Definition sort (numbers : list Q) : list Q := fold_right insert [] numbers.

(** [Math.max(0, Math.ceil((p / 100) * length) - 1)] *)
Definition percentile_index (p : Z) (length : nat) : nat :=
  Z.to_nat
    (Z.max 0 (Qceiling ((inject_Z p / 100) * inject_Z (Z.of_nat length)) - 1)).

(** [calculatePercentiles(numbers)]: the object with the keys 10, 25,
    50, 75, 90, 95 and 99, or the empty object. *)
Definition calculatePercentiles (numbers : list Q) : list (Z * Q) :=
  match numbers with
  | [] => []
  | _ =>
      let sorted := sort numbers in
      List.map
        (fun p => (p, nth (percentile_index p (List.length sorted)) sorted 0))
        [10; 25; 50; 75; 90; 95; 99]%Z
  end.

(** [percentiles[p]], for a key that is present. *)
Fixpoint get (percentiles : list (Z * Q)) (p : Z) : Q :=
  match percentiles with
  | [] => 0
  | (k, v) :: percentiles' => if (k =? p)%Z then v else get percentiles' p
  end.

(** [learningData.anomalyThresholds] *)
Record Thresholds : Type := MkThresholds {
  low : Z;
  medium : Z;
  high : Z;
  critical : Z
}.

(** [calculateAnomalyThresholds(requests)] *)
Definition calculateAnomalyThresholds (requests : list Analysis.t)
  : Thresholds :=
  let scores :=
    List.filter (fun score => AnomalyScorer.Qgtb score 0)
                (List.map Analysis.score requests) in
  match scores with
  | [] => MkThresholds 1 3 5 10
  | _ =>
      (* Calculate percentiles *)
      let sortedScores := sort scores in
      let percentiles := calculatePercentiles sortedScores in
      MkThresholds
        (Z.max 1 (AnomalyScorer.round (get percentiles 50)))
        (Z.max 3 (AnomalyScorer.round (get percentiles 75)))
        (Z.max 5 (AnomalyScorer.round (get percentiles 90)))
        (Z.max 10 (AnomalyScorer.round (get percentiles 95)))
  end.

(** A list in ascending order. *)
Fixpoint ascending (l : list Q) : Prop :=
  match l with
  | [] => True
  | x :: l' => Forall (Qle x) l' /\ ascending l'
  end.

End LearningProfile.

(* ===================================================================== *)
(** * Properties *)
(* ===================================================================== *)

(** Case analysis on every test of the goal. *)
Ltac case_if :=
  match goal with
  | |- context [if ?b then _ else _] => destruct b
  end.
Ltac case_ifs := repeat case_if.

(** ** The model against the unit tests of the repository *)

Section UnitTests.
Import Scenario ScenarioUnitTests.

(** Every pattern of the tables is read in full. *)
Lemma patterns_readable :
  forallb readable (List.map Signature.pattern XSSModule.loadXSSPatterns) = true
  /\ forallb readable (List.map Signature.pattern SQLiModule.loadSQLiPatterns) = true
  /\ forallb readable (List.map Rule.pattern RuleEngine.loadBuiltInRules) = true
  /\ forallb readable AnomalyScorer.botPatterns = true
  /\ forallb readable AnomalyScorer.suspiciousPatterns = true
  /\ forallb readable
       (List.map RegExp.plain
          ["^[A-Za-z0-9+/]+={0,2}$"; "%[0-9a-fA-F]{2}"; "&#x?[0-9a-fA-F]+;"])
     = true.
Proof. repeat split; vm_compute; reflexivity. Qed.

(** test/unit/xss-module.test.js *)
Example xss_detects_script_tag :
  reported (xss (in_query "q" ScenarioLearningMode.xss_payload))
  = ["script-tag"; "alert-payload"; "script-suspicious-content"].
Proof. vm_compute. reflexivity. Qed.

Example xss_detects_event_handler :
  reported (xss (in_query "html" ("<img onerror=" ++ dquote ++ "alert(1)" ++ dquote ++ ">")))
  = ["onerror-event"; "alert-payload"].
Proof. vm_compute. reflexivity. Qed.

Example xss_detects_iframe :
  reported (xss (in_query "html"
                   ("<iframe src=" ++ dquote ++ "javascript:alert(1)" ++ dquote
                    ++ "></iframe>")))
  = ["javascript-url"; "iframe-src"; "alert-payload"].
Proof. vm_compute. reflexivity. Qed.

Example xss_detects_encoded_payload :
  reported (xss (in_query "html"
                   ("&#x3C;script&#x3E;alert(" ++ dquote ++ "xss" ++ dquote
                    ++ ")&#x3C;/script&#x3E;")))
  = ["alert-payload"; "html-encoded"; "encoded-payload"].
Proof. vm_compute. reflexivity. Qed.

Example xss_safe_content :
  xss (test_record [("q", JS.VString "hello world")]
         [("user-agent", JS.VString "Mozilla/5.0")]
         [("session", JS.VString "abc123")]
         (JS.BObject ("{" ++ dquote ++ "name" ++ dquote ++ ":" ++ dquote
                      ++ "John Doe" ++ dquote ++ "}"))
         0)
  = None.
Proof. vm_compute. reflexivity. Qed.

Example xss_normal_html : xss (in_query "html" "<p>Hello World</p>") = None.
Proof. vm_compute. reflexivity. Qed.

(** test/unit/middleware.test.js, the rule engine with threshold 3 *)
Example engine_blocks_above_threshold :
  let result :=
    snd (RuleEngine.evaluate ScenarioRuleEngine.engine ScenarioAnomaly.noon
           ScenarioRuleEngine.scored_record) in
  RuleEngine.action result = RuleEngine.block
  /\ RuleEngine.reason result = Some (RuleEngine.ThreatScoreExceeds 18 3)
  /\ List.map Rule.id (RuleEngine.matchedRules result) = ["xss-script-tag"].
Proof. vm_compute. repeat split; reflexivity. Qed.

Example engine_allows_safe_request :
  let result :=
    snd (RuleEngine.evaluate ScenarioRuleEngine.engine ScenarioAnomaly.noon
           (in_query "q" "hello world")) in
  RuleEngine.action result = RuleEngine.allow
  /\ RuleEngine.score result = 0%Q
  /\ RuleEngine.matchedRules result = [].
Proof. vm_compute. repeat split; reflexivity. Qed.

Example engine_matches_cookie :
  let result :=
    snd (RuleEngine.evaluate ScenarioRuleEngine.engine ScenarioAnomaly.noon
           (test_record [] [] [("session", JS.VString "1 OR 1=1")] JS.BNone 0)) in
  RuleEngine.action result = RuleEngine.block
  /\ List.map Rule.id (RuleEngine.matchedRules result) = ["sqli-or-1-1"].
Proof. vm_compute. repeat split; reflexivity. Qed.

(** The cursor of a global pattern: a match stores its end, a failure
    resets it, and a search starts at the cursor. *)
Example test_moves_the_cursor :
  let re := RegExp.gi "javascript:" in
  let (re1, hit1) := RegExp.test re "/javascript:" in
  let (re2, hit2) := RegExp.test re1 "/javascript:" in
  let (re3, hit3) := RegExp.test re2 "/javascript:" in
  (hit1, RegExp.lastIndex re1, hit2, RegExp.lastIndex re2, hit3,
   RegExp.lastIndex re3)
  = (true, 12%nat, false, 0%nat, true, 12%nat).
Proof. vm_compute. reflexivity. Qed.

End UnitTests.

(** ** Rule engine *)

Section RuleEngineFacts.
Import RuleEngine RuleEngineSpec RuleSetSpec.
Local Open Scope Q_scope.

Lemma evaluateRule_score rule analysis :
  Rule.score (fst (evaluateRule rule analysis)) = Rule.score rule.
Proof.
  unfold evaluateRule.
  destruct (some_test (Rule.pattern rule) (Analysis.extractSearchTexts analysis)).
  reflexivity.
Qed.

Lemma add_rule_scores_snoc start rs r :
  add_rule_scores start (rs ++ [r]) = add_rule_scores start rs + Rule.score r.
Proof. unfold add_rule_scores. rewrite fold_left_app. reflexivity. Qed.

(** The running score of the scan is the starting score plus the scores
    of the rules matched so far. *)
Lemma scan_rules_sum rs : forall analysis matched start,
  snd (scan_rules rs analysis matched (add_rule_scores start matched))
  = add_rule_scores start
      (snd (fst (scan_rules rs analysis matched (add_rule_scores start matched)))).
Proof.
  induction rs as [|rule rs IH]; intros analysis matched start; simpl.
  - reflexivity.
  - destruct (evaluateRule rule analysis) as [rule' hit] eqn:E.
    destruct hit.
    + rewrite <- add_rule_scores_snoc.
      specialize (IH analysis (matched ++ [rule']) start).
      destruct (scan_rules rs analysis (matched ++ [rule'])
                  (add_rule_scores start (matched ++ [rule'])))
        as [[rs'' m''] s'']. simpl in *. exact IH.
    + specialize (IH analysis matched start).
      destruct (scan_rules rs analysis matched (add_rule_scores start matched))
        as [[rs'' m''] s'']. simpl in *. exact IH.
Qed.

(** Rules with non-negative scores never lower the running score. *)
Lemma scan_rules_ge rs : forall analysis matched score,
  Forall nonneg_rule rs ->
  score <= snd (scan_rules rs analysis matched score).
Proof.
  induction rs as [|rule rs IH]; intros analysis matched score Hrs; simpl.
  - apply Qle_refl.
  - inversion Hrs as [|? ? Hr Hrs']; subst.
    pose proof (evaluateRule_score rule analysis) as Hs.
    destruct (evaluateRule rule analysis) as [rule' hit] eqn:E.
    simpl in Hs. destruct hit.
    + specialize (IH analysis (matched ++ [rule']) (score + Rule.score rule') Hrs').
      destruct (scan_rules rs analysis (matched ++ [rule'])
                  (score + Rule.score rule')) as [[rs'' m''] s''].
      simpl in *. unfold nonneg_rule in Hr. rewrite Hs in IH. lra.
    + specialize (IH analysis matched score Hrs').
      destruct (scan_rules rs analysis matched score) as [[rs'' m''] s''].
      simpl in *. exact IH.
Qed.

(** The matched rules are rules of the engine: same id and score, in
    the order of the rule set. *)
Lemma scan_rules_matched rs : forall analysis matched score (P : Rule.t -> Prop),
  (forall r re, P r -> P (Rule.set_pattern r re)) ->
  Forall P rs -> Forall P matched ->
  Forall P (snd (fst (scan_rules rs analysis matched score))).
Proof.
  induction rs as [|rule rs IH]; intros analysis matched score P HP Hrs Hm; simpl.
  - exact Hm.
  - inversion Hrs as [|? ? Hr Hrs']; subst.
    assert (Hr' : P (fst (evaluateRule rule analysis))).
    { unfold evaluateRule.
      destruct (some_test (Rule.pattern rule)
                  (Analysis.extractSearchTexts analysis)); simpl.
      apply HP, Hr. }
    destruct (evaluateRule rule analysis) as [rule' hit] eqn:E.
    simpl in Hr'. destruct hit.
    + specialize (IH analysis (matched ++ [rule']) (score + Rule.score rule') P HP Hrs').
      destruct (scan_rules rs analysis (matched ++ [rule'])
                  (score + Rule.score rule')) as [[rs'' m''] s''].
      simpl in *. apply IH. apply Forall_app; split; [exact Hm | repeat constructor; exact Hr'].
    + specialize (IH analysis matched score P HP Hrs' Hm).
      destruct (scan_rules rs analysis matched score) as [[rs'' m''] s''].
      simpl in *. exact IH.
Qed.

(** The score and the action of [evaluate], in terms of the scan. *)
Lemma evaluate_score self env analysis :
  score (snd (evaluate self env analysis))
  = snd (scan_rules (rules self) analysis [] (Analysis.score analysis)).
Proof.
  unfold evaluate.
  destruct (Qle_bool (threshold self) (Analysis.score analysis));
    destruct (scan_rules (rules self) analysis [] (Analysis.score analysis))
      as [[rs' m'] s'];
    destruct (Qle_bool (threshold self) s'); reflexivity.
Qed.

Lemma evaluate_matchedRules self env analysis :
  matchedRules (snd (evaluate self env analysis))
  = snd (fst (scan_rules (rules self) analysis [] (Analysis.score analysis))).
Proof.
  unfold evaluate.
  destruct (Qle_bool (threshold self) (Analysis.score analysis));
    destruct (scan_rules (rules self) analysis [] (Analysis.score analysis))
      as [[rs' m'] s'];
    destruct (Qle_bool (threshold self) s'); reflexivity.
Qed.

Lemma evaluate_action self env analysis :
  action (snd (evaluate self env analysis))
  = if Qle_bool (threshold self) (score (snd (evaluate self env analysis)))
    then block
    else if Qle_bool (threshold self) (Analysis.score analysis)
         then block else allow.
Proof.
  rewrite evaluate_score. unfold evaluate.
  destruct (Qle_bool (threshold self) (Analysis.score analysis));
    destruct (scan_rules (rules self) analysis [] (Analysis.score analysis))
      as [[rs' m'] s']; simpl;
    destruct (Qle_bool (threshold self) s'); reflexivity.
Qed.

Lemma evaluate_final_score self env analysis :
  score (snd (evaluate self env analysis))
  = add_rule_scores (Analysis.score analysis)
      (matchedRules (snd (evaluate self env analysis))).
Proof.
  rewrite evaluate_score, evaluate_matchedRules.
  exact (scan_rules_sum (rules self) analysis [] (Analysis.score analysis)).
Qed.

Lemma test_keeps_pattern re text :
  RegExp.set_lastIndex (fst (RegExp.test re text)) 0 = RegExp.set_lastIndex re 0.
Proof.
  unfold RegExp.test.
  destruct (List.length (JS.chars text) <? _)%nat;
    [|destruct (RegExp.search _ _ _ _ _)];
    destruct (RegExp.global (RegExp.fl re)); reflexivity.
Qed.

Lemma some_test_keeps_pattern texts : forall re,
  RegExp.set_lastIndex (fst (some_test re texts)) 0 = RegExp.set_lastIndex re 0.
Proof.
  induction texts as [|text texts IH]; intros re; simpl.
  - reflexivity.
  - pose proof (test_keeps_pattern (RegExp.set_lastIndex re 0) text) as H.
    destruct (RegExp.test (RegExp.set_lastIndex re 0) text) as [re' hit].
    simpl in H. destruct hit; simpl.
    + exact H.
    + rewrite IH. exact H.
Qed.

Lemma some_test_cursor texts re re' :
  RegExp.set_lastIndex re 0 = RegExp.set_lastIndex re' 0 ->
  snd (some_test re texts) = snd (some_test re' texts).
Proof.
  intros H. destruct texts as [|text texts]; simpl.
  - reflexivity.
  - rewrite H. reflexivity.
Qed.

Lemma evaluateRule_keeps_rule rule analysis :
  forget_cursor (fst (evaluateRule rule analysis)) = forget_cursor rule.
Proof.
  unfold evaluateRule, forget_cursor.
  pose proof (some_test_keeps_pattern (Analysis.extractSearchTexts analysis)
                (Rule.pattern rule)) as H.
  destruct (some_test (Rule.pattern rule) _) as [re hit]. simpl in *.
  unfold Rule.set_pattern. simpl. rewrite H. reflexivity.
Qed.

(** The matched rules are the rules of the engine that match the
    record, in the order of the rule set. *)
Lemma scan_rules_filter rs : forall analysis matched score,
  List.map forget_cursor (snd (fst (scan_rules rs analysis matched score)))
  = List.map forget_cursor matched
    ++ List.map forget_cursor
         (List.filter (fun rule => snd (evaluateRule rule analysis)) rs).
Proof.
  induction rs as [|rule rs IH]; intros analysis matched score; simpl.
  - rewrite List.app_nil_r. reflexivity.
  - pose proof (evaluateRule_keeps_rule rule analysis) as K.
    destruct (evaluateRule rule analysis) as [rule' hit]. simpl in K.
    destruct hit; simpl.
    + specialize (IH analysis (matched ++ [rule']) (score + Rule.score rule')).
      destruct (scan_rules rs analysis (matched ++ [rule'])
                  (score + Rule.score rule')) as [[rs'' m''] s''].
      simpl in *. rewrite IH, List.map_app. simpl. rewrite K.
      rewrite <- List.app_assoc. reflexivity.
    + specialize (IH analysis matched score).
      destruct (scan_rules rs analysis matched score) as [[rs'' m''] s''].
      simpl in *. exact IH.
Qed.

(** C1 (amended). For every analysis record, the rules [evaluate]
    reports as matched are the rules of the engine that match the record,
    and its score is the incoming score of the record plus the scores of
    the matched rules.  The action is [block] exactly when that final
    score or the incoming score is greater than or equal to the threshold
    of the engine, and [allow] otherwise.  Over a rule set whose scores
    are non-negative the check before the rule scan changes nothing: the
    action is [block] exactly when the final score reaches the
    threshold. *)
Theorem evaluate_block_iff_threshold_reached
  (self : RuleEngine.t) (env : Env.t) (analysis : Analysis.t) :
  let result := snd (evaluate self env analysis) in
  List.map forget_cursor (matchedRules result)
    = List.map forget_cursor
        (List.filter (fun rule => snd (evaluateRule rule analysis))
                     (rules self))
  /\ score result
     = add_rule_scores (Analysis.score analysis) (matchedRules result)
  /\ (action result = block
      <-> threshold self <= score result
          \/ threshold self <= Analysis.score analysis)
  /\ (action result = allow
      <-> score result < threshold self
          /\ Analysis.score analysis < threshold self)
  /\ (Forall nonneg_rule (rules self) ->
      (action result = block <-> threshold self <= score result)
      /\ (action result = allow <-> score result < threshold self)).
Proof.
  intros result. subst result.
  split.
  { rewrite evaluate_matchedRules.
    exact (scan_rules_filter (rules self) analysis [] (Analysis.score analysis)). }
  split; [apply evaluate_final_score|].
  assert (Hact :
    (action (snd (evaluate self env analysis)) = block
     <-> threshold self <= score (snd (evaluate self env analysis))
         \/ threshold self <= Analysis.score analysis)
    /\ (action (snd (evaluate self env analysis)) = allow
        <-> score (snd (evaluate self env analysis)) < threshold self
            /\ Analysis.score analysis < threshold self)).
  { rewrite evaluate_action.
    destruct (Qle_bool (threshold self) (score (snd (evaluate self env analysis))))
      eqn:E2.
    - apply Qle_bool_iff in E2. split; split; intros H; try reflexivity;
        try discriminate; [left; exact E2 | destruct H; lra].
    - assert (N2 : ~ threshold self <= score (snd (evaluate self env analysis))).
      { intros H. apply Qle_bool_iff in H. congruence. }
      destruct (Qle_bool (threshold self) (Analysis.score analysis)) eqn:E1.
      + apply Qle_bool_iff in E1. split; split; intros H; try reflexivity;
          try discriminate; [right; exact E1 | destruct H; lra].
      + assert (N1 : ~ threshold self <= Analysis.score analysis).
        { intros H. apply Qle_bool_iff in H. congruence. }
        split; split; intros H; try reflexivity; try discriminate.
        * destruct H; contradiction.
        * split; lra. }
  destruct Hact as [Hb Ha]. split; [exact Hb|]. split; [exact Ha|].
  intros Hrs.
  pose proof (scan_rules_ge (rules self) analysis [] (Analysis.score analysis) Hrs)
    as Hge.
  rewrite <- evaluate_score with (env := env) in Hge.
  split.
  - rewrite Hb. split; [intros [H|H]; lra | intros H; left; exact H].
  - rewrite Ha. split; [intros [H _]; exact H | intros H; split; lra].
Qed.

End RuleEngineFacts.

(** ** Module scores are non-negative *)

Section ModuleScoreFacts.
Import RuleEngineSpec.
Local Open Scope Q_scope.

Lemma scan_texts_ge ty texts : forall p threats total,
  nonneg_pattern p ->
  total <= snd (Signature.scan_texts ty p texts threats total)
  /\ nonneg_pattern (fst (fst (Signature.scan_texts ty p texts threats total))).
Proof.
  induction texts as [|text texts IH]; intros p threats total Hp; simpl.
  - split; [apply Qle_refl | exact Hp].
  - destruct (RegExp.test (Signature.pattern p) text) as [re' hit].
    assert (Hp' : nonneg_pattern (Signature.set_pattern p re')) by exact Hp.
    destruct hit.
    + destruct (IH (Signature.set_pattern p re')
                  (threats ++ [Threat.Make ty (Signature.name p)
                                 (Signature.description p) (Signature.score p)
                                 (Signature.excerpt text)])
                  (total + Signature.score p) Hp') as [H1 H2].
      split; [|exact H2]. unfold nonneg_pattern in Hp. lra.
    + apply IH, Hp'.
Qed.

Lemma scan_patterns_ge ty texts ps : forall threats total,
  Forall nonneg_pattern ps ->
  total <= snd (Signature.scan_patterns ty ps texts threats total)
  /\ Forall nonneg_pattern
       (fst (fst (Signature.scan_patterns ty ps texts threats total))).
Proof.
  induction ps as [|p ps IH]; intros threats total Hps; simpl.
  - split; [apply Qle_refl | constructor].
  - inversion Hps as [|? ? Hp Hps']; subst.
    destruct (scan_texts_ge ty texts p threats total Hp) as [H1 H2].
    destruct (Signature.scan_texts ty p texts threats total) as [[p' th'] t'].
    simpl in H1, H2.
    destruct (IH th' t' Hps') as [H3 H4].
    destruct (Signature.scan_patterns ty ps texts th' t') as [[ps'' th''] t''].
    simpl in *. split; [lra | constructor; assumption].
Qed.

(** A signature module whose pattern scores and combination scores are
    non-negative returns a non-negative score and keeps its pattern
    scores. *)
Lemma signature_analyze_nonneg ty combos ps analysis :
  Forall nonneg_pattern ps ->
  (forall texts, 0 <= Signature.sum_scores (combos texts)) ->
  Forall nonneg_pattern (fst (Signature.analyze ty combos ps analysis))
  /\ match snd (Signature.analyze ty combos ps analysis) with
     | Some r => 0 <= ModuleResult.score r
     | None => True
     end.
Proof.
  intros Hps Hc. unfold Signature.analyze.
  destruct (scan_patterns_ge ty (Analysis.extractSearchTexts analysis) ps [] 0 Hps)
    as [H1 H2].
  destruct (Signature.scan_patterns ty ps (Analysis.extractSearchTexts analysis) [] 0)
    as [[ps' th'] t'].
  simpl in H1, H2.
  specialize (Hc (Analysis.extractSearchTexts analysis)).
  destruct (0 <? List.length (th' ++ combos (Analysis.extractSearchTexts analysis)))%nat;
    simpl; split; try exact H2; try exact I. lra.
Qed.

Lemma xss_combinations_nonneg texts :
  0 <= Signature.sum_scores (XSSModule.checkCombinations texts).
Proof.
  unfold XSSModule.checkCombinations.
  case_ifs; vm_compute; discriminate.
Qed.

Lemma sqli_combinations_nonneg texts :
  0 <= Signature.sum_scores (SQLiModule.checkCombinations texts).
Proof.
  unfold SQLiModule.checkCombinations.
  case_ifs; vm_compute; discriminate.
Qed.

Lemma xss_patterns_nonneg : Forall nonneg_pattern XSSModule.loadXSSPatterns.
Proof. repeat constructor; vm_compute; discriminate. Qed.

Lemma sqli_patterns_nonneg : Forall nonneg_pattern SQLiModule.loadSQLiPatterns.
Proof. repeat constructor; vm_compute; discriminate. Qed.

Lemma ratelimit_analyze_nonneg self now analysis :
  match snd (RateLimitModule.analyze self now analysis) with
  | Some r => 0 <= ModuleResult.score r
  | None => True
  end.
Proof.
  unfold RateLimitModule.analyze.
  destruct (negb (RateLimitModule.enabled self)); simpl; [exact I|].
  destruct (RateLimitModule.isIPBlocked self now (Analysis.ip analysis)) as [s b].
  destruct b; simpl; [vm_compute; discriminate|].
  case_ifs; simpl; try exact I; vm_compute; discriminate.
Qed.

End ModuleScoreFacts.

(** ** Anomaly scorer *)

Section AnomalyScorerFacts.
Import AnomalyScorer.
Local Open Scope Q_scope.

Lemma Qgtb_true a b : Qgtb a b = true <-> b < a.
Proof.
  unfold Qgtb. rewrite negb_true_iff. split; intros H.
  - apply Qnot_le_lt. intros L. apply Qle_bool_iff in L. congruence.
  - destruct (Qle_bool a b) eqn:E; [|reflexivity].
    apply Qle_bool_iff in E. lra.
Qed.

Lemma Qgtb_false a b : Qgtb a b = false <-> a <= b.
Proof.
  unfold Qgtb. rewrite negb_false_iff. apply Qle_bool_iff.
Qed.

Lemma add_factor_nonneg acc ty s :
  0 <= fst acc -> 0 <= fst (add_factor acc ty s).
Proof.
  intros H. unfold add_factor. destruct (Qgtb s 0) eqn:E; [|exact H].
  apply Qgtb_true in E. simpl. lra.
Qed.

Lemma round_nonneg x : 0 <= x -> (0 <= round x)%Z.
Proof.
  intros H. unfold round.
  change 0%Z with (Qfloor 0). apply Qfloor_resp_le. lra.
Qed.

Lemma rounded_nonneg x : 0 <= x -> 0 <= inject_Z (round (x * 100)) / 100.
Proof.
  intros H. assert (Hr : (0 <= round (x * 100))%Z) by (apply round_nonneg; lra).
  apply Qle_shift_div_l; [reflexivity|].
  rewrite Qmult_0_l. change 0 with (inject_Z 0). rewrite <- Zle_Qle. exact Hr.
Qed.

(** The total anomaly score is never negative. *)
Lemma calculateScore_nonneg self env analysis :
  0 <= AnomalyResult.totalScore (snd (calculateScore self env analysis)).
Proof.
  unfold calculateScore.
  destruct (opt_gt (Config.anomalyThreshold (config self)) 100); simpl.
  - apply Qle_refl.
  - destruct (calculateFrequencyAnomaly self (Env.now env) analysis) as [self' f].
    match goal with
    | |- context [let (totalScore, factors) := ?acc in _] =>
        assert (Hacc : 0 <= fst acc)
          by (repeat apply add_factor_nonneg; simpl; apply Qle_refl);
        destruct acc as [totalScore factors]
    end.
    simpl in *. apply rounded_nonneg, Hacc.
Qed.

End AnomalyScorerFacts.

(** ** Rate-limit / IP-block module *)

Section RateLimitFacts.
Import RateLimitModule RateLimitSpec.

Lemma isIPBlocked_spec self now ip :
  match blockedIPs self !! ip with
  | Some r =>
      if (blockedUntil r <? now)%Z
      then isIPBlocked self now ip
           = (set_tables self (requests self) (delete ip (blockedIPs self)), false)
      else isIPBlocked self now ip = (self, true)
  | None => isIPBlocked self now ip = (self, false)
  end.
Proof.
  unfold isIPBlocked. destruct (blockedIPs self !! ip) as [r|]; [|reflexivity].
  destruct (blockedUntil r <? now)%Z; reflexivity.
Qed.

Lemma isIPBlocked_requests self now ip :
  requests (fst (isIPBlocked self now ip)) = requests self.
Proof.
  unfold isIPBlocked. destruct (blockedIPs self !! ip) as [r|]; [|reflexivity].
  destruct (blockedUntil r <? now)%Z; reflexivity.
Qed.

(** After [isIPBlocked] answers [false] the IP has no block entry. *)
Lemma isIPBlocked_false_gone self now ip :
  snd (isIPBlocked self now ip) = false ->
  blockedIPs (fst (isIPBlocked self now ip)) !! ip = None.
Proof.
  unfold isIPBlocked. destruct (blockedIPs self !! ip) as [r|] eqn:E.
  - destruct (blockedUntil r <? now)%Z; simpl; intros H; [|discriminate].
    apply lookup_delete_eq.
  - intros _. exact E.
Qed.

Lemma isIPBlocked_disjoint self now ip :
  tables_disjoint self -> tables_disjoint (fst (isIPBlocked self now ip)).
Proof.
  intros H ip' [H1 H2]. apply (H ip'). unfold isIPBlocked in *.
  destruct (blockedIPs self !! ip) as [r|]; [|auto].
  destruct (blockedUntil r <? now)%Z; [|auto].
  simpl in *. split; [exact H1|].
  destruct (decide (ip = ip')) as [->|Hne].
  - rewrite lookup_delete_eq in H2. destruct H2 as [? H2]. discriminate.
  - rewrite lookup_delete_ne in H2 by exact Hne. exact H2.
Qed.

Lemma blockIP_disjoint self now ip reason :
  tables_disjoint self -> tables_disjoint (blockIP self now ip reason).
Proof.
  intros H ip' [H1 H2]. unfold blockIP in *. simpl in *.
  destruct (decide (ip = ip')) as [->|Hne].
  - rewrite lookup_delete_eq in H1. destruct H1 as [? H1]. discriminate.
  - rewrite lookup_delete_ne in H1 by exact Hne.
    rewrite lookup_insert_ne in H2 by exact Hne.
    apply (H ip'). auto.
Qed.

(** Writing the record of an IP that has no block entry. *)
Lemma set_request_disjoint self ip r :
  tables_disjoint self -> blockedIPs self !! ip = None ->
  tables_disjoint (set_tables self (<[ip := r]> (requests self)) (blockedIPs self)).
Proof.
  intros H Hb ip' [H1 H2]. simpl in *.
  destruct (decide (ip = ip')) as [->|Hne].
  - rewrite Hb in H2. destruct H2 as [? H2]. discriminate.
  - rewrite lookup_insert_ne in H1 by exact Hne. apply (H ip'). auto.
Qed.

Lemma analyze_disjoint self now analysis :
  tables_disjoint self -> tables_disjoint (fst (analyze self now analysis)).
Proof.
  intros H. unfold analyze.
  destruct (negb (enabled self)); [exact H|].
  pose proof (isIPBlocked_disjoint self now (Analysis.ip analysis) H) as Hd.
  pose proof (isIPBlocked_false_gone self now (Analysis.ip analysis)) as Hg.
  destruct (isIPBlocked self now (Analysis.ip analysis)) as [s b].
  simpl in Hd, Hg. destruct b; [exact Hd|].
  specialize (Hg eq_refl).
  case_ifs; simpl;
    try (apply blockIP_disjoint);
    apply set_request_disjoint; assumption.
Qed.

Lemma cleanup_disjoint self now :
  tables_disjoint self -> tables_disjoint (cleanup self now).
Proof.
  intros H ip [[r1 H1] [r2 H2]]. unfold cleanup in *. simpl in *.
  apply map_lookup_filter_Some in H1 as [H1 _].
  apply map_lookup_filter_Some in H2 as [H2 _].
  apply (H ip). split; eauto.
Qed.

Lemma apply_op_disjoint self op :
  tables_disjoint self -> tables_disjoint (apply_op self op).
Proof.
  intros H. destruct op; simpl.
  - apply analyze_disjoint, H.
  - apply isIPBlocked_disjoint, H.
  - apply blockIP_disjoint, H.
  - intros ip' [H1 H2]. unfold unblockIP in *. simpl in *.
    destruct (decide (ip = ip')) as [->|Hne].
    + rewrite lookup_delete_eq in H2. destruct H2 as [? H2]. discriminate.
    + rewrite lookup_delete_ne in H2 by exact Hne. apply (H ip'). auto.
  - apply cleanup_disjoint, H.
  - intros ip' [[r H1] _]. unfold reset in H1. simpl in H1.
    rewrite lookup_empty in H1. discriminate.
Qed.

Lemma new_disjoint config : tables_disjoint (new config).
Proof.
  intros ip [[r H1] _]. unfold new in H1. simpl in H1.
  rewrite lookup_empty in H1. discriminate.
Qed.

(** C7. After every operation of the rate-limit module, starting from a
    freshly constructed instance, no IP is at once in the per-IP rate
    table and in the block table; blocking an IP deletes its rate-table
    entry, and [analyze] leaves the rate table alone for an IP that is
    currently blocked. *)
Theorem rate_and_block_tables_disjoint
  (config : Config.t) (ops : list Op) (now : Z) (ip reason : string)
  (analysis : Analysis.t) :
  let self := fold_left apply_op ops (new config) in
  tables_disjoint self
  /\ requests (blockIP self now ip reason) !! ip = None
  /\ (snd (isIPBlocked self now (Analysis.ip analysis)) = true ->
      requests (fst (analyze self now analysis)) = requests self).
Proof.
  intros self. split; [|split].
  - subst self. generalize (new_disjoint config).
    generalize (new config). induction ops as [|op ops IH]; intros s Hs; simpl.
    + exact Hs.
    + apply IH, apply_op_disjoint, Hs.
  - unfold blockIP. simpl. apply lookup_delete_eq.
  - intros Hb. unfold analyze.
    destruct (negb (enabled self)); [reflexivity|].
    pose proof (isIPBlocked_requests self now (Analysis.ip analysis)) as Hr.
    destruct (isIPBlocked self now (Analysis.ip analysis)) as [s b].
    simpl in *. subst b. exact Hr.
Qed.

(** An expired entry is removed by the next [isIPBlocked] call, which
    answers [false]. *)
Lemma isIPBlocked_expired self now ip r :
  blockedIPs self !! ip = Some r -> (blockedUntil r < now)%Z ->
  snd (isIPBlocked self now ip) = false
  /\ blockedIPs (fst (isIPBlocked self now ip)) !! ip = None.
Proof.
  intros Hr Hlt. unfold isIPBlocked. rewrite Hr.
  replace (blockedUntil r <? now)%Z with true
    by (symmetry; apply Z.ltb_lt; exact Hlt).
  simpl. split; [reflexivity | apply lookup_delete_eq].
Qed.

(** C6 (amended). An IP is reported blocked exactly when the block table
    holds an entry for it with [blockedUntil >= now]; and once
    [now > blockedUntil], the next [isIPBlocked] call removes the entry
    and reports the IP as not blocked. *)
Theorem blocked_iff_entry_not_expired (self : t) (now : Z) (ip : string) :
  (snd (isIPBlocked self now ip) = true
   <-> exists r, blockedIPs self !! ip = Some r /\ (now <= blockedUntil r)%Z)
  /\ (forall r, blockedIPs self !! ip = Some r -> (blockedUntil r < now)%Z ->
      snd (isIPBlocked self now ip) = false
      /\ blockedIPs (fst (isIPBlocked self now ip)) !! ip = None).
Proof.
  pose proof (isIPBlocked_spec self now ip) as H.
  destruct (blockedIPs self !! ip) as [r|] eqn:E.
  - destruct (blockedUntil r <? now)%Z eqn:C; rewrite H; simpl.
    + apply Z.ltb_lt in C. split.
      * split; [discriminate|]. intros [r' [Hr' Hle]].
        inversion Hr'; subst. lia.
      * intros r' Hr' _. split; [reflexivity|]. apply lookup_delete_eq.
    + apply Z.ltb_ge in C. split.
      * split; [|reflexivity]. intros _. exists r. split; [reflexivity|lia].
      * intros r' Hr' Hlt. inversion Hr'; subst. lia.
  - rewrite H. simpl. split.
    + split; [discriminate|]. intros [r' [Hr' _]]. discriminate.
    + intros r' Hr'. discriminate.
Qed.

End RateLimitFacts.

Section RateLimitScenario.
Import RateLimitModule RateLimitSpec Scenario.

(** A request of a blocked IP is answered by the [ip-blocked] threat,
    whatever else the request holds. *)
Lemma analyze_blocked self now analysis r :
  enabled self = true ->
  blockedIPs self !! Analysis.ip analysis = Some r ->
  (now <= blockedUntil r)%Z ->
  analyze self now analysis
  = (self,
     Some (ModuleResult.Make 10
             [threat "ip-blocked"
                "IP address is blocked due to rate limiting violations" 10
                ("IP " ++ Analysis.ip analysis ++ " is blocked")]
             "ratelimit")).
Proof.
  intros He Hb Hle. unfold analyze. rewrite He. simpl.
  unfold isIPBlocked. rewrite Hb.
  replace (blockedUntil r <? now)%Z with false
    by (symmetry; apply Z.ltb_ge; lia).
  reflexivity.
Qed.

(** The state after the fourth request of the first window. *)
Lemma rl_blocked_entry :
  blockedIPs (fst (rl_send rl_start [0; 1000; 2000; 3000])) !! rl_ip
  = Some (MkBlock 63000 "Rate limit violations exceeded" 3000)
  /\ enabled (fst (rl_send rl_start [0; 1000; 2000; 3000])) = true.
Proof. split; vm_compute; reflexivity. Qed.

(** C8 (as stated, refuted). After the window has expired, a second
    sequence of three requests breaching the limit does not block the
    IP: the violation count restarted with the window, so the third
    request is answered by [rate-limit-exceeded] again, the IP has no
    block entry, and the next request is answered by
    [ip-blocked-violations], not by [ip-blocked]. *)
Lemma second_window_breach_does_not_block :
  let after := fst (rl_send rl_start [0; 1000; 2000; 70000; 71000; 72000]) in
  summary (snd (rl_send rl_start [0; 1000; 2000; 70000; 71000; 72000]))
    = Some (5%Q, ["rate-limit-exceeded"])
  /\ snd (isIPBlocked after 72000 rl_ip) <> true
  /\ blockedIPs after !! rl_ip = None
  /\ summary (snd (analyze after 73000 rl_request))
     <> Some (10%Q, ["ip-blocked"]).
Proof. vm_compute. repeat split; try reflexivity; discriminate. Qed.

(** C8 (amended). With [max = 2], [windowMs = 60000],
    [maxViolations = 2], [blockDuration = 60000] and IP blocking
    enabled: three requests of one IP within 10 seconds yield two null
    results and then a [rate-limit-exceeded] threat of score 5; a fourth
    request in the same window is the second violation, it blocks the IP
    and yields [ip-blocked-violations] with score 10; while the block
    lasts every request of that IP yields an [ip-blocked] threat of
    score 10 regardless of payload; once the block duration has elapsed
    the IP is no longer blocked and its entry is removed.  A breach in a
    later window starts counting violations afresh. *)
Theorem rate_limit_scenario :
  summary (snd (rl_send rl_start [0])) = None
  /\ summary (snd (rl_send rl_start [0; 1000])) = None
  /\ summary (snd (rl_send rl_start [0; 1000; 2000]))
     = Some (5%Q, ["rate-limit-exceeded"])
  /\ summary (snd (rl_send rl_start [0; 1000; 2000; 3000]))
     = Some (10%Q, ["ip-blocked-violations"])
  /\ (let blocked := fst (rl_send rl_start [0; 1000; 2000; 3000]) in
      (forall (now : Z) (payload : Analysis.t),
          Analysis.ip payload = rl_ip -> (now <= 63000)%Z ->
          summary (snd (analyze blocked now payload))
          = Some (10%Q, ["ip-blocked"]))
      /\ (forall now : Z, (63000 < now)%Z ->
          snd (isIPBlocked blocked now rl_ip) = false
          /\ blockedIPs (fst (isIPBlocked blocked now rl_ip)) !! rl_ip = None))
  /\ summary (snd (rl_send rl_start [0; 1000; 2000; 70000; 71000; 72000]))
     = Some (5%Q, ["rate-limit-exceeded"]).
Proof.
  destruct rl_blocked_entry as [Hentry Hen].
  split; [vm_compute; reflexivity|].
  split; [vm_compute; reflexivity|].
  split; [vm_compute; reflexivity|].
  split; [vm_compute; reflexivity|].
  split; [|vm_compute; reflexivity].
  set (blocked := fst (rl_send rl_start [0; 1000; 2000; 3000])) in *.
  clearbody blocked. simpl. split.
  - intros now payload Hip Hnow.
    rewrite (analyze_blocked blocked now payload
               (MkBlock 63000 "Rate limit violations exceeded" 3000));
      [reflexivity | exact Hen | rewrite Hip; exact Hentry | simpl; lia].
  - intros now Hnow.
    eapply isIPBlocked_expired; [exact Hentry | simpl; lia].
Qed.

End RateLimitScenario.

(** ** XSS module and the match cursor of global patterns *)

Section XSSFacts.
Import ScenarioXSS.

(** C10 (the code at a failing input). Two successive [analyze] calls of
    the XSS module on the same record disagree: the first call reports the
    [javascript-url]
    threat with score 3 and leaves the cursor of that pattern at the end
    of the match; the second call starts matching there, finds nothing
    and returns [null]. *)
Theorem xss_analyze_twice_differs :
  Scenario.summary (snd (XSSModule.analyze XSSModule.new js_url_record))
    = Some (3%Q, ["javascript-url"])
  /\ snd (XSSModule.analyze xss_after_first js_url_record) = None.
Proof. split; vm_compute; reflexivity. Qed.

(** The rule engine resets the cursor before every match, so the verdict
    of a rule does not depend on where an earlier call left it. *)
Lemma some_test_ignores_cursor re i text texts :
  RuleEngine.some_test (RegExp.set_lastIndex re i) (text :: texts)
  = RuleEngine.some_test re (text :: texts).
Proof. reflexivity. Qed.

Lemma evaluateRule_ignores_cursor rule i analysis :
  snd (RuleEngine.evaluateRule
         (Rule.set_pattern rule (RegExp.set_lastIndex (Rule.pattern rule) i))
         analysis)
  = snd (RuleEngine.evaluateRule rule analysis).
Proof.
  unfold RuleEngine.evaluateRule, Analysis.extractSearchTexts.
  cbn [Rule.pattern Rule.set_pattern app].
  rewrite some_test_ignores_cursor.
  destruct (RuleEngine.some_test (Rule.pattern rule) _); reflexivity.
Qed.

End XSSFacts.

(** ** The [isAnomaly] member of the anomaly result *)

Section IsAnomalyFacts.
Import AnomalyScorer ScenarioAnomaly.
Local Open Scope Q_scope.

(** Outside the short-circuit, [isAnomaly] is [true] or the number 5,
    hence never [false]. *)
Lemma isAnomaly_true_or_five self env analysis :
  opt_gt (Config.anomalyThreshold (config self)) 100 = false ->
  AnomalyResult.isAnomaly (snd (calculateScore self env analysis))
    = AnomalyResult.JBool true
  \/ AnomalyResult.isAnomaly (snd (calculateScore self env analysis))
    = AnomalyResult.JNumber 5.
Proof.
  intros H. unfold calculateScore. rewrite H.
  destruct (calculateFrequencyAnomaly self (Env.now env) analysis) as [self' f].
  match goal with
  | |- context [let (totalScore, factors) := ?acc in _] =>
      destruct acc as [totalScore factors]
  end.
  simpl. destruct (gt_opt totalScore _); [left | right]; reflexivity.
Qed.

(** C4 (the code at a failing input). For an ordinary request and the
    anomaly threshold 5 the total anomaly score is 0, which does not exceed the threshold, yet
    [isAnomaly] is not [false]: it is the number 5, a truthy value. *)
Theorem isAnomaly_is_five_below_threshold :
  let result := snd (calculateScore (new anomaly_config) noon quiet_record) in
  AnomalyResult.totalScore result == 0
  /\ ~ (5 < AnomalyResult.totalScore result)
  /\ AnomalyResult.isAnomaly result = AnomalyResult.JNumber 5
  /\ AnomalyResult.isAnomaly result <> AnomalyResult.JBool false
  /\ AnomalyResult.truthy (AnomalyResult.isAnomaly result) = true.
Proof.
  vm_compute. repeat split; try reflexivity; discriminate.
Qed.

End IsAnomalyFacts.

(** ** The buffers of the adaptive learner *)

Section LearningBufferFacts.
Import AdaptiveLearning ScenarioLearning.

Lemma slice_last_length {A : Type} (n : nat) (l : list A) :
  List.length (slice_last n l) = Nat.min n (List.length l).
Proof. unfold slice_last. rewrite length_skipn. lia. Qed.

Lemma slice_last_short {A : Type} (n : nat) (l : list A) :
  (List.length l <= n)%nat -> slice_last n l = l.
Proof.
  intros H. unfold slice_last.
  replace (List.length l - n)%nat with 0%nat by lia. reflexivity.
Qed.

(** The kept part is a suffix: what is dropped is the oldest part. *)
Lemma slice_last_suffix {A : Type} (n : nat) (l : list A) :
  l = firstn (List.length l - n) l ++ slice_last n l.
Proof. unfold slice_last. symmetry. apply firstn_skipn. Qed.

Lemma recordRequest_requests self analysis :
  requests (recordRequest self analysis)
  = slice_last cap (requests self ++ [analysis]).
Proof.
  unfold recordRequest. simpl.
  destruct (cap <? List.length (requests self ++ [analysis]))%nat eqn:E.
  - reflexivity.
  - apply Nat.ltb_ge in E. symmetry. apply slice_last_short, E.
Qed.

Lemma recordRequest_threats self analysis :
  Analysis.threats analysis <> [] ->
  threats (recordRequest self analysis)
  = threats self
    ++ [MkThreatEntry (Analysis.timestamp analysis) (Analysis.ip analysis)
                      (Analysis.threats analysis) (Analysis.score analysis)].
Proof.
  intros H. unfold recordRequest. simpl.
  destruct (Analysis.threats analysis); [contradiction | reflexivity].
Qed.

(** The requests buffer never exceeds the cap, and a full buffer evicts
    its oldest entry. *)
Lemma requests_buffer_capped self analysis :
  (List.length (requests (recordRequest self analysis)) <= cap)%nat
  /\ (List.length (requests self) = cap ->
      requests (recordRequest self analysis)
      = tl (requests self) ++ [analysis]).
Proof.
  rewrite recordRequest_requests. split.
  - rewrite slice_last_length. lia.
  - intros H. unfold slice_last. rewrite length_app, H. simpl.
    replace (cap + 1 - cap)%nat with 1%nat by lia.
    destruct (requests self) as [|x l].
    + simpl in H. vm_compute in H. discriminate.
    + reflexivity.
Qed.

Lemma record_all_threats records : forall self,
  Forall (fun a => Analysis.threats a <> []) records ->
  List.length (threats (record_all self records))
  = (List.length (threats self) + List.length records)%nat.
Proof.
  induction records as [|a records IH]; intros self H; simpl.
  - lia.
  - inversion H as [|? ? Ha Hr]; subst.
    unfold record_all in *. simpl. rewrite IH by exact Hr.
    rewrite recordRequest_threats by exact Ha.
    rewrite length_app. simpl. lia.
Qed.

Lemma record_all_requests records : forall self,
  (List.length (requests self) <= cap)%nat ->
  (List.length (requests (record_all self records)) <= cap)%nat.
Proof.
  induction records as [|a records IH]; intros self H; simpl.
  - exact H.
  - unfold record_all in *. simpl. apply IH.
    apply requests_buffer_capped.
Qed.

(** C9 (the code at a failing input). One request more than the cap,
    each carrying a threat, recorded by a fresh learner: the requests buffer stays within the cap
    of 10 000 entries, the threats buffer does not (it holds 10 001
    entries). *)
Theorem threats_buffer_exceeds_cap :
  let learner :=
    record_all (new learning_config 0) (repeat threat_record (S cap)) in
  Z.of_nat cap = 10000%Z
  /\ (List.length (requests learner) <= cap)%nat
  /\ List.length (threats learner) = S cap
  /\ (cap < List.length (threats learner))%nat.
Proof.
  intros learner.
  assert (Ht : List.length (threats learner) = S cap).
  { subst learner. rewrite record_all_threats.
    - rewrite repeat_length. reflexivity.
    - apply List.Forall_forall. intros a Ha. apply repeat_spec in Ha. subst a.
      discriminate. }
  split; [vm_compute; reflexivity|].
  split; [apply record_all_requests; simpl; lia|].
  split; [exact Ht | rewrite Ht; lia].
Qed.

End LearningBufferFacts.

(** ** The score the rule engine produces for a request *)

Section PipelineScoreFacts.
Import WAFMiddleware RuleEngineSpec Observation ScenarioPipeline.
Local Open Scope Q_scope.

Lemma map_get_Forall {A : Type} (P : string * A -> Prop) m k v :
  Forall P m -> RuleEngine.map_get m k = Some v -> exists k', P (k', v).
Proof.
  induction m as [|[k' v'] m IH]; simpl; intros H E; [discriminate|].
  inversion H; subst.
  destruct (String.eqb k' k).
  - inversion E; subst. exists k'. assumption.
  - apply IH; assumption.
Qed.

Lemma map_set_Forall {A : Type} (P : A -> Prop) (m : list (string * A)) k v :
  Forall (fun nm => P (snd nm)) m -> P v ->
  Forall (fun nm => P (snd nm)) (RuleEngine.map_set m k v).
Proof.
  induction m as [|[k' v'] m IH]; simpl; intros H Hv.
  - repeat constructor. exact Hv.
  - inversion H; subst. destruct (String.eqb k' k); constructor; auto.
Qed.

Lemma module_analyze_nonneg m env analysis :
  nonneg_module m ->
  nonneg_module (fst (module_analyze m env analysis))
  /\ match snd (module_analyze m env analysis) with
     | Some r => 0 <= ModuleResult.score r
     | None => True
     end.
Proof.
  intros Hm. destruct m as [x|x|x]; simpl in *.
  - unfold XSSModule.analyze.
    pose proof (signature_analyze_nonneg "xss" XSSModule.checkCombinations
                  (XSSModule.patterns x) analysis Hm xss_combinations_nonneg) as H.
    destruct (Signature.analyze "xss" XSSModule.checkCombinations
                (XSSModule.patterns x) analysis) as [ps r]. exact H.
  - unfold SQLiModule.analyze.
    pose proof (signature_analyze_nonneg "sqli" SQLiModule.checkCombinations
                  (SQLiModule.patterns x) analysis Hm sqli_combinations_nonneg) as H.
    destruct (Signature.analyze "sqli" SQLiModule.checkCombinations
                (SQLiModule.patterns x) analysis) as [ps r]. exact H.
  - pose proof (ratelimit_analyze_nonneg x (Env.now env) analysis) as H.
    destruct (RateLimitModule.analyze x (Env.now env) analysis) as [x' r].
    simpl in *. split; [exact I | exact H].
Qed.

(** The module loop adds the scores of the module results, and nothing
    else, to the score of the record; it keeps the rules of the engine
    and the non-negative pattern scores. *)
Lemma run_modules_score names env : forall engine analysis,
  Analysis.score (snd (run_modules names env engine analysis))
  = add_module_scores (Analysis.score analysis)
      (module_results names env engine analysis)
  /\ RuleEngine.rules (fst (run_modules names env engine analysis))
     = RuleEngine.rules engine
  /\ (Forall (fun nm => nonneg_module (snd nm)) (RuleEngine.modules engine) ->
      Forall (fun nm => nonneg_module (snd nm))
             (RuleEngine.modules (fst (run_modules names env engine analysis)))
      /\ (0 <= Analysis.score analysis ->
          0 <= Analysis.score (snd (run_modules names env engine analysis)))).
Proof.
  induction names as [|n names IH]; intros engine analysis; simpl.
  - repeat split; auto.
  - unfold RuleEngine.getModule.
    destruct (RuleEngine.map_get (RuleEngine.modules engine) n) as [m|] eqn:G;
      [|apply IH].
    pose proof (module_analyze_nonneg m env analysis) as Hm.
    destruct (module_analyze m env analysis) as [m' r]. simpl in Hm.
    set (engine' := RuleEngine.Make
                      (RuleEngine.map_set (RuleEngine.modules engine) n m')
                      (RuleEngine.rules engine) (RuleEngine.threshold engine)).
    assert (Hpres : Forall (fun nm => nonneg_module (snd nm))
                           (RuleEngine.modules engine) ->
                    Forall (fun nm => nonneg_module (snd nm))
                           (RuleEngine.modules engine')
                    /\ match r with
                       | Some r => 0 <= ModuleResult.score r
                       | None => True
                       end).
    { intros Hall.
      destruct (map_get_Forall _ _ _ _ Hall G) as [k' Hk']. simpl in Hk'.
      destruct (Hm Hk') as [H1 H2]. split; [|exact H2].
      apply map_set_Forall; assumption. }
    destruct r as [r|].
    + destruct (IH engine' (Analysis.add_module_result analysis n r))
        as [H1 [H2 H3]].
      split; [exact H1|]. split; [exact H2|].
      intros Hall. destruct (Hpres Hall) as [Hall' Hr].
      destruct (H3 Hall') as [H4 H5]. split; [exact H4|].
      intros Hs. apply H5. simpl. lra.
    + destruct (IH engine' analysis) as [H1 [H2 H3]].
      split; [exact H1|]. split; [exact H2|].
      intros Hall. destruct (Hpres Hall) as [Hall' _].
      destruct (H3 Hall') as [H4 H5]. split; assumption.
Qed.

(** The score of the verdict, for an instance whose rule scores and
    pattern scores are non-negative. *)
Lemma initial_analysis_score env req analysis0 :
  initial_analysis env req = Some analysis0 -> Analysis.score analysis0 = 0.
Proof.
  unfold initial_analysis. destruct (getClientIP req); [|discriminate].
  intros H. injection H as <-. reflexivity.
Qed.

Lemma verdict_score
  (self : WAFMiddleware.t) (env : Env.t) (req : Request.t) (ip : string) :
  nonneg_engine (ruleEngine self) ->
  getClientIP req = Some ip ->
  exists result,
    verdict_of self env req = Some result
    /\ exists anomaly : AnomalyResult.t,
         Analysis.anomaly (RuleEngine.analysis result) = Some anomaly
         /\ RuleEngine.score result
            = add_rule_scores
                (add_module_scores 0 (results_of self env req)
                 + AnomalyResult.totalScore anomaly)
                (RuleEngine.matchedRules result)
         /\ 0 <= RuleEngine.score result.
Proof.
  intros [Hmods Hrules] Hip.
  unfold verdict_of, results_of, analyzeRequest.
  destruct (initial_analysis env req) as [analysis0|] eqn:E0;
    [|unfold initial_analysis in E0; rewrite Hip in E0; discriminate].
  pose proof (initial_analysis_score env req analysis0 E0) as Hzero.
  destruct (run_modules_score (Config.modules (config self)) env
              (ruleEngine self) analysis0) as [Hs [Hr Hn]].
  destruct (Hn Hmods) as [_ Hpos].
  rewrite Hzero in Hs, Hpos.
  specialize (Hpos (Qle_refl 0)).
  destruct (run_modules (Config.modules (config self)) env (ruleEngine self)
              analysis0) as [engine analysis].
  simpl in Hs, Hr, Hpos.
  pose proof (calculateScore_nonneg (anomalyScorer self) env analysis) as Ha.
  destruct (AnomalyScorer.calculateScore (anomalyScorer self) env analysis)
    as [scorer anomaly].
  simpl in Ha. simpl.
  set (analysis' := Analysis.add_anomaly_result analysis anomaly).
  assert (Han : RuleEngine.analysis
                  (snd (RuleEngine.evaluate engine env analysis')) = analysis').
  { unfold RuleEngine.evaluate.
    destruct (Qle_bool (RuleEngine.threshold engine) (Analysis.score analysis'));
      destruct (RuleEngine.scan_rules (RuleEngine.rules engine) analysis' []
                  (Analysis.score analysis')) as [[rs' m'] s'];
      destruct (Qle_bool (RuleEngine.threshold engine) s'); reflexivity. }
  eexists. split; [reflexivity|].
  exists anomaly. rewrite Han. split; [reflexivity|].
  rewrite evaluate_final_score. split.
  - simpl. rewrite Hs. reflexivity.
  - rewrite <- evaluate_final_score, evaluate_score.
    eapply Qle_trans; [|apply scan_rules_ge; rewrite Hr; exact Hrules].
    simpl. lra.
Qed.

Lemma loadModules_nonneg config :
  Forall (fun nm => nonneg_module (snd nm))
         (RuleEngine.modules (RuleEngine.new config)).
Proof.
  unfold RuleEngine.new, RuleEngine.loadModules. simpl.
  assert (H : Forall (fun nm : string * RuleEngine.ModuleInstance =>
                        nonneg_module (snd nm)) []) by constructor.
  revert H. generalize (@nil (string * RuleEngine.ModuleInstance)).
  induction (Config.modules config) as [|n names IH]; intros mods H; simpl.
  - exact H.
  - apply IH. unfold RuleEngine.require.
    destruct (RuleEngine.names_file n "xss");
      [apply map_set_Forall; [exact H | exact xss_patterns_nonneg]|].
    destruct (RuleEngine.names_file n "sqli");
      [apply map_set_Forall; [exact H | exact sqli_patterns_nonneg]|].
    destruct (RuleEngine.names_file n "ratelimit");
      [apply map_set_Forall; [exact H | exact I] | exact H].
Qed.

Lemma scan_rules_keeps_scores rs : forall analysis matched score,
  Forall nonneg_rule rs ->
  Forall nonneg_rule (fst (fst (RuleEngine.scan_rules rs analysis matched score))).
Proof.
  induction rs as [|rule rs IH]; intros analysis matched score Hrs; simpl.
  - constructor.
  - inversion Hrs as [|? ? Hr Hrs']; subst.
    pose proof (evaluateRule_score rule analysis) as Hs.
    destruct (RuleEngine.evaluateRule rule analysis) as [rule' hit].
    simpl in Hs.
    assert (Hr' : nonneg_rule rule') by (unfold nonneg_rule; rewrite Hs; exact Hr).
    destruct hit.
    + specialize (IH analysis (matched ++ [rule']) (score + Rule.score rule') Hrs').
      destruct (RuleEngine.scan_rules rs analysis (matched ++ [rule'])
                  (score + Rule.score rule')) as [[rs'' m''] s''].
      simpl in *. constructor; assumption.
    + specialize (IH analysis matched score Hrs').
      destruct (RuleEngine.scan_rules rs analysis matched score)
        as [[rs'' m''] s''].
      simpl in *. constructor; assumption.
Qed.

Lemma evaluate_nonneg engine env analysis :
  nonneg_engine engine ->
  nonneg_engine (fst (RuleEngine.evaluate engine env analysis)).
Proof.
  intros [Hm Hr]. unfold RuleEngine.evaluate.
  pose proof (scan_rules_keeps_scores (RuleEngine.rules engine) analysis []
                (Analysis.score analysis) Hr) as H.
  destruct (Qle_bool (RuleEngine.threshold engine) (Analysis.score analysis));
    destruct (RuleEngine.scan_rules (RuleEngine.rules engine) analysis []
                (Analysis.score analysis)) as [[rs' m'] s'];
    destruct (Qle_bool (RuleEngine.threshold engine) s'); split; assumption.
Qed.

Lemma analyzeRequest_nonneg self env req s1 analysis1 :
  nonneg_engine (ruleEngine self) ->
  analyzeRequest self env req = Some (s1, analysis1) ->
  nonneg_engine (ruleEngine s1).
Proof.
  intros [Hm Hr]. unfold analyzeRequest.
  destruct (initial_analysis env req) as [analysis0|]; [|discriminate].
  destruct (run_modules_score (Config.modules (config self)) env
              (ruleEngine self) analysis0) as [_ [Hrules Hn]].
  destruct (Hn Hm) as [Hm' _].
  destruct (run_modules (Config.modules (config self)) env (ruleEngine self)
              analysis0) as [engine analysis].
  destruct (AnomalyScorer.calculateScore (anomalyScorer self) env analysis)
    as [scorer anomaly].
  intros H. injection H as <- <-.
  simpl in *. split; [exact Hm' | rewrite Hrules; exact Hr].
Qed.

Lemma middleware_nonneg self env req :
  nonneg_engine (ruleEngine self) ->
  nonneg_engine (ruleEngine (fst (fst (middleware self env req)))).
Proof.
  intros H. unfold middleware.
  destruct (shouldSkipPath self (Request.path req)); [exact H|].
  destruct (analyzeRequest self env req) as [[s1 analysis]|] eqn:Ea;
    [|exact H].
  pose proof (analyzeRequest_nonneg self env req s1 analysis H Ea) as H1.
  destruct (isLearningMode (set_stats s1 (recordRequest (stats s1)))).
  - unfold handleLearningMode.
    destruct (AdaptiveLearning.processRequest _ _ _) as [al lr].
    destruct (negb (Qle_bool (Analysis.score analysis) 0)); exact H1.
  - pose proof (evaluate_nonneg (ruleEngine s1) env analysis H1) as H2.
    simpl. destruct (RuleEngine.evaluate (ruleEngine s1) env analysis)
      as [engine decision].
    simpl in H2.
    destruct (RuleEngine.action decision); simpl;
      [|destruct (Config.dryRun (config s1))]; exact H2.
Qed.

Lemma fire_due_ruleEngine now ts : forall self,
  ruleEngine (fire_due now ts self) = ruleEngine self.
Proof.
  induction ts as [|[due cb] ts IH]; intros self; simpl.
  - reflexivity.
  - destruct (due <=? now)%Z; [|reflexivity].
    rewrite IH. destruct cb; reflexivity.
Qed.

Lemma step_nonneg self input :
  nonneg_engine (ruleEngine self) -> nonneg_engine (ruleEngine (step self input)).
Proof.
  intros H. destruct input as [env req|now|now]; simpl.
  - apply middleware_nonneg, H.
  - unfold run_timers. rewrite fire_due_ruleEngine. exact H.
  - unfold sweep. destruct H as [Hm Hr]. split; [|exact Hr]. simpl.
    induction Hm as [|[n [x|x|x]] mods Hx Hm IH]; simpl; constructor;
      solve [exact IH | exact Hx | exact I].
Qed.

(** Every state a running instance reaches keeps non-negative rule and
    pattern scores, when the rules it was given have them. *)
Lemma run_nonneg config enabledRules start inputs :
  Forall nonneg_rule enabledRules ->
  nonneg_engine (ruleEngine (run (new config enabledRules start) inputs)).
Proof.
  intros Hr.
  assert (H0 : nonneg_engine (ruleEngine (new config enabledRules start))).
  { split; [apply loadModules_nonneg | exact Hr]. }
  revert H0. generalize (new config enabledRules start).
  induction inputs as [|i inputs IH]; intros self H; simpl.
  - exact H.
  - apply IH, step_nonneg, H.
Qed.

(** C5 (amended). For every request a running instance analyses (every
    request for which [getClientIP] returns) and every rule set with
    non-negative scores, the rule engine reaches a verdict, and the
    score it produces equals the sum of the module scores, the total
    anomaly score and the scores of the matched flat rules, and it is
    non-negative. *)
Theorem engine_score_is_modules_anomaly_rules
  (config : Config.t) (enabledRules : list Rule.t) (start : Z)
  (inputs : list Input) (env : Env.t) (req : Request.t) (ip : string) :
  Forall nonneg_rule enabledRules ->
  getClientIP req = Some ip ->
  let self := run (new config enabledRules start) inputs in
  exists result,
    verdict_of self env req = Some result
    /\ exists anomaly : AnomalyResult.t,
         Analysis.anomaly (RuleEngine.analysis result) = Some anomaly
         /\ RuleEngine.score result
            = add_rule_scores
                (add_module_scores 0 (results_of self env req)
                 + AnomalyResult.totalScore anomaly)
                (RuleEngine.matchedRules result)
         /\ 0 <= RuleEngine.score result.
Proof.
  intros Hr Hip self. apply (verdict_score self env req ip); [|exact Hip].
  apply run_nonneg, Hr.
Qed.

(** C5 (as stated, refuted). A request without the usual browser
    headers matches no rule and no module pattern, yet the rule engine
    produces the score 5: the total anomaly score is part of it. *)
Lemma engine_score_includes_anomaly_score :
  exists result,
    verdict_of default_waf ScenarioAnomaly.noon bare_request = Some result
    /\ results_of default_waf ScenarioAnomaly.noon bare_request = []
    /\ RuleEngine.matchedRules result = []
    /\ RuleEngine.score result == 5
    /\ ~ RuleEngine.score result
         == add_rule_scores
              (add_module_scores 0
                 (results_of default_waf ScenarioAnomaly.noon bare_request))
              (RuleEngine.matchedRules result).
Proof.
  eexists. split; [vm_compute; reflexivity|].
  vm_compute. repeat split; try reflexivity. intros H; discriminate H.
Qed.

End PipelineScoreFacts.

(** ** Learning mode *)

Section LearningModeFacts.
Import WAFMiddleware ScenarioLearningMode LearningSpec.

Lemma new_invariant config enabledRules now :
  learning_invariant (new config enabledRules now).
Proof.
  unfold learning_invariant, new, AdaptiveLearning.new. simpl.
  destruct (Config.adaptiveLearning config); simpl.
  - split; [reflexivity | discriminate].
  - split; [reflexivity|]. intros _. split; reflexivity.
Qed.

Lemma fire_due_invariant now ts : forall self,
  isLearningMode self = Config.adaptiveLearning (config self) ->
  (Config.adaptiveLearning (config self) = false ->
   AdaptiveLearning.currentPhase (adaptiveLearning self)
     = AdaptiveLearning.PROTECTING
   /\ phase_timers ts = []) ->
  learning_invariant (fire_due now ts self).
Proof.
  induction ts as [|[due cb] ts IH]; intros self Hm H; simpl.
  - split; [exact Hm | exact H].
  - destruct (due <=? now)%Z; [|split; [exact Hm | exact H]].
    apply IH.
    + destruct cb; exact Hm.
    + destruct cb as [|p]; simpl in *; [exact H|].
      intros Hc. destruct (H Hc) as [_ Hd]. discriminate.
Qed.

Lemma analyzeRequest_frame self env req self' analysis' :
  analyzeRequest self env req = Some (self', analysis') ->
  config self' = config self
  /\ isLearningMode self' = isLearningMode self
  /\ timers self' = timers self
  /\ adaptiveLearning self' = adaptiveLearning self.
Proof.
  unfold analyzeRequest.
  destruct (initial_analysis env req) as [analysis0|]; [|discriminate].
  destruct (run_modules (Config.modules (config self)) env (ruleEngine self)
              analysis0) as [engine analysis].
  destruct (AnomalyScorer.calculateScore (anomalyScorer self) env analysis)
    as [scorer anomaly].
  intros H. injection H as <- <-.
  simpl. repeat split; reflexivity.
Qed.

Lemma processRequest_frame al now analysis :
  AdaptiveLearning.isLearning (fst (AdaptiveLearning.processRequest al now analysis))
  = AdaptiveLearning.isLearning al
  /\ AdaptiveLearning.currentPhase
       (fst (AdaptiveLearning.processRequest al now analysis))
     = AdaptiveLearning.currentPhase al.
Proof.
  unfold AdaptiveLearning.processRequest.
  destruct (AdaptiveLearning.isLearning al) eqn:E; simpl; auto.
Qed.

Lemma handleLearningMode_frame self env analysis :
  let self' := fst (handleLearningMode self env analysis) in
  config self' = config self
  /\ isLearningMode self' = isLearningMode self
  /\ timers self' = timers self
  /\ adaptiveLearning self'
     = fst (AdaptiveLearning.processRequest (adaptiveLearning self)
              (Env.now env) analysis).
Proof.
  unfold handleLearningMode.
  destruct (AdaptiveLearning.processRequest (adaptiveLearning self)
              (Env.now env) analysis) as [al lr].
  destruct (negb (Qle_bool (Analysis.score analysis) 0)); simpl;
    repeat split; reflexivity.
Qed.

(** A request changes neither the configuration, nor [isLearningMode],
    nor the pending timers, nor the phase of the learner. *)
Lemma middleware_frame self env req :
  let self' := fst (fst (middleware self env req)) in
  config self' = config self
  /\ isLearningMode self' = isLearningMode self
  /\ timers self' = timers self
  /\ AdaptiveLearning.isLearning (adaptiveLearning self')
     = AdaptiveLearning.isLearning (adaptiveLearning self)
  /\ AdaptiveLearning.currentPhase (adaptiveLearning self')
     = AdaptiveLearning.currentPhase (adaptiveLearning self).
Proof.
  unfold middleware.
  destruct (shouldSkipPath self (Request.path req)); [simpl; auto 6|].
  destruct (analyzeRequest self env req) as [[s1 analysis]|] eqn:Ea;
    [|simpl; auto 6].
  destruct (analyzeRequest_frame self env req s1 analysis Ea)
    as [Hc [Hm [Ht Ha]]].
  set (s2 := set_stats s1 (recordRequest (stats s1))).
  destruct (isLearningMode s2) eqn:El.
  - destruct (handleLearningMode_frame s2 env analysis) as [Hc' [Hm' [Ht' Ha']]].
    destruct (handleLearningMode s2 env analysis) as [s3 events].
    simpl in *. rewrite Hc', Hm', Ht', Ha'.
    destruct (processRequest_frame (adaptiveLearning s1) (Env.now env) analysis)
      as [H1 H2].
    rewrite H1, H2, Ha. auto 6.
  - destruct (RuleEngine.evaluate (ruleEngine s2) env analysis)
      as [engine decision].
    destruct (RuleEngine.action decision); simpl;
      [|destruct (Config.dryRun (config s1)); simpl];
      rewrite ?Ha; auto 6.
Qed.

Lemma step_invariant self input :
  learning_invariant self -> learning_invariant (step self input).
Proof.
  intros [Hm H]. destruct input as [env req|now|now]; simpl.
  - destruct (middleware_frame self env req) as [Hc [Hm' [Ht [Hl Hp]]]].
    unfold learning_invariant. rewrite Hc, Hm', Ht, Hp. split; assumption.
  - unfold run_timers. apply fire_due_invariant; assumption.
  - unfold sweep. split; assumption.
Qed.

Lemma run_invariant inputs : forall self,
  learning_invariant self -> learning_invariant (run self inputs).
Proof.
  induction inputs as [|i inputs IH]; intros self H; simpl.
  - exact H.
  - apply IH, step_invariant, H.
Qed.


Lemma middleware_learner_frozen self env req :
  AdaptiveLearning.isLearning (adaptiveLearning self) = false ->
  adaptiveLearning (fst (fst (middleware self env req))) = adaptiveLearning self.
Proof.
  intros Hl. unfold middleware.
  destruct (shouldSkipPath self (Request.path req)); [reflexivity|].
  destruct (analyzeRequest self env req) as [[s1 analysis]|] eqn:Ea;
    [|reflexivity].
  destruct (analyzeRequest_frame self env req s1 analysis Ea)
    as [_ [_ [_ Ha]]].
  set (s2 := set_stats s1 (recordRequest (stats s1))).
  destruct (isLearningMode s2).
  - destruct (handleLearningMode_frame s2 env analysis) as [_ [_ [_ Hp]]].
    destruct (handleLearningMode s2 env analysis) as [s3 events].
    cbn [fst] in *. rewrite Hp. subst s2. cbn [adaptiveLearning set_stats].
    rewrite Ha. unfold AdaptiveLearning.processRequest. rewrite Hl. reflexivity.
  - destruct (RuleEngine.evaluate (ruleEngine s2) env analysis)
      as [engine decision].
    destruct (RuleEngine.action decision); cbn; [exact Ha|].
    destruct (Config.dryRun (config s1)); cbn; exact Ha.
Qed.


Lemma fire_due_config now ts : forall self,
  config (fire_due now ts self) = config self.
Proof.
  induction ts as [|[due cb] ts IH]; intros self; simpl.
  - reflexivity.
  - destruct (due <=? now)%Z; [|reflexivity].
    rewrite IH. destruct cb; reflexivity.
Qed.

Lemma run_config inputs : forall self, config (run self inputs) = config self.
Proof.
  induction inputs as [|i inputs IH]; intros self; simpl.
  - reflexivity.
  - rewrite IH. destruct i as [env req|now|now]; simpl.
    + apply middleware_frame.
    + apply fire_due_config.
    + reflexivity.
Qed.

(** An instance configured with adaptive learning calls [next()] for
    every request of its life, whatever the phase of the learner:
    [isLearningMode] never changes. *)
Lemma adaptive_instance_never_blocks
  (cfg : Config.t) (enabledRules : list Rule.t) (start : Z)
  (inputs : list Input) (env : Env.t) (req : Request.t) :
  Config.adaptiveLearning cfg = true ->
  snd (fst (middleware (run (new cfg enabledRules start) inputs) env req)) = next.
Proof.
  intros Hc.
  assert (Hinv : learning_invariant (run (new cfg enabledRules start) inputs))
    by (apply run_invariant, new_invariant).
  destruct Hinv as [Hm _].
  rewrite run_config in Hm. simpl in Hm. rewrite Hc in Hm.
  generalize dependent (run (new cfg enabledRules start) inputs).
  intros self Hm. unfold middleware.
  destruct (shouldSkipPath self (Request.path req)); [reflexivity|].
  destruct (analyzeRequest self env req) as [[s1 analysis]|] eqn:Ea;
    [|reflexivity].
  destruct (analyzeRequest_frame self env req s1 analysis Ea) as [_ [Hm' _]].
  simpl. rewrite Hm', Hm.
  destruct (handleLearningMode _ env analysis); reflexivity.
Qed.

(** C3 (the code at a failing input). With [adaptiveLearning = true] and
    [learningPeriod = 7], the script-tag payload sent at instant 0 is allowed and a
    [threat-detected] event of type [learning] is emitted.  Past seven
    days the timers have run: the learner is in phase [PROTECTING] and no
    longer learning.  The same payload is then still allowed, with the
    same [learning] event, although the rule engine's verdict on it is
    [block]: [isLearningMode], computed once by the constructor, is
    still true. *)
Theorem enforcement_does_not_begin_after_learning :
  snd (fst first_visit) = next
  /\ List.map event_kind (snd first_visit) = ["threat-detected:learning"]
  /\ AdaptiveLearning.currentPhase (adaptiveLearning after_period)
     = AdaptiveLearning.PROTECTING
  /\ AdaptiveLearning.isLearning (adaptiveLearning after_period) = false
  /\ isLearningMode after_period = true
  /\ option_map RuleEngine.action
       (Observation.verdict_of after_period later xss_request)
     = Some RuleEngine.block
  /\ snd (fst second_visit) = next
  /\ List.map event_kind (snd second_visit) = ["threat-detected:learning"].
Proof. vm_compute. repeat split; reflexivity. Qed.

End LearningModeFacts.

(** ** The properties at concrete inputs *)

Section Instances.
Import Scenario RateLimitSpec RuleEngineSpec.
Local Open Scope Q_scope.

(** C1 (amended) at the engine with threshold 3 and a record that
    arrives with score 15 and matches the script-tag rule: the final
    score is 18 and the action is [block]. *)
Lemma evaluate_block_iff_threshold_reached_witness :
  Forall nonneg_rule (RuleEngine.rules ScenarioRuleEngine.engine)
  /\ (let result :=
        snd (RuleEngine.evaluate ScenarioRuleEngine.engine ScenarioAnomaly.noon
               ScenarioRuleEngine.scored_record) in
      (RuleEngine.action result = RuleEngine.block
       <-> RuleEngine.threshold ScenarioRuleEngine.engine
           <= RuleEngine.score result)
      /\ (RuleEngine.action result = RuleEngine.allow
          <-> RuleEngine.score result
              < RuleEngine.threshold ScenarioRuleEngine.engine)).
Proof.
  assert (H : Forall nonneg_rule (RuleEngine.rules ScenarioRuleEngine.engine))
    by (repeat constructor; vm_compute; discriminate).
  split; [exact H|].
  exact (proj2 (proj2 (proj2 (proj2
           (evaluate_block_iff_threshold_reached ScenarioRuleEngine.engine
              ScenarioAnomaly.noon ScenarioRuleEngine.scored_record)))) H).
Defined.

(** C1 (as stated, refuted). A record that arrives with score 3, the
    threshold, and matches a rule of score -1: the final score is 2,
    below the threshold, and the action is [block]. *)
Lemma evaluate_blocks_below_threshold :
  let result :=
    snd (RuleEngine.evaluate ScenarioRuleEngine.discount_engine
           ScenarioAnomaly.noon ScenarioRuleEngine.internal_record) in
  RuleEngine.threshold ScenarioRuleEngine.discount_engine == 3
  /\ List.map Rule.id (RuleEngine.matchedRules result) = ["internal-path"]
  /\ RuleEngine.score result == 2
  /\ RuleEngine.action result = RuleEngine.block
  /\ ~ (RuleEngine.action result = RuleEngine.block
        <-> RuleEngine.threshold ScenarioRuleEngine.discount_engine
            <= RuleEngine.score result).
Proof.
  vm_compute. repeat split; try reflexivity.
  intros [H _]. specialize (H eq_refl). apply H. reflexivity.
Qed.



(** C5 (amended) at the default instance and a request without the
    usual browser headers. *)
Lemma engine_score_is_modules_anomaly_rules_witness :
  Forall nonneg_rule
    (RuleManager.loadRulesFromManager
       (RuleManager.new (config_with ["xss"; "sqli"] None)))
  /\ WAFMiddleware.getClientIP ScenarioPipeline.bare_request = Some "1.2.3.4"
  /\ exists result,
       Observation.verdict_of ScenarioPipeline.default_waf
         ScenarioAnomaly.noon ScenarioPipeline.bare_request = Some result
       /\ exists anomaly : AnomalyResult.t,
            Analysis.anomaly (RuleEngine.analysis result) = Some anomaly
            /\ RuleEngine.score result
               = add_rule_scores
                   (Observation.add_module_scores 0
                      (Observation.results_of ScenarioPipeline.default_waf
                         ScenarioAnomaly.noon ScenarioPipeline.bare_request)
                    + AnomalyResult.totalScore anomaly)
                   (RuleEngine.matchedRules result)
            /\ 0 <= RuleEngine.score result.
Proof.
  assert (H : Forall nonneg_rule
                (RuleManager.loadRulesFromManager
                   (RuleManager.new (config_with ["xss"; "sqli"] None))))
    by (repeat constructor; vm_compute; discriminate).
  assert (Hip : WAFMiddleware.getClientIP ScenarioPipeline.bare_request
                = Some "1.2.3.4") by reflexivity.
  split; [exact H|]. split; [exact Hip|].
  exact (engine_score_is_modules_anomaly_rules
           (config_with ["xss"; "sqli"] None)
           (RuleManager.loadRulesFromManager
              (RuleManager.new (config_with ["xss"; "sqli"] None)))
           0 [] ScenarioAnomaly.noon ScenarioPipeline.bare_request "1.2.3.4"
           H Hip).
Defined.

(** C6 (as stated, refuted). At the instant [now = blockedUntil] the IP
    is still reported blocked, although no entry has
    [blockedUntil > now]. *)
Lemma blocked_at_expiry_instant :
  let blocked := fst (rl_send rl_start [0; 1000; 2000; 3000])%Z in
  snd (RateLimitModule.isIPBlocked blocked 63000 rl_ip) = true
  /\ ~ (exists r,
          RateLimitModule.blockedIPs blocked !! rl_ip = Some r
          /\ (63000 < RateLimitModule.blockedUntil r)%Z).
Proof.
  intros blocked. split; [vm_compute; reflexivity|].
  intros [r [Hr Hlt]].
  assert (E : RateLimitModule.blockedIPs blocked !! rl_ip
              = Some (RateLimitModule.MkBlock 63000
                        "Rate limit violations exceeded" 3000))
    by (vm_compute; reflexivity).
  rewrite E in Hr. inversion Hr; subst. simpl in Hlt. lia.
Qed.

(** C6 (amended) at the blocked module, one millisecond past the end of
    the block. *)
Lemma blocked_iff_entry_not_expired_witness :
  let blocked := fst (rl_send rl_start [0; 1000; 2000; 3000])%Z in
  RateLimitModule.blockedIPs blocked !! rl_ip
    = Some (RateLimitModule.MkBlock 63000 "Rate limit violations exceeded" 3000)
  /\ (63000 < 63001)%Z
  /\ snd (RateLimitModule.isIPBlocked blocked 63001 rl_ip) = false
  /\ RateLimitModule.blockedIPs
       (fst (RateLimitModule.isIPBlocked blocked 63001 rl_ip)) !! rl_ip = None.
Proof.
  intros blocked.
  assert (E : RateLimitModule.blockedIPs blocked !! rl_ip
              = Some (RateLimitModule.MkBlock 63000
                        "Rate limit violations exceeded" 3000))
    by (vm_compute; reflexivity).
  assert (L : (63000 < 63001)%Z) by lia.
  split; [exact E|]. split; [exact L|].
  exact (proj2 (blocked_iff_entry_not_expired blocked 63001 rl_ip)
           (RateLimitModule.MkBlock 63000 "Rate limit violations exceeded" 3000)
           E L).
Defined.

(** C7 at the module after four requests of one IP (the fourth blocks
    it), for a further request of that IP. *)
Lemma rate_and_block_tables_disjoint_witness :
  let self :=
    fold_left apply_op
      [OpAnalyze 0 rl_request; OpAnalyze 1000 rl_request;
       OpAnalyze 2000 rl_request; OpAnalyze 3000 rl_request]%Z
      (RateLimitModule.new rl_config) in
  snd (RateLimitModule.isIPBlocked self 4000 (Analysis.ip rl_request)) = true
  /\ tables_disjoint self
  /\ RateLimitModule.requests (fst (RateLimitModule.analyze self 4000 rl_request))
     = RateLimitModule.requests self.
Proof.
  intros self.
  assert (H : snd (RateLimitModule.isIPBlocked self 4000 (Analysis.ip rl_request))
              = true) by (vm_compute; reflexivity).
  destruct (rate_and_block_tables_disjoint rl_config
              [OpAnalyze 0 rl_request; OpAnalyze 1000 rl_request;
               OpAnalyze 2000 rl_request; OpAnalyze 3000 rl_request]%Z
              4000%Z rl_ip "manual" rl_request) as [H1 [_ H3]].
  split; [exact H|]. split; [exact H1 | exact (H3 H)].
Defined.

(** C8 (amended) for a request of the blocked IP that carries a
    [javascript:] URL, two seconds after the block. *)
Lemma rate_limit_scenario_witness :
  Analysis.ip ScenarioXSS.js_url_record = rl_ip
  /\ (5000 <= 63000)%Z
  /\ summary
       (snd (RateLimitModule.analyze
               (fst (rl_send rl_start [0; 1000; 2000; 3000]%Z)) 5000
               ScenarioXSS.js_url_record))
     = Some (10, ["ip-blocked"]).
Proof.
  assert (E : Analysis.ip ScenarioXSS.js_url_record = rl_ip) by reflexivity.
  assert (L : (5000 <= 63000)%Z) by lia.
  split; [exact E|]. split; [exact L|].
  destruct rate_limit_scenario as [_ [_ [_ [_ [[H _] _]]]]].
  exact (H 5000%Z ScenarioXSS.js_url_record E L).
Defined.

End Instances.


(** ** Rate-limit module: sweeping, blocking and counting *)

Section RateLimitMore.
Import RateLimitModule RateLimitSpec.

(** X1. [cleanup] keeps exactly the entries that have not expired: a rate
    record stays when its window is still open, a block record when
    [blockedUntil >= now], each unchanged; right after a sweep [getStats]
    counts every remaining rate record as active and every remaining
    block record as blocked. *)
Theorem cleanup_keeps_exactly_unexpired (self : t) (now : Z) :
  let swept := cleanup self now in
  (forall ip r,
      requests swept !! ip = Some r
      <-> requests self !! ip = Some r
          /\ (now - firstRequest r <= windowMs self)%Z)
  /\ (forall ip r,
      blockedIPs swept !! ip = Some r
      <-> blockedIPs self !! ip = Some r /\ (now <= blockedUntil r)%Z)
  /\ st_activeIPs (getStats swept now) = size (requests swept)
  /\ st_blockedIPs (getStats swept now) = size (blockedIPs swept).
Proof.
  intros swept. subst swept. unfold cleanup, getStats. simpl.
  split; [|split; [|split]].
  - intros ip r. rewrite map_lookup_filter_Some. simpl. split.
    + intros [H1 H2]. split; [exact H1 | lia].
    + intros [H1 H2]. split; [exact H1 | lia].
  - intros ip r. rewrite map_lookup_filter_Some. simpl. split.
    + intros [H1 H2]. split; [exact H1 | lia].
    + intros [H1 H2]. split; [exact H1 | lia].
  - f_equal. apply map_filter_id. intros ip r H.
    apply map_lookup_filter_Some in H as [_ H]. simpl in *. lia.
  - f_equal. apply map_filter_id. intros ip r H.
    apply map_lookup_filter_Some in H as [_ H]. simpl in *. lia.
Qed.

(** X2. Blocking and looking up: after [blockIP] at instant [now], the IP
    is reported blocked at instant [later] exactly when
    [later <= now + blockDuration]; after [unblockIP] it is reported not
    blocked at any instant. *)
Theorem block_then_lookup (self : t) (now later : Z) (ip reason : string) :
  (snd (isIPBlocked (blockIP self now ip reason) later ip) = true
   <-> (later <= now + blockDuration self)%Z)
  /\ snd (isIPBlocked (unblockIP (blockIP self now ip reason) ip) later ip)
     = false.
Proof.
  split.
  - unfold isIPBlocked, blockIP. simpl. rewrite lookup_insert_eq. simpl.
    destruct (Z.ltb_spec (now + blockDuration self) later) as [H|H]; simpl.
    + split; [discriminate | lia].
    + split; [intros _; exact H | reflexivity].
  - unfold isIPBlocked, unblockIP. simpl. rewrite lookup_delete_eq. reflexivity.
Qed.

(** X3. [analyze] touches the tables of the requesting IP only: the rate
    record and the block record of every other IP are what they were. *)
Theorem analyze_leaves_other_ips
  (self : t) (now : Z) (analysis : Analysis.t) (other : string) :
  other <> Analysis.ip analysis ->
  requests (fst (analyze self now analysis)) !! other = requests self !! other
  /\ blockedIPs (fst (analyze self now analysis)) !! other
     = blockedIPs self !! other.
Proof.
  intros Hne. unfold analyze, isIPBlocked, blockIP.
  repeat case_match; simpl; split; by simplify_map_eq.
Qed.

(** X4. With IP blocking switched off, [analyze] never creates a block
    entry: every block record found after the call was there before. *)
Theorem analyze_never_blocks_when_disabled
  (self : t) (now : Z) (analysis : Analysis.t) (ip : string) (r : BlockRecord) :
  ipBlocking_enabled self = false ->
  blockedIPs (fst (analyze self now analysis)) !! ip = Some r ->
  blockedIPs self !! ip = Some r.
Proof.
  intros Hoff. unfold analyze, isIPBlocked.
  repeat case_match; simplify_eq/=; try done;
    try (rewrite Hoff in *; discriminate);
    intros Hlook; apply lookup_delete_Some in Hlook as [_ Hlook]; exact Hlook.
Qed.

(** The first request of an IP that has no record and no block. *)
Lemma analyze_first self now analysis :
  enabled self = true ->
  blockedIPs self !! Analysis.ip analysis = None ->
  requests self !! Analysis.ip analysis = None ->
  (1 <= max self)%Z ->
  analyze self now analysis
  = (set_tables self
       (<[Analysis.ip analysis := MkRequest 1 now 0]> (requests self))
       (blockedIPs self),
     None).
Proof.
  intros He Hb Hr Hmax. unfold analyze, isIPBlocked.
  rewrite He, Hb. simpl. rewrite Hr.
  destruct (windowMs self <? _)%Z; cbn;
    (destruct (max self <? 0 + 1)%Z eqn:E;
     [apply Z.ltb_lt in E; lia | reflexivity]).
Qed.

(** A further request inside the window, below the limit. *)
Lemma analyze_below_limit self now analysis c first v :
  enabled self = true ->
  blockedIPs self !! Analysis.ip analysis = None ->
  requests self !! Analysis.ip analysis = Some (MkRequest c first v) ->
  (now - first <= windowMs self)%Z ->
  (c + 1 <= max self)%Z ->
  analyze self now analysis
  = (set_tables self
       (<[Analysis.ip analysis := MkRequest (c + 1) first v]> (requests self))
       (blockedIPs self),
     None).
Proof.
  intros He Hb Hr Hw Hmax. unfold analyze, isIPBlocked.
  rewrite He, Hb. simpl. rewrite Hr. simpl.
  replace (windowMs self <? now - first)%Z with false
    by (symmetry; apply Z.ltb_ge; lia).
  simpl.
  replace (max self <? c + 1)%Z with false
    by (symmetry; apply Z.ltb_ge; lia).
  reflexivity.
Qed.

(** A request inside the window that exceeds the limit is answered by a
    threat of score 5 or 10. *)
Lemma analyze_above_limit self now analysis c first v :
  enabled self = true ->
  blockedIPs self !! Analysis.ip analysis = None ->
  requests self !! Analysis.ip analysis = Some (MkRequest c first v) ->
  (now - first <= windowMs self)%Z ->
  (max self < c + 1)%Z ->
  exists r, snd (analyze self now analysis) = Some r
            /\ (ModuleResult.score r = 5%Q \/ ModuleResult.score r = 10%Q).
Proof.
  intros He Hb Hr Hw Hmax. unfold analyze, isIPBlocked.
  rewrite He, Hb. simpl. rewrite Hr. simpl.
  replace (windowMs self <? now - first)%Z with false
    by (symmetry; apply Z.ltb_ge; lia).
  simpl.
  replace (max self <? c + 1)%Z with true
    by (symmetry; apply Z.ltb_lt; lia).
  destruct (ipBlocking_enabled self && (maxViolations self <=? v + 1)%Z);
    simpl; eexists; (split; [reflexivity|]); simpl; auto.
Qed.

Lemma send_all_below_limit analysis first rest : forall self c v,
  enabled self = true ->
  blockedIPs self !! Analysis.ip analysis = None ->
  requests self !! Analysis.ip analysis = Some (MkRequest c first v) ->
  Forall (fun now => (now - first <= windowMs self)%Z) rest ->
  (c + Z.of_nat (List.length rest) <= max self)%Z ->
  let (self', results) := send_all self analysis rest in
  results = repeat None (List.length rest)
  /\ enabled self' = true
  /\ max self' = max self
  /\ windowMs self' = windowMs self
  /\ blockedIPs self' !! Analysis.ip analysis = None
  /\ requests self' !! Analysis.ip analysis
     = Some (MkRequest (c + Z.of_nat (List.length rest)) first v).
Proof.
  induction rest as [|now rest IH]; intros self c v He Hb Hr Hw Hmax.
  - simpl. rewrite Z.add_0_r. repeat split; assumption.
  - inversion Hw as [|? ? Hnow Hrest]; subst.
    cbn [send_all List.length] in *.
    rewrite (analyze_below_limit self now analysis c first v) by (auto; lia).
    set (self1 := set_tables self _ _).
    specialize (IH self1 (c + 1)%Z v).
    destruct (send_all self1 analysis rest) as [self' results].
    destruct IH as [H1 [H2 [H3 [H4 [H5 H6]]]]].
    + exact He.
    + exact Hb.
    + subst self1. simpl. apply lookup_insert_eq.
    + exact Hrest.
    + subst self1. simpl. lia.
    + subst self1. simpl in *. rewrite H1.
      repeat split; try assumption.
      rewrite H6. do 2 f_equal. lia.
Qed.

(** X5. The limit is exact.  For an IP that has no rate record and no
    block, the first [max] requests of one window are answered by [null];
    one more request inside the window is answered by a rate-limit threat
    of score 5, or of score 10 when it also blocks the IP. *)
Theorem rate_limit_is_exact
  (self : t) (analysis : Analysis.t) (first : Z) (rest : list Z) (next : Z) :
  enabled self = true ->
  blockedIPs self !! Analysis.ip analysis = None ->
  requests self !! Analysis.ip analysis = None ->
  Forall (fun now => (now - first <= windowMs self)%Z) (rest ++ [next]) ->
  (Z.of_nat (List.length (first :: rest)) <= max self)%Z ->
  snd (send_all self analysis (first :: rest))
    = repeat None (List.length (first :: rest))
  /\ (Z.of_nat (List.length (first :: rest)) = max self ->
      exists r,
        snd (analyze (fst (send_all self analysis (first :: rest))) next analysis)
        = Some r
        /\ (ModuleResult.score r = 5%Q \/ ModuleResult.score r = 10%Q)).
Proof.
  intros He Hb Hr Hw Hmax.
  apply Forall_app in Hw as [Hrest Hnext].
  inversion Hnext as [|? ? Hn _]; subst.
  cbn [send_all List.length] in *.
  rewrite (analyze_first self first analysis) by (auto; lia).
  set (self1 := set_tables self _ _).
  pose proof (send_all_below_limit analysis first rest self1 1 0) as H.
  destruct (send_all self1 analysis rest) as [self' results].
  destruct H as [H1 [H2 [H3 [H4 [H5 H6]]]]].
  - exact He.
  - exact Hb.
  - subst self1. simpl. apply lookup_insert_eq.
  - exact Hrest.
  - subst self1. simpl. lia.
  - simpl. split; [rewrite H1; reflexivity|].
    intros Hfull.
    apply (analyze_above_limit self' next analysis
             (1 + Z.of_nat (List.length rest)) first 0); auto.
    + subst self1. simpl in *. lia.
    + subst self1. simpl in *. lia.
Qed.

(** X6. [getIPStatus] agrees with the answer of an [isIPBlocked] call that
    has just been made: the status is [blocked] exactly when the call
    answered [true]. *)
Theorem status_agrees_after_lookup (self : t) (now : Z) (ip : string) :
  let after := fst (isIPBlocked self now ip) in
  snd (isIPBlocked self now ip) = true
  <-> exists blockedUntil reason blockedAt,
        getIPStatus after now ip = blocked blockedUntil reason blockedAt.
Proof.
  unfold isIPBlocked, getIPStatus.
  destruct (blockedIPs self !! ip) as [b|] eqn:E.
  - destruct (blockedUntil b <? now)%Z; simpl.
    + rewrite lookup_delete_eq. split; [discriminate|].
      intros [u [r [a H]]]. destruct (requests self !! ip); discriminate.
    + rewrite E. split; [eauto | reflexivity].
  - simpl. rewrite E. split; [discriminate|].
    intros [u [r [a H]]]. destruct (requests self !! ip); discriminate.
Qed.

(** X3 at the fresh module of the rate-limit scenario, for a second
    address. *)
Lemma analyze_leaves_other_ips_witness :
  "5.6.7.8" <> Analysis.ip Scenario.rl_request
  /\ requests (fst (analyze Scenario.rl_start 0 Scenario.rl_request)) !! "5.6.7.8"
     = requests Scenario.rl_start !! "5.6.7.8"
  /\ blockedIPs (fst (analyze Scenario.rl_start 0 Scenario.rl_request)) !! "5.6.7.8"
     = blockedIPs Scenario.rl_start !! "5.6.7.8".
Proof.
  assert (H : "5.6.7.8" <> Analysis.ip Scenario.rl_request)
    by (vm_compute; discriminate).
  split; [exact H|].
  exact (analyze_leaves_other_ips Scenario.rl_start 0 Scenario.rl_request
           "5.6.7.8" H).
Defined.

(** X4 at a module without IP blocking whose only block entry was made by
    hand. *)
Lemma analyze_never_blocks_when_disabled_witness :
  let self := blockIP ScenarioCoverage.rate_only 0 Scenario.rl_ip "manual" in
  ipBlocking_enabled self = false
  /\ blockedIPs (fst (analyze self 1000 Scenario.rl_request)) !! Scenario.rl_ip
     = Some (MkBlock 86400000 "manual" 0)
  /\ blockedIPs self !! Scenario.rl_ip = Some (MkBlock 86400000 "manual" 0).
Proof.
  intros self.
  assert (H1 : ipBlocking_enabled self = false) by reflexivity.
  assert (H2 : blockedIPs (fst (analyze self 1000 Scenario.rl_request))
                 !! Scenario.rl_ip
               = Some (MkBlock 86400000 "manual" 0))
    by (vm_compute; reflexivity).
  split; [exact H1|]. split; [exact H2|].
  exact (analyze_never_blocks_when_disabled self 1000 Scenario.rl_request
           Scenario.rl_ip (MkBlock 86400000 "manual" 0) H1 H2).
Defined.

(** X5 at the rate-limit scenario: two requests allowed per minute. *)
Lemma rate_limit_is_exact_witness :
  enabled Scenario.rl_start = true
  /\ Z.of_nat (List.length [0; 1000]%Z) = max Scenario.rl_start
  /\ snd (send_all Scenario.rl_start Scenario.rl_request [0; 1000]%Z)
     = [None; None]
  /\ exists r,
       snd (analyze (fst (send_all Scenario.rl_start Scenario.rl_request
                            [0; 1000]%Z))
              2000 Scenario.rl_request) = Some r
       /\ (ModuleResult.score r = 5%Q \/ ModuleResult.score r = 10%Q).
Proof.
  assert (He : enabled Scenario.rl_start = true) by reflexivity.
  assert (Hb : blockedIPs Scenario.rl_start !! Analysis.ip Scenario.rl_request
               = None) by (vm_compute; reflexivity).
  assert (Hr : requests Scenario.rl_start !! Analysis.ip Scenario.rl_request
               = None) by (vm_compute; reflexivity).
  assert (Hw : Forall (fun now => (now - 0 <= windowMs Scenario.rl_start)%Z)
                 ([1000] ++ [2000])%Z)
    by (repeat constructor; vm_compute; discriminate).
  assert (Hmax : (Z.of_nat (List.length [0; 1000]%Z) <= max Scenario.rl_start)%Z)
    by (vm_compute; discriminate).
  assert (Hfull : Z.of_nat (List.length [0; 1000]%Z) = max Scenario.rl_start)
    by reflexivity.
  destruct (rate_limit_is_exact Scenario.rl_start Scenario.rl_request
              0 [1000]%Z 2000 He Hb Hr Hw Hmax) as [H1 H2].
  split; [exact He|]. split; [exact Hfull|].
  split; [exact H1 | exact (H2 Hfull)].
Defined.

End RateLimitMore.

(** ** The rule set of the engine *)

Section RuleSetFacts.
Import RuleEngine RuleSetSpec.

Lemma evaluateRule_cursor rule rule' analysis :
  forget_cursor rule = forget_cursor rule' ->
  snd (evaluateRule rule analysis) = snd (evaluateRule rule' analysis).
Proof.
  intros H. unfold evaluateRule.
  assert (Hp : RegExp.set_lastIndex (Rule.pattern rule) 0
               = RegExp.set_lastIndex (Rule.pattern rule') 0)
    by (apply (f_equal Rule.pattern) in H; exact H).
  pose proof (some_test_cursor (Analysis.extractSearchTexts analysis) _ _ Hp) as Hs.
  destruct (some_test (Rule.pattern rule) _), (some_test (Rule.pattern rule') _).
  exact Hs.
Qed.

Lemma forget_cursor_score rule rule' :
  forget_cursor rule = forget_cursor rule' -> Rule.score rule = Rule.score rule'.
Proof. intros H. apply (f_equal Rule.score) in H. exact H. Qed.

(** Two scans of rule sets that differ in cursors only. *)
Lemma scan_rules_cursor rs : forall rs' analysis matched matched' score,
  List.map forget_cursor rs = List.map forget_cursor rs' ->
  List.map forget_cursor matched = List.map forget_cursor matched' ->
  List.map forget_cursor (fst (fst (scan_rules rs analysis matched score)))
  = List.map forget_cursor rs
  /\ List.map forget_cursor (snd (fst (scan_rules rs analysis matched score)))
     = List.map forget_cursor (snd (fst (scan_rules rs' analysis matched' score)))
  /\ snd (scan_rules rs analysis matched score)
     = snd (scan_rules rs' analysis matched' score).
Proof.
  induction rs as [|rule rs IH]; intros rs' analysis matched matched' score Hrs Hm.
  - destruct rs'; [|discriminate]. simpl. auto.
  - destruct rs' as [|rule' rs']; [discriminate|].
    assert (Hr : forget_cursor rule = forget_cursor rule')
      by (apply (f_equal (hd rule)) in Hrs; exact Hrs).
    apply (f_equal (@tl _)) in Hrs. cbn [List.map tl] in Hrs.
    cbn [scan_rules].
    pose proof (evaluateRule_keeps_rule rule analysis) as K1.
    pose proof (evaluateRule_keeps_rule rule' analysis) as K2.
    pose proof (evaluateRule_cursor rule rule' analysis Hr) as Hh.
    destruct (evaluateRule rule analysis) as [r1 hit1].
    destruct (evaluateRule rule' analysis) as [r2 hit2].
    simpl in *. subst hit2.
    assert (Hs : Rule.score r1 = Rule.score r2)
      by (apply forget_cursor_score; congruence).
    destruct hit1.
    + specialize (IH rs' analysis (matched ++ [r1]) (matched' ++ [r2])
                     (score + Rule.score r1)%Q Hrs).
      rewrite <- Hs.
      destruct (scan_rules rs analysis (matched ++ [r1]) _) as [[o1 m1] s1].
      destruct (scan_rules rs' analysis (matched' ++ [r2]) _) as [[o2 m2] s2].
      simpl in *.
      destruct IH as [I1 [I2 I3]].
      { rewrite !List.map_app. simpl. congruence. }
      repeat split; congruence.
    + specialize (IH rs' analysis matched matched' score Hrs Hm).
      destruct (scan_rules rs analysis matched score) as [[o1 m1] s1].
      destruct (scan_rules rs' analysis matched' score) as [[o2 m2] s2].
      simpl in *.
      destruct IH as [I1 [I2 I3]].
      repeat split; congruence.
Qed.

(** X7. The verdict of the rule scan is repeatable: [evaluate] on the
    engine that an earlier [evaluate] of the same record left behind
    returns the same action, score and reason and matches the same rules.
    The cursors that the first call left in the [/g] patterns of the
    rules have no effect, because [evaluateRule] resets them. *)
Theorem evaluate_is_repeatable
  (self : RuleEngine.t) (env env' : Env.t) (analysis : Analysis.t) :
  let first := evaluate self env analysis in
  let second := evaluate (fst first) env' analysis in
  action (snd second) = action (snd first)
  /\ score (snd second) = score (snd first)
  /\ reason (snd second) = reason (snd first)
  /\ List.map forget_cursor (matchedRules (snd second))
     = List.map forget_cursor (matchedRules (snd first))
  /\ List.map forget_cursor (getRules (fst second))
     = List.map forget_cursor (getRules self).
Proof.
  unfold evaluate, getRules.
  pose proof (scan_rules_cursor (rules self) (rules self) analysis [] []
                (Analysis.score analysis) eq_refl eq_refl) as [K _].
  destruct (scan_rules (rules self) analysis [] (Analysis.score analysis))
    as [[o1 m1] s1] eqn:E1.
  simpl in K.
  pose proof (scan_rules_cursor o1 (rules self) analysis [] []
                (Analysis.score analysis) K eq_refl) as [K1 [K2 K3]].
  rewrite E1 in K2, K3. simpl in K2, K3.
  destruct (Qle_bool (threshold self) (Analysis.score analysis)) eqn:E0;
    destruct (Qle_bool (threshold self) s1) eqn:E2; simpl;
    destruct (scan_rules o1 analysis [] (Analysis.score analysis))
      as [[o2 m2] s2]; simpl in *; subst s2; rewrite ?E0, ?E2; simpl;
    repeat split; congruence.
Qed.

Lemma filter_other_ids ruleId (rs : list Rule.t) :
  Forall (fun rule => Rule.id rule <> ruleId) rs ->
  List.filter (fun rule => negb (String.eqb (Rule.id rule) ruleId)) rs = rs.
Proof.
  induction 1 as [|r rs Hr _ IH]; simpl.
  - reflexivity.
  - apply String.eqb_neq in Hr. rewrite Hr. simpl. rewrite IH. reflexivity.
Qed.

(** X8. Adding and removing rules.  [removeRule(id)] leaves no rule of
    that id in the rule set, so no later [evaluate] lists one among its
    matched rules; and removing a rule that was just added, under an id
    no other rule carries, gives the engine back as it was. *)
Theorem removeRule_removes_every_rule_of_the_id
  (self : RuleEngine.t) (rule : Rule.t) (ruleId : string)
  (env : Env.t) (analysis : Analysis.t) :
  Forall (fun r => Rule.id r <> ruleId) (getRules (removeRule self ruleId))
  /\ Forall (fun r => Rule.id r <> ruleId)
       (matchedRules (snd (evaluate (removeRule self ruleId) env analysis)))
  /\ (Forall (fun r => Rule.id r <> Rule.id rule) (getRules self) ->
      removeRule (addRule self rule) (Rule.id rule) = self).
Proof.
  assert (H1 : Forall (fun r => Rule.id r <> ruleId)
                 (getRules (removeRule self ruleId))).
  { unfold getRules, removeRule. simpl. apply List.Forall_forall.
    intros r Hr. apply List.filter_In in Hr as [_ Hr].
    apply negb_true_iff, String.eqb_neq in Hr. exact Hr. }
  split; [exact H1|]. split.
  - rewrite evaluate_matchedRules.
    apply scan_rules_matched; [intros r re Hr; exact Hr | exact H1 | constructor].
  - intros Hfresh. unfold removeRule, addRule, getRules in *. simpl.
    rewrite List.filter_app. simpl.
    rewrite String.eqb_refl. simpl.
    rewrite filter_other_ids by exact Hfresh.
    rewrite List.app_nil_r. destruct self; reflexivity.
Qed.

Lemma removeRule_removes_every_rule_of_the_id_witness :
  Forall (fun r => Rule.id r <> "custom-admin")
    (getRules (new (Scenario.config_with ["xss"] None)))
  /\ removeRule
       (addRule (new (Scenario.config_with ["xss"] None))
          (R "custom-admin" "Admin path" "\/admin" 4 "custom" "Admin path probe"))
       "custom-admin"
     = new (Scenario.config_with ["xss"] None).
Proof.
  assert (H : Forall (fun r => Rule.id r <> "custom-admin")
                (getRules (new (Scenario.config_with ["xss"] None))))
    by (repeat constructor; discriminate).
  split; [exact H|].
  exact (proj2 (proj2
           (removeRule_removes_every_rule_of_the_id
              (new (Scenario.config_with ["xss"] None))
              (R "custom-admin" "Admin path" "\/admin" 4 "custom"
                 "Admin path probe")
              "custom-admin" (Env.Make 0 0 0 "") Scenario.rl_request)) H).
Defined.

End RuleSetFacts.

(** ** Bounds of the anomaly score *)

Section AnomalyBounds.
Import AnomalyScorer AnomalyResult AnomalySpec.
Local Open Scope Q_scope.

Lemma Qmin_le_r a b : AnomalyScorer.Qmin a b <= b.
Proof.
  unfold AnomalyScorer.Qmin. destruct (Qle_bool a b) eqn:E.
  - apply Qle_bool_iff. exact E.
  - apply Qle_refl.
Qed.

Lemma Qmin_nonneg a b : 0 <= a -> 0 <= b -> 0 <= AnomalyScorer.Qmin a b.
Proof. intros Ha Hb. unfold AnomalyScorer.Qmin. destruct (Qle_bool a b); assumption. Qed.

Lemma frequency_cap self now analysis :
  snd (calculateFrequencyAnomaly self now analysis) <= 10.
Proof.
  unfold calculateFrequencyAnomaly. cbn [snd].
  match goal with |- (if ?c then _ else _) <= _ => destruct c end.
  - apply Qmin_le_r.
  - discriminate.
Qed.

Lemma userAgent_cap self analysis : calculateUserAgentAnomaly self analysis <= 4.
Proof. unfold calculateUserAgentAnomaly. case_ifs; discriminate. Qed.

Lemma path_cap self analysis : calculatePathAnomaly self analysis <= 2.
Proof. unfold calculatePathAnomaly. case_ifs; discriminate. Qed.

Lemma query_cap analysis : calculateQueryAnomaly analysis <= 5.
Proof.
  unfold calculateQueryAnomaly.
  destruct (Analysis.query analysis) as [[|kv query]|];
    try discriminate. apply Qmin_le_r.
Qed.

Lemma bodySize_cap self analysis : calculateBodySizeAnomaly self analysis <= 5.
Proof.
  unfold calculateBodySizeAnomaly.
  match goal with |- (if ?c then _ else _) <= _ => destruct c end.
  - apply Qmin_le_r.
  - discriminate.
Qed.

Lemma header_cap analysis : calculateHeaderAnomaly analysis <= 3.
Proof. unfold calculateHeaderAnomaly. apply Qmin_le_r. Qed.

Lemma time_cap env : calculateTimeAnomaly env <= 1.
Proof. unfold calculateTimeAnomaly. case_ifs; discriminate. Qed.

Lemma factor_sum_snoc factors f :
  factor_sum (factors ++ [f]) = factor_sum factors + score f.
Proof. unfold factor_sum. rewrite fold_left_app. reflexivity. Qed.

Lemma factor_sum_nonneg factors :
  Forall (fun f => 0 < score f <= 10) factors -> 0 <= factor_sum factors.
Proof.
  induction factors as [|f factors IH] using rev_ind; intros H.
  - discriminate.
  - apply Forall_app in H as [H1 H2]. inversion H2; subst.
    rewrite factor_sum_snoc. specialize (IH H1). lra.
Qed.

(** One [if (s > 0) { ... }] step of the accumulation. *)
Lemma add_factor_within bound count acc ty s c :
  within bound count acc -> s <= c -> 0 <= c -> c <= 10 ->
  within (bound + c) (S count) (add_factor acc ty s).
Proof.
  intros [[H0 H1] [H2 [H3 H4]]] Hs Hc Hc'. unfold add_factor.
  destruct (Qgtb s 0) eqn:E.
  - apply Qgtb_true in E. unfold within. cbn [fst snd].
    split; [split; lra|]. split; [|split].
    + rewrite factor_sum_snoc. cbn [score]. rewrite H2. reflexivity.
    + apply Forall_app. split; [exact H3|].
      constructor; [|constructor]. cbn [score]. split; lra.
    + rewrite List.length_app. simpl. lia.
  - unfold within. split; [split; lra|]. split; [exact H2|].
    split; [exact H3 | lia].
Qed.

(** X9. The result of [calculateScore] is bounded: the total score lies
    between 0 and 30 and differs from the sum of the listed factors by
    less than 0.01; every listed factor is positive and at most 10; at
    most seven factors are listed (the geographic factor never is); and
    the confidence lies between 0 and 1. *)
Theorem anomaly_score_is_bounded
  (self : AnomalyScorer.t) (env : Env.t) (analysis : Analysis.t) :
  let result := snd (calculateScore self env analysis) in
  0 <= totalScore result <= 30
  /\ factor_sum (factors result) - (1 # 100) < totalScore result
     < factor_sum (factors result) + (1 # 100)
  /\ Forall (fun f => 0 < score f <= 10) (factors result)
  /\ (List.length (factors result) <= 7)%nat
  /\ 0 <= confidence result <= 1.
Proof.
  unfold calculateScore.
  destruct (opt_gt (Config.anomalyThreshold (config self)) 100).
  - cbn. repeat split; try discriminate; try constructor. lia.
  - pose proof (frequency_cap self (Env.now env) analysis) as Hf.
    destruct (calculateFrequencyAnomaly self (Env.now env) analysis)
      as [self' frequencyScore].
    cbn [snd] in Hf.
    assert (W0 : within 0 0 (0, [])).
    { unfold within. cbn. repeat split; try discriminate; try constructor. }
    pose proof (add_factor_within _ _ _ "frequency" _ 10 W0 Hf) as W1.
    specialize (W1 ltac:(discriminate) ltac:(discriminate)).
    pose proof (add_factor_within _ _ _ "userAgent" _ 4 W1
                  (userAgent_cap self' analysis)
                  ltac:(discriminate) ltac:(discriminate)) as W2.
    pose proof (add_factor_within _ _ _ "path" _ 2 W2
                  (path_cap self' analysis)
                  ltac:(discriminate) ltac:(discriminate)) as W3.
    pose proof (add_factor_within _ _ _ "query" _ 5 W3
                  (query_cap analysis)
                  ltac:(discriminate) ltac:(discriminate)) as W4.
    pose proof (add_factor_within _ _ _ "bodySize" _ 5 W4
                  (bodySize_cap self' analysis)
                  ltac:(discriminate) ltac:(discriminate)) as W5.
    pose proof (add_factor_within _ _ _ "header" _ 3 W5
                  (header_cap analysis)
                  ltac:(discriminate) ltac:(discriminate)) as W6.
    pose proof (add_factor_within _ _ _ "time" _ 1 W6
                  (time_cap env)
                  ltac:(discriminate) ltac:(discriminate)) as W7.
    clear W0 W1 W2 W3 W4 W5 W6.
    change (add_factor
              (add_factor
                 (add_factor
                    (add_factor
                       (add_factor
                          (add_factor
                             (add_factor (0, []) "frequency" frequencyScore)
                             "userAgent" (calculateUserAgentAnomaly self' analysis))
                          "path" (calculatePathAnomaly self' analysis))
                       "query" (calculateQueryAnomaly analysis))
                    "bodySize" (calculateBodySizeAnomaly self' analysis))
                 "header" (calculateHeaderAnomaly analysis))
              "time" (calculateTimeAnomaly env))
      with (add_factor
              (add_factor
                 (add_factor
                    (add_factor
                       (add_factor
                          (add_factor
                             (add_factor
                                (add_factor (0, []) "frequency" frequencyScore)
                                "userAgent"
                                (calculateUserAgentAnomaly self' analysis))
                             "path" (calculatePathAnomaly self' analysis))
                          "query" (calculateQueryAnomaly analysis))
                       "bodySize" (calculateBodySizeAnomaly self' analysis))
                    "header" (calculateHeaderAnomaly analysis))
                 "time" (calculateTimeAnomaly env))
              "geographic" (calculateGeographicAnomaly analysis)) in W7.
    cbv zeta.
    destruct (add_factor _ "geographic" _) as [total fs].
    destruct W7 as [[T0 T1] [T2 [T3 T4]]]. cbn [fst snd] in *.
    cbn [totalScore factors confidence snd].
    assert (T30 : total <= 30).
    { eapply Qle_trans; [exact T1|]. discriminate. }
    split; [split|].
    + apply rounded_nonneg. exact T0.
    + apply Qle_shift_div_r; [reflexivity|].
      change (30 * 100) with (inject_Z 3000). rewrite <- Zle_Qle.
      unfold round. change 3000%Z with (Qfloor (30 * 100 + (1 # 2))).
      apply Qfloor_resp_le. lra.
    + split; [|split; [exact T3 | split; [exact T4|]]].
      * pose proof (Qfloor_le (total * 100 + (1 # 2))) as Hlo.
        pose proof (Qlt_floor (total * 100 + (1 # 2))) as Hhi.
        rewrite inject_Z_plus in Hhi. change (inject_Z 1) with 1 in Hhi.
        unfold round.
        set (z := inject_Z (Qfloor (total * 100 + (1 # 2)))) in *.
        assert (Ez : z / 100 == z * (1 # 100)) by reflexivity.
        rewrite Ez. split; lra.
      * unfold calculateConfidence. destruct fs as [|f fs]; [split; discriminate|].
        split; [|apply Qmin_le_r].
        apply Qmin_nonneg; [|discriminate].
        pose proof (factor_sum_nonneg (f :: fs) T3) as Hs.
        unfold factor_sum in Hs.
        apply Qmult_le_0_compat; [|discriminate].
        apply Qle_shift_div_l.
        -- change 0 with (inject_Z 0). rewrite <- Zlt_Qlt. simpl List.length. lia.
        -- rewrite Qmult_0_l. exact Hs.
Qed.

End AnomalyBounds.

(** ** The middleware: outcomes and counters *)

Section MiddlewareFacts.
Import WAFMiddleware MiddlewareSpec.

Lemma analyzeRequest_throws self env req :
  getClientIP req = None -> analyzeRequest self env req = None.
Proof.
  intros H. unfold analyzeRequest, initial_analysis. rewrite H. reflexivity.
Qed.

Lemma analyzeRequest_returns self env req ip :
  getClientIP req = Some ip ->
  exists self' analysis, analyzeRequest self env req = Some (self', analysis).
Proof.
  intros H. unfold analyzeRequest, initial_analysis. rewrite H.
  destruct (run_modules _ _ _ _) as [engine analysis].
  destruct (AnomalyScorer.calculateScore _ _ _) as [scorer anomaly].
  eauto.
Qed.

Lemma analyzeRequest_stats self env req self' analysis' :
  analyzeRequest self env req = Some (self', analysis') ->
  stats self' = stats self.
Proof.
  unfold analyzeRequest.
  destruct (initial_analysis env req) as [analysis0|]; [|discriminate].
  destruct (run_modules _ _ _ _) as [engine analysis].
  destruct (AnomalyScorer.calculateScore _ _ _) as [scorer anomaly].
  intros H. injection H as <- <-. reflexivity.
Qed.

Lemma handleLearningMode_stats self env analysis :
  stats (fst (handleLearningMode self env analysis)) = stats self
  \/ stats (fst (handleLearningMode self env analysis))
     = recordThreat (stats self) "learning".
Proof.
  unfold handleLearningMode.
  destruct (AdaptiveLearning.processRequest _ _ _) as [al lr].
  destruct (negb (Qle_bool (Analysis.score analysis) 0)); simpl; auto.
Qed.


(** What a request does to the counters. *)
Lemma middleware_stats self env req :
  let st := stats self in
  let st' := stats (fst (fst (middleware self env req))) in
  if counted self (HttpRequest env req) then
    st' = recordRequest st
    \/ (isLearningMode self = true
        /\ is_403 (snd (fst (middleware self env req))) = false
        /\ st' = recordThreat (recordRequest st) "learning")
    \/ (isLearningMode self = false
        /\ is_403 (snd (fst (middleware self env req))) = false
        /\ st' = recordThreat (recordRequest st) "dry-run")
    \/ (isLearningMode self = false
        /\ is_403 (snd (fst (middleware self env req))) = true
        /\ st' = recordThreat (recordRequest st) "blocked")
  else st' = st /\ is_403 (snd (fst (middleware self env req))) = false.
Proof.
  unfold counted, middleware.
  destruct (shouldSkipPath self (Request.path req)); [split; reflexivity|].
  cbn [negb andb].
  destruct (getClientIP req) as [ip|] eqn:Hip.
  2: { rewrite (analyzeRequest_throws self env req Hip). split; reflexivity. }
  destruct (analyzeRequest_returns self env req ip Hip) as [s1 [analysis Ea]].
  rewrite Ea.
  pose proof (analyzeRequest_stats self env req s1 analysis Ea) as Hs.
  destruct (analyzeRequest_frame self env req s1 analysis Ea) as [_ [Hm _]].
  rewrite <- Hs, <- Hm.
  set (s2 := set_stats s1 (recordRequest (stats s1))).
  change (isLearningMode s2) with (isLearningMode s1).
  destruct (isLearningMode s1).
  - destruct (handleLearningMode_stats s2 env analysis) as [H|H];
      destruct (handleLearningMode s2 env analysis) as [s3 events];
      cbn [fst snd] in *; rewrite H; auto.
  - destruct (RuleEngine.evaluate (ruleEngine s2) env analysis)
      as [engine decision].
    destruct (RuleEngine.action decision); cbn; auto.
    destruct (Config.dryRun (config s1)); cbn; auto 6.
Qed.

Lemma fire_due_stats now ts : forall self,
  stats (fire_due now ts self) = stats self.
Proof.
  induction ts as [|[due cb] ts IH]; intros self; simpl.
  - reflexivity.
  - destruct (due <=? now)%Z; [|reflexivity].
    rewrite IH. destruct cb; reflexivity.
Qed.

Lemma sweep_frame self now :
  stats (sweep self now) = stats self /\ config (sweep self now) = config self.
Proof.
  split; reflexivity.
Qed.

Lemma step_config self input : config (step self input) = config self.
Proof.
  destruct input as [env req|now|now]; simpl.
  - apply middleware_frame.
  - unfold run_timers. apply fire_due_config.
  - reflexivity.
Qed.

Lemma counted_config self self' input :
  config self' = config self -> counted self' input = counted self input.
Proof.
  intros H. destruct input; simpl; try reflexivity.
  unfold shouldSkipPath. rewrite H. reflexivity.
Qed.

Lemma step_counters self input :
  counters_consistent (stats self) ->
  counters_consistent (stats (step self input))
  /\ totalRequests (stats (step self input))
     = (totalRequests (stats self)
        + (if counted self input then 1 else 0))%Z.
Proof.
  intros [H1 [H2 [H3 H4]]]. destruct input as [env req|now|now].
  - pose proof (middleware_stats self env req) as H. cbv zeta in H.
    cbn [step].
    destruct (counted self (HttpRequest env req)).
    + destruct H as [H|[[_ [_ H]]|[[_ [_ H]]|[_ [_ H]]]]]; rewrite H;
        unfold counters_consistent; simpl; (split; [|lia]); lia.
    + destruct H as [H _]. rewrite H. unfold counters_consistent.
      split; [auto|lia].
  - simpl. unfold run_timers. rewrite fire_due_stats.
    unfold counters_consistent. split; [auto|lia].
  - cbn [step counted]. destruct (sweep_frame self now) as [-> _].
    unfold counters_consistent. split; [auto|lia].
Qed.

Lemma run_counters inputs : forall self,
  counters_consistent (stats self) ->
  counters_consistent (stats (run self inputs))
  /\ totalRequests (stats (run self inputs))
     = (totalRequests (stats self)
        + Z.of_nat (List.length (List.filter (counted self) inputs)))%Z.
Proof.
  induction inputs as [|input inputs IH]; intros self H.
  - simpl. split; [exact H | lia].
  - destruct (step_counters self input H) as [Hc Ht].
    destruct (IH (step self input) Hc) as [Hc' Ht'].
    unfold run in *. cbn [fold_left List.filter].
    split; [exact Hc'|]. rewrite Ht', Ht.
    assert (E : List.filter (counted (step self input)) inputs
                = List.filter (counted self) inputs).
    { apply List.filter_ext. intros i. apply counted_config, step_config. }
    rewrite E. destruct (counted self input); simpl List.length; lia.
Qed.



(** X11. The counters of an instance stay consistent over every run of
    requests, timers and sweeps: blocked and learning-mode requests are
    counted among the threats, threats among the requests, and
    [totalRequests] is the number of requests that were analysed: those
    whose path was not skipped and whose analysis did not throw. *)
Theorem counters_stay_consistent
  (config : Config.t) (enabledRules : list Rule.t) (start : Z)
  (inputs : list Input) :
  let waf := new config enabledRules start in
  counters_consistent (stats (run waf inputs))
  /\ totalRequests (stats (run waf inputs))
     = Z.of_nat (List.length (List.filter (counted waf) inputs)).
Proof.
  cbv zeta.
  destruct (run_counters inputs (new config enabledRules start)) as [H1 H2].
  - unfold counters_consistent. simpl. lia.
  - split; [exact H1|]. rewrite H2. simpl. lia.
Qed.

Lemma startsWith_app prefix : forall rest,
  JS.startsWith (prefix ++ rest) prefix = true.
Proof.
  induction prefix as [|c prefix IH]; intros rest; simpl.
  - destruct rest; reflexivity.
  - rewrite Ascii.eqb_refl. simpl. apply IH.
Qed.

Lemma startsWith_prefix p : forall s,
  JS.startsWith s p = true -> exists rest, s = (p ++ rest)%string.
Proof.
  induction p as [|a p IH]; intros s H.
  - exists s. reflexivity.
  - destruct s as [|b s]; simpl in H; [discriminate|].
    apply andb_true_iff in H as [H1 H2].
    apply Ascii.eqb_eq in H1. subst b.
    destruct (IH s H2) as [rest ->]. exists rest. reflexivity.
Qed.

(** X12. Skip paths are prefixes.  A request is passed on without
    analysis, with the instance unchanged and no event, exactly when its
    path begins with one of the skip paths in force; whatever follows
    the prefix does not matter.  A request that is not skipped and whose
    analysis returns is counted. *)
Theorem skip_paths_are_prefixes
  (self : WAFMiddleware.t) (env : Env.t) (req : Request.t) :
  (shouldSkipPath self (Request.path req) = true
   <-> exists prefix rest,
         In prefix (skipPaths_of self)
         /\ Request.path req = (prefix ++ rest)%string)
  /\ (shouldSkipPath self (Request.path req) = true ->
      middleware self env req = (self, next, []))
  /\ (shouldSkipPath self (Request.path req) = false ->
      forall ip, getClientIP req = Some ip ->
      totalRequests (stats (fst (fst (middleware self env req))))
      = (totalRequests (stats self) + 1)%Z).
Proof.
  split; [|split].
  - unfold shouldSkipPath. fold (skipPaths_of self).
    rewrite existsb_exists. split.
    + intros [prefix [Hin Hs]].
      destruct (startsWith_prefix _ _ Hs) as [rest Hr]. eauto.
    + intros [prefix [rest [Hin Hp]]]. exists prefix.
      split; [exact Hin|]. rewrite Hp. apply startsWith_app.
  - intros H. unfold middleware. rewrite H. reflexivity.
  - intros H ip Hip.
    pose proof (middleware_stats self env req) as Hs. cbv zeta in Hs.
    unfold counted in Hs. rewrite H, Hip in Hs. cbn [negb andb] in Hs.
    destruct Hs as [Hs|[[_ [_ Hs]]|[[_ [_ Hs]]|[_ [_ Hs]]]]]; rewrite Hs;
      reflexivity.
Qed.

(** X12 at the default instance, for a path that only begins like a
    skip path. *)
Lemma skip_paths_are_prefixes_witness :
  let req := Request.Make (Some "1.2.3.4") None "GET" "/health/../admin"
               (Some []) JS.BNone [] None in
  shouldSkipPath ScenarioPipeline.default_waf (Request.path req) = true
  /\ middleware ScenarioPipeline.default_waf ScenarioAnomaly.noon req
     = (ScenarioPipeline.default_waf, next, []).
Proof.
  intros req.
  assert (H : shouldSkipPath ScenarioPipeline.default_waf (Request.path req)
              = true) by reflexivity.
  split; [exact H|].
  exact (proj1 (proj2 (skip_paths_are_prefixes ScenarioPipeline.default_waf
                         ScenarioAnomaly.noon req)) H).
Defined.

End MiddlewareFacts.

(** ** Results of the signature modules *)

Section SignatureFacts.
Import Signature SignatureSpec.
Local Open Scope Q_scope.

Lemma sum_scores_snoc threats threat :
  sum_scores (threats ++ [threat]) = sum_scores threats + Threat.score threat.
Proof. unfold sum_scores. rewrite fold_left_app. reflexivity. Qed.

Lemma sum_scores_app a b :
  sum_scores (a ++ b) == sum_scores a + sum_scores b.
Proof.
  induction b as [|x b IH] using rev_ind.
  - rewrite List.app_nil_r. unfold sum_scores at 3. simpl. lra.
  - rewrite List.app_assoc, !sum_scores_snoc, IH. lra.
Qed.

Lemma substring0_length n : forall s,
  (String.length (JS.substring0 n s) <= n)%nat.
Proof.
  unfold JS.substring0.
  induction n as [|n IH]; intros s; destruct s as [|c s]; simpl; try lia.
  specialize (IH s). lia.
Qed.

Lemma string_length_app (a b : string) :
  String.length (a ++ b)%string = (String.length a + String.length b)%nat.
Proof. induction a as [|c a IH]; simpl; [reflexivity | rewrite IH; reflexivity]. Qed.

Lemma excerpt_length text : (String.length (excerpt text) <= 103)%nat.
Proof.
  unfold excerpt. rewrite string_length_app.
  pose proof (substring0_length 100 text).
  destruct (100 <? String.length text)%nat; simpl; lia.
Qed.

Lemma agrees_snoc ty threats total threat :
  agrees ty threats total -> well_formed ty threat ->
  agrees ty (threats ++ [threat]) (total + Threat.score threat).
Proof.
  intros [H1 [H2 H3]] Hw. unfold agrees.
  rewrite sum_scores_snoc. split; [rewrite H1; reflexivity|]. split.
  - assert (E : inject_Z (Z.of_nat (List.length (threats ++ [threat])))
                == inject_Z (Z.of_nat (List.length threats)) + 1).
    { rewrite List.length_app, Nat2Z.inj_add, inject_Z_plus. reflexivity. }
    destruct Hw as [_ [Hs _]]. rewrite E. lra.
  - apply Forall_app. split; [exact H3 | constructor; [exact Hw | constructor]].
Qed.

Lemma agrees_app ty a ta b tb :
  agrees ty a ta -> agrees ty b tb -> agrees ty (a ++ b) (ta + tb).
Proof.
  intros [A1 [A2 A3]] [B1 [B2 B3]]. unfold agrees.
  split; [rewrite sum_scores_app, A1, B1; reflexivity|]. split.
  - assert (E : inject_Z (Z.of_nat (List.length (a ++ b)))
                == inject_Z (Z.of_nat (List.length a))
                   + inject_Z (Z.of_nat (List.length b))).
    { rewrite List.length_app, Nat2Z.inj_add, inject_Z_plus. reflexivity. }
    rewrite E. lra.
  - apply Forall_app. split; assumption.
Qed.

Lemma scan_texts_agrees ty texts : forall p threats total,
  1 <= score p -> agrees ty threats total ->
  let '(p', threats', total') := scan_texts ty p texts threats total in
  score p' = score p /\ agrees ty threats' total'.
Proof.
  induction texts as [|text texts IH]; intros p threats total Hp Ha; simpl.
  - split; [reflexivity | exact Ha].
  - destruct (RegExp.test (pattern p) text) as [re' hit].
    destruct hit.
    + specialize (IH (set_pattern p re')
                     (threats ++ [Threat.Make ty (name p) (description p)
                                    (score p) (excerpt text)])
                     (total + score p) Hp).
      destruct (scan_texts ty (set_pattern p re') texts _ _) as [[p' th'] t'].
      apply IH.
      apply (agrees_snoc ty threats total
               (Threat.Make ty (name p) (description p) (score p)
                  (excerpt text)) Ha).
      split; [reflexivity|]. split; [exact Hp | apply excerpt_length].
    + specialize (IH (set_pattern p re') threats total Hp Ha).
      destruct (scan_texts ty (set_pattern p re') texts threats total)
        as [[p' th'] t'].
      exact IH.
Qed.

Lemma scan_patterns_agrees ty texts ps : forall threats total,
  Forall (fun p => 1 <= score p) ps -> agrees ty threats total ->
  let '(ps', threats', total') := scan_patterns ty ps texts threats total in
  Forall (fun p => 1 <= score p) ps' /\ agrees ty threats' total'.
Proof.
  induction ps as [|p ps IH]; intros threats total Hps Ha; simpl.
  - split; [constructor | exact Ha].
  - inversion Hps as [|? ? Hp Hps']; subst.
    pose proof (scan_texts_agrees ty texts p threats total Hp Ha) as H.
    destruct (scan_texts ty p texts threats total) as [[p' th'] t'].
    destruct H as [Hs Ha'].
    specialize (IH th' t' Hps' Ha').
    destruct (scan_patterns ty ps texts th' t') as [[ps'' th''] t''].
    destruct IH as [I1 I2].
    split; [constructor; [rewrite Hs; exact Hp | exact I1] | exact I2].
Qed.

(** The result of the shared [analyze] loop. *)
Lemma signature_analyze_sound ty combos ps analysis :
  Forall (fun p => 1 <= score p) ps ->
  (forall texts, agrees ty (combos texts) (sum_scores (combos texts))) ->
  Forall (fun p => 1 <= score p) (fst (analyze ty combos ps analysis))
  /\ match snd (analyze ty combos ps analysis) with
     | Some r => sound_result ty r
     | None => True
     end.
Proof.
  intros Hps Hc. unfold analyze.
  assert (A0 : agrees ty [] 0).
  { unfold agrees. split; [reflexivity|]. split; [discriminate | constructor]. }
  pose proof (scan_patterns_agrees ty (Analysis.extractSearchTexts analysis)
                ps [] 0 Hps A0) as H.
  destruct (scan_patterns ty ps (Analysis.extractSearchTexts analysis) [] 0)
    as [[ps' th'] t'].
  destruct H as [H1 H2].
  specialize (Hc (Analysis.extractSearchTexts analysis)).
  destruct (0 <? List.length (th' ++ combos (Analysis.extractSearchTexts analysis)))%nat
    eqn:E; simpl; (split; [exact H1|]); [|exact I].
  unfold sound_result. simpl. split; [reflexivity|]. split.
  - intros N. rewrite N in E. discriminate.
  - apply agrees_app; assumption.
Qed.

Lemma xss_combinations_agree texts :
  agrees "xss" (XSSModule.checkCombinations texts)
    (sum_scores (XSSModule.checkCombinations texts)).
Proof.
  unfold XSSModule.checkCombinations, agrees.
  case_ifs; (split; [reflexivity|]); (split; [vm_compute; discriminate|]);
    repeat constructor; try discriminate; simpl; lia.
Qed.

Lemma sqli_combinations_agree texts :
  agrees "sqli" (SQLiModule.checkCombinations texts)
    (sum_scores (SQLiModule.checkCombinations texts)).
Proof.
  unfold SQLiModule.checkCombinations, agrees.
  case_ifs; (split; [reflexivity|]); (split; [vm_compute; discriminate|]);
    repeat constructor; try discriminate; simpl; lia.
Qed.

Lemma xss_after_scores records :
  Forall (fun p => 1 <= score p) (XSSModule.patterns (xss_after records)).
Proof.
  unfold xss_after.
  assert (H : Forall (fun p => 1 <= score p) (XSSModule.patterns XSSModule.new))
    by (repeat constructor; vm_compute; discriminate).
  revert H. generalize XSSModule.new.
  induction records as [|a records IH]; intros m H; simpl.
  - exact H.
  - apply IH. unfold XSSModule.analyze.
    pose proof (signature_analyze_sound "xss" XSSModule.checkCombinations
                  (XSSModule.patterns m) a H xss_combinations_agree) as [K _].
    destruct (analyze "xss" XSSModule.checkCombinations (XSSModule.patterns m) a).
    exact K.
Qed.

Lemma sqli_after_scores records :
  Forall (fun p => 1 <= score p) (SQLiModule.patterns (sqli_after records)).
Proof.
  unfold sqli_after.
  assert (H : Forall (fun p => 1 <= score p) (SQLiModule.patterns SQLiModule.new))
    by (repeat constructor; vm_compute; discriminate).
  revert H. generalize SQLiModule.new.
  induction records as [|a records IH]; intros m H; simpl.
  - exact H.
  - apply IH. unfold SQLiModule.analyze.
    pose proof (signature_analyze_sound "sqli" SQLiModule.checkCombinations
                  (SQLiModule.patterns m) a H sqli_combinations_agree) as [K _].
    destruct (analyze "sqli" SQLiModule.checkCombinations (SQLiModule.patterns m) a).
    exact K.
Qed.

(** X13. What the signature modules report.  Whatever requests the XSS
    module or the SQL-injection module analysed before, a result it
    returns names the module, lists at least one threat, and has as its
    score the sum of the scores of the listed threats, which is at least
    the number of threats; every listed threat carries the type of the
    module, a score of at least 1 and an excerpt of at most 103
    characters. *)
Theorem signature_results_are_sound
  (records : list Analysis.t) (analysis : Analysis.t) (r : ModuleResult.t) :
  (snd (XSSModule.analyze (xss_after records) analysis) = Some r ->
   sound_result "xss" r)
  /\ (snd (SQLiModule.analyze (sqli_after records) analysis) = Some r ->
      sound_result "sqli" r).
Proof.
  split; intros H.
  - unfold XSSModule.analyze in H.
    pose proof (signature_analyze_sound "xss" XSSModule.checkCombinations
                  (XSSModule.patterns (xss_after records)) analysis
                  (xss_after_scores records) xss_combinations_agree) as [_ K].
    destruct (analyze "xss" XSSModule.checkCombinations _ analysis) as [ps o].
    simpl in H, K. subst o. exact K.
  - unfold SQLiModule.analyze in H.
    pose proof (signature_analyze_sound "sqli" SQLiModule.checkCombinations
                  (SQLiModule.patterns (sqli_after records)) analysis
                  (sqli_after_scores records) sqli_combinations_agree) as [_ K].
    destruct (analyze "sqli" SQLiModule.checkCombinations _ analysis) as [ps o].
    simpl in H, K. subst o. exact K.
Qed.

End SignatureFacts.

(** ** Further facts on the pipeline *)

Section PipelineMore.
Import WAFMiddleware.

(** X13 at the fresh XSS module, for a request whose path carries a
    [javascript:] URL. *)
Lemma signature_results_are_sound_witness :
  exists r,
    snd (XSSModule.analyze (SignatureSpec.xss_after []) ScenarioXSS.js_url_record)
    = Some r
    /\ SignatureSpec.sound_result "xss" r.
Proof.
  eexists. split.
  - vm_compute. reflexivity.
  - apply (proj1 (signature_results_are_sound [] ScenarioXSS.js_url_record _)).
    vm_compute. reflexivity.
Defined.

Lemma or_string_truthy a b s :
  or_string a b = Some s -> b = None \/ (exists t, b = Some t /\ t <> "") ->
  s <> "".
Proof.
  unfold or_string, JS.truthy_string.
  destruct a as [x|].
  - destruct (String.eqb x "") eqn:E; simpl.
    + intros -> [H|[t [H Ht]]]; [discriminate|]. congruence.
    + intros H _. injection H as <-. apply String.eqb_neq. exact E.
  - intros -> [H|[t [H Ht]]]; [discriminate|]. congruence.
Qed.

(** X14. [getClientIP] never returns the empty string: an empty address
    counts as missing, and the result is ["unknown"] when nothing else is
    left.  A non-empty [req.ip] is returned as it is. *)
Theorem getClientIP_never_empty (req : Request.t) :
  (forall s, getClientIP req = Some s -> s <> "")
  /\ (forall ip, Request.ip req = Some ip -> ip <> "" ->
      getClientIP req = Some ip).
Proof.
  split.
  - intros s. unfold getClientIP.
    destruct (or_string (Request.ip req)
                (or_string (Request.remoteAddress req) None)) as [t|] eqn:E.
    + intros H. injection H as <-.
      apply or_string_truthy in E; [exact E|].
      destruct (or_string (Request.remoteAddress req) None) as [u|] eqn:E2;
        [right | left; reflexivity].
      exists u. split; [reflexivity|].
      apply or_string_truthy in E2; [exact E2 | left; reflexivity].
    + destruct (JS.get (Request.headers req) "x-forwarded-for") as [[v|]|].
      * destruct (or_string (Some (trim (first_token v))) None) as [u|] eqn:E3.
        -- intros H. injection H as <-.
           apply or_string_truthy in E3; [exact E3 | left; reflexivity].
        -- intros H. injection H as <-. discriminate.
      * discriminate.
      * intros H. injection H as <-. discriminate.
  - intros ip Hip Hne. unfold getClientIP. rewrite Hip. unfold or_string at 1.
    unfold JS.truthy_string. apply String.eqb_neq in Hne. rewrite Hne. reflexivity.
Qed.

Lemma getClientIP_never_empty_witness :
  Request.ip ScenarioPipeline.bare_request = Some "1.2.3.4"
  /\ "1.2.3.4" <> ""
  /\ getClientIP ScenarioPipeline.bare_request = Some "1.2.3.4".
Proof.
  assert (H1 : Request.ip ScenarioPipeline.bare_request = Some "1.2.3.4")
    by reflexivity.
  assert (H2 : "1.2.3.4" <> "") by discriminate.
  split; [exact H1|]. split; [exact H2|].
  exact (proj2 (getClientIP_never_empty ScenarioPipeline.bare_request)
           "1.2.3.4" H1 H2).
Defined.

End PipelineMore.

(** ** The buffers of the learner as sliding windows *)

Section LearningWindow.
Import AdaptiveLearning ScenarioLearning LearningBufferSpec.

Lemma slice_last_slide {A : Type} (n : nat) (l r : list A) :
  slice_last n (slice_last n l ++ r) = slice_last n (l ++ r).
Proof.
  destruct (Nat.le_gt_cases (List.length l) n) as [H|H].
  - rewrite (slice_last_short n l H). reflexivity.
  - unfold slice_last.
    rewrite !List.length_app, List.length_skipn.
    replace (List.length l - (List.length l - n) + List.length r - n)%nat
      with (List.length r) by lia.
    replace (List.length l + List.length r - n)%nat
      with (List.length r + (List.length l - n))%nat by lia.
    rewrite <- List.skipn_skipn. f_equal.
    rewrite List.skipn_app.
    replace (List.length l - n - List.length l)%nat with 0%nat by lia.
    reflexivity.
Qed.

(** X15. The two buffers of the learner.  After any sequence of
    [recordRequest] calls the requests buffer holds the most recent
    entries, at most 10 000 of them, in the order of arrival, and the
    threats buffer has grown by one entry for every recorded request
    that carried a threat, none of them dropped. *)
Theorem learner_buffers_after_recording
  (self : AdaptiveLearning.t) (records : list Analysis.t) :
  (List.length (requests self) <= cap)%nat ->
  requests (record_all self records)
    = slice_last cap (requests self ++ records)
  /\ threats (record_all self records)
     = threats self ++ List.map entry_of (List.filter has_threats records).
Proof.
  revert self. induction records as [|a records IH]; intros self H.
  - simpl. rewrite !List.app_nil_r. split; [|reflexivity].
    symmetry. apply slice_last_short, H.
  - unfold record_all in *. cbn [fold_left].
    destruct (IH (recordRequest self a)) as [I1 I2].
    { apply requests_buffer_capped. }
    split.
    + rewrite I1, recordRequest_requests, slice_last_slide.
      rewrite <- List.app_assoc. reflexivity.
    + rewrite I2. unfold recordRequest at 1, has_threats. cbn [threats List.filter].
      destruct (0 <? List.length (Analysis.threats a))%nat; cbn [List.map].
      * rewrite <- List.app_assoc. reflexivity.
      * reflexivity.
Qed.

Lemma learner_buffers_after_recording_witness :
  let learner := new learning_config 0 in
  let records := [threat_record; Scenario.rl_request; threat_record] in
  (List.length (requests learner) <= cap)%nat
  /\ requests (record_all learner records) = records
  /\ threats (record_all learner records)
     = [entry_of threat_record; entry_of threat_record].
Proof.
  intros learner records.
  assert (H : (List.length (requests learner) <= cap)%nat) by (simpl; lia).
  destruct (learner_buffers_after_recording learner records H) as [H1 H2].
  split; [exact H|]. split.
  - rewrite H1. apply slice_last_short. simpl. unfold cap. lia.
  - exact H2.
Defined.

End LearningWindow.

(** ** The frequency table of the anomaly scorer while it learns *)

Section FrequencyCounting.
Import AnomalyScorer.

Lemma calculateScore_isLearning self env analysis :
  isLearning (fst (calculateScore self env analysis)) = isLearning self.
Proof.
  unfold calculateScore.
  destruct (opt_gt (Config.anomalyThreshold (config self)) 100); [reflexivity|].
  unfold calculateFrequencyAnomaly. cbv zeta.
  match goal with
  | |- context [let (totalScore, factors) := ?acc in _] => destruct acc
  end.
  reflexivity.
Qed.

Lemma calculateScore_frequency self env analysis :
  opt_gt (Config.anomalyThreshold (config self)) 100 = false ->
  requestFrequency (baseline (fst (calculateScore self env analysis)))
  = let ipData :=
      match requestFrequency (baseline self) !! Analysis.ip analysis with
      | Some d => d
      | None => MkIpData 0 (Env.now env)
      end in
    let ipData :=
      if (5 * 60 * 1000 <? Env.now env - window ipData)%Z
      then MkIpData 0 (Env.now env) else ipData in
    <[Analysis.ip analysis := MkIpData (count ipData + 1) (window ipData)]>
      (requestFrequency (baseline self)).
Proof.
  intros H. unfold calculateScore. rewrite H.
  unfold calculateFrequencyAnomaly. cbv zeta.
  match goal with
  | |- context [let (totalScore, factors) := ?acc in _] => destruct acc
  end.
  reflexivity.
Qed.

(** X16. While the scorer learns, a request is counted twice in the
    frequency table: [calculateScore] and [updateBaseline], which
    [analyzeRequest] calls one after the other, each add one to the
    window counter of the IP.  A first request of an IP leaves the
    counter at 2; a further request inside the five-minute window raises
    it by 2.  The one exception is an [anomalyThreshold] above 100, with
    which [calculateScore] returns before it counts: the request is then
    counted once, by [updateBaseline] alone. *)
Theorem learning_counts_each_request_twice
  (self : AnomalyScorer.t) (env : Env.t) (analysis analysis' : Analysis.t) :
  isLearning self = true ->
  Analysis.ip analysis' = Analysis.ip analysis ->
  let ip := Analysis.ip analysis in
  let after :=
    updateBaseline (fst (calculateScore self env analysis)) (Env.now env)
                   analysis' in
  let times :=
    if opt_gt (Config.anomalyThreshold (config self)) 100 then 1%Z else 2%Z in
  (requestFrequency (baseline self) !! ip = None ->
   requestFrequency (baseline after) !! ip
   = Some (MkIpData times (Env.now env)))
  /\ (forall c w,
        requestFrequency (baseline self) !! ip = Some (MkIpData c w) ->
        (Env.now env - w <= 5 * 60 * 1000)%Z ->
        requestFrequency (baseline after) !! ip
        = Some (MkIpData (c + times) w)).
Proof.
  intros Hl Hip ip after times. subst after times.
  unfold updateBaseline.
  rewrite calculateScore_isLearning, Hl. cbn [negb].
  cbv zeta. unfold set_baseline. cbn [baseline requestFrequency].
  rewrite Hip. fold ip.
  destruct (opt_gt (Config.anomalyThreshold (config self)) 100) eqn:Ht.
  - unfold calculateScore. rewrite Ht. cbn [fst]. split.
    + intros Hn. rewrite Hn. cbn [window count].
      rewrite lookup_insert_eq. reflexivity.
    + intros c w Hc _. rewrite Hc. cbn [window count].
      rewrite lookup_insert_eq. reflexivity.
  - rewrite (calculateScore_frequency self env analysis Ht). cbv zeta. fold ip.
    split.
    + intros Hn. rewrite Hn. cbn [window count].
      rewrite Z.sub_diag. cbn [Z.ltb Z.compare Z.mul Pos.mul].
      rewrite lookup_insert_eq. cbn [count window].
      rewrite lookup_insert_eq. reflexivity.
    + intros c w Hc Hw. rewrite Hc. cbn [window count].
      replace (5 * 60 * 1000 <? Env.now env - w)%Z with false
        by (symmetry; apply Z.ltb_ge; exact Hw).
      rewrite lookup_insert_eq. cbn [count window].
      rewrite lookup_insert_eq. cbn [count window].
      replace (c + 1 + 1)%Z with (c + 2)%Z by lia. reflexivity.
Qed.

(** X16 at a fresh scorer with the default threshold and at one with the
    threshold 101. *)
Lemma learning_counts_each_request_twice_witness :
  let count_after config :=
    requestFrequency
      (baseline
         (updateBaseline
            (fst (calculateScore (new config) ScenarioAnomaly.noon
                    ScenarioAnomaly.quiet_record))
            (Env.now ScenarioAnomaly.noon) ScenarioAnomaly.quiet_record))
      !! Analysis.ip ScenarioAnomaly.quiet_record in
  count_after ScenarioAnomaly.anomaly_config
  = Some (MkIpData 2 (Env.now ScenarioAnomaly.noon))
  /\ count_after ScenarioAnomaly.test_mode_config
     = Some (MkIpData 1 (Env.now ScenarioAnomaly.noon)).
Proof.
  intros count_after. split.
  - exact (proj1 (learning_counts_each_request_twice
                    (new ScenarioAnomaly.anomaly_config) ScenarioAnomaly.noon
                    ScenarioAnomaly.quiet_record ScenarioAnomaly.quiet_record
                    eq_refl eq_refl) eq_refl).
  - exact (proj1 (learning_counts_each_request_twice
                    (new ScenarioAnomaly.test_mode_config)
                    ScenarioAnomaly.noon
                    ScenarioAnomaly.quiet_record ScenarioAnomaly.quiet_record
                    eq_refl eq_refl) eq_refl).
Defined.

End FrequencyCounting.

(** ** Loading modules and validating the configuration *)

Section LoadingFacts.
Import RuleEngine.





(** X18. A configuration that [validateConfig] accepts gives an engine
    with a positive threshold.  The accepted threshold is a number that
    is not negative; the engine takes it over unless it is 0, which the
    engine replaces by 10. *)
Theorem accepted_config_has_positive_threshold (config : Config.t) :
  ConfigManager.validateConfig config = inr true ->
  (exists t,
     Config.threshold config = Some t
     /\ (0 <= t)%Q
     /\ threshold (new config) = (if Qeq_bool t 0 then 10%Q else t))
  /\ (0 < threshold (new config))%Q.
Proof.
  unfold ConfigManager.validateConfig. intros H.
  destruct (Config.threshold config) as [t|] eqn:Et.
  2: { destruct (Config.adaptiveLearning config && _); simpl in H; discriminate. }
  destruct (Qle_bool 0 t) eqn:E0.
  2: { destruct (Config.adaptiveLearning config && _); simpl in H; discriminate. }
  apply Qle_bool_iff in E0. cbn [negb] in H.
  assert (Hth : threshold (new config) = (if Qeq_bool t 0 then 10%Q else t)).
  { unfold new. cbn [threshold]. rewrite Et. reflexivity. }
  split; [exists t; auto|].
  rewrite Hth. destruct (Qeq_bool t 0) eqn:Eq; [reflexivity|].
  apply Qeq_bool_neq in Eq.
  destruct (Qle_lt_or_eq _ _ E0) as [Hlt|Heq]; [exact Hlt|].
  exfalso. apply Eq. symmetry. exact Heq.
Qed.

Lemma accepted_config_has_positive_threshold_witness :
  ConfigManager.validateConfig (Scenario.config_with ["xss"] (Some 0%Q))
  = inr true
  /\ threshold (new (Scenario.config_with ["xss"] (Some 0%Q))) = 10%Q
  /\ (0 < threshold (new (Scenario.config_with ["xss"] (Some 0%Q))))%Q.
Proof.
  assert (H : ConfigManager.validateConfig
                (Scenario.config_with ["xss"] (Some 0%Q)) = inr true)
    by reflexivity.
  split; [exact H|]. split; [reflexivity|].
  exact (proj2 (accepted_config_has_positive_threshold
                  (Scenario.config_with ["xss"] (Some 0%Q)) H)).
Defined.

End LoadingFacts.

(** ** The end of learning *)

Section EndOfLearning.
Import WAFMiddleware.

Lemma transitionToPhase_buffers al p :
  AdaptiveLearning.requests (AdaptiveLearning.transitionToPhase al p)
  = AdaptiveLearning.requests al
  /\ AdaptiveLearning.threats (AdaptiveLearning.transitionToPhase al p)
     = AdaptiveLearning.threats al
  /\ (AdaptiveLearning.isLearning al = false ->
      AdaptiveLearning.isLearning (AdaptiveLearning.transitionToPhase al p)
      = false).
Proof. destruct p; cbn; auto. Qed.

Lemma fire_due_learner_frozen now ts : forall self,
  AdaptiveLearning.isLearning (adaptiveLearning self) = false ->
  let self' := fire_due now ts self in
  AdaptiveLearning.isLearning (adaptiveLearning self') = false
  /\ AdaptiveLearning.requests (adaptiveLearning self')
     = AdaptiveLearning.requests (adaptiveLearning self)
  /\ AdaptiveLearning.threats (adaptiveLearning self')
     = AdaptiveLearning.threats (adaptiveLearning self).
Proof.
  induction ts as [|[due cb] ts IH]; intros self Hl; cbn.
  - auto.
  - destruct (due <=? now)%Z; [|cbn; auto].
    destruct cb as [|p].
    + apply (IH (run_callback self ScorerLearningDone) Hl).
    + destruct (transitionToPhase_buffers (adaptiveLearning self) p)
        as [H1 [H2 H3]].
      destruct (IH (run_callback self (PhaseTransition p)) (H3 Hl))
        as [I1 [I2 I3]].
      cbn in I2, I3. rewrite H1 in I2. rewrite H2 in I3. auto.
Qed.

(** X19. Learning, once ended, does not resume, and the learner records
    nothing any more: from a state in which the learner is not learning,
    no run of requests, timers and sweeps makes it learn again or changes
    its two buffers. *)
Theorem learner_is_frozen_after_learning
  (self : WAFMiddleware.t) (inputs : list Input) :
  AdaptiveLearning.isLearning (adaptiveLearning self) = false ->
  AdaptiveLearning.isLearning (adaptiveLearning (run self inputs)) = false
  /\ AdaptiveLearning.requests (adaptiveLearning (run self inputs))
     = AdaptiveLearning.requests (adaptiveLearning self)
  /\ AdaptiveLearning.threats (adaptiveLearning (run self inputs))
     = AdaptiveLearning.threats (adaptiveLearning self).
Proof.
  revert self. induction inputs as [|input inputs IH]; intros self Hl.
  - cbn. auto.
  - unfold run in *. cbn [fold_left].
    assert (Hs : AdaptiveLearning.isLearning (adaptiveLearning (step self input))
                 = false
                 /\ AdaptiveLearning.requests (adaptiveLearning (step self input))
                    = AdaptiveLearning.requests (adaptiveLearning self)
                 /\ AdaptiveLearning.threats (adaptiveLearning (step self input))
                    = AdaptiveLearning.threats (adaptiveLearning self)).
    { destruct input as [env req|now|now]; cbn [step].
      - rewrite (middleware_learner_frozen self env req Hl). auto.
      - apply fire_due_learner_frozen, Hl.
      - unfold sweep. cbn. auto. }
    destruct Hs as [S1 [S2 S3]].
    destruct (IH (step self input) S1) as [I1 [I2 I3]].
    rewrite I2, I3, S2, S3. auto.
Qed.

Lemma learner_is_frozen_after_learning_witness :
  let inputs :=
    [HttpRequest ScenarioLearningMode.later ScenarioLearningMode.xss_request] in
  AdaptiveLearning.isLearning
    (adaptiveLearning ScenarioLearningMode.after_period) = false
  /\ AdaptiveLearning.requests
       (adaptiveLearning (run ScenarioLearningMode.after_period inputs))
     = AdaptiveLearning.requests
         (adaptiveLearning ScenarioLearningMode.after_period).
Proof.
  intros inputs.
  assert (H : AdaptiveLearning.isLearning
                (adaptiveLearning ScenarioLearningMode.after_period) = false)
    by (vm_compute; reflexivity).
  split; [exact H|].
  exact (proj1 (proj2 (learner_is_frozen_after_learning
                         ScenarioLearningMode.after_period inputs H))).
Defined.

End EndOfLearning.

(** ** When learning ends *)

Section LearningTimers.
Import WAFMiddleware.



End LearningTimers.


(** ** The sweeper of the rate-limit module *)

Section SweeperFacts.
Import RateLimitModule.

Lemma cleanup_blocked self t ip :
  blockedIPs (cleanup self t) !! ip
  = match blockedIPs self !! ip with
    | Some b => if (blockedUntil b <? t)%Z then None else Some b
    | None => None
    end.
Proof.
  unfold cleanup. cbn [blockedIPs set_tables].
  rewrite map_lookup_filter.
  destruct (blockedIPs self !! ip) as [b|]; [|reflexivity]. cbn.
  destruct (Z.ltb_spec (blockedUntil b) t); case_guard; try reflexivity; lia.
Qed.

Lemma cleanup_requests self t ip :
  requests (cleanup self t) !! ip
  = match requests self !! ip with
    | Some r => if (windowMs self <? t - firstRequest r)%Z then None else Some r
    | None => None
    end.
Proof.
  unfold cleanup. cbn [requests set_tables].
  rewrite map_lookup_filter.
  destruct (requests self !! ip) as [r|]; [|reflexivity]. cbn.
  destruct (Z.ltb_spec (windowMs self) (t - firstRequest r)); case_guard;
    try reflexivity; lia.
Qed.

(** X21. The sweeper changes no answer.  Whether or not [cleanup] has
    run at an earlier instant, [analyze] returns the same result for a
    request. *)
Theorem cleanup_changes_no_answer
  (self : RateLimitModule.t) (t now : Z) (analysis : Analysis.t) :
  (t <= now)%Z ->
  snd (analyze (cleanup self t) now analysis) = snd (analyze self now analysis).
Proof.
  intros Ht.
  unfold analyze.
  change (enabled (cleanup self t)) with (enabled self).
  destruct (enabled self); [|reflexivity]. cbn [negb].
  unfold isIPBlocked. rewrite cleanup_blocked.
  assert (Hrec :
    (let requestRecord :=
       match requests (cleanup self t) !! Analysis.ip analysis with
       | Some r => r
       | None => MkRequest 0 now 0
       end in
     if (windowMs self <? now - firstRequest requestRecord)%Z
     then MkRequest 0 now 0 else requestRecord)
    = (let requestRecord :=
         match requests self !! Analysis.ip analysis with
         | Some r => r
         | None => MkRequest 0 now 0
         end in
       if (windowMs self <? now - firstRequest requestRecord)%Z
       then MkRequest 0 now 0 else requestRecord)).
  { cbv zeta. rewrite cleanup_requests.
    destruct (requests self !! Analysis.ip analysis) as [r|]; [|reflexivity].
    destruct (Z.ltb_spec (windowMs self) (t - firstRequest r)); [|reflexivity].
    cbn [firstRequest]. rewrite Z.sub_diag.
    replace (windowMs self <? now - firstRequest r)%Z with true
      by (symmetry; apply Z.ltb_lt; lia).
    destruct (windowMs self <? 0)%Z; reflexivity. }
  cbv zeta in Hrec.
  destruct (blockedIPs self !! Analysis.ip analysis) as [b|].
  - destruct (Z.ltb_spec (blockedUntil b) t) as [Hlt|Hge].
    + replace (blockedUntil b <? now)%Z with true
        by (symmetry; apply Z.ltb_lt; lia).
      cbn [set_tables requests windowMs max ipBlocking_enabled maxViolations
           blockedIPs enabled blockDuration cleanup] in *.
      rewrite Hrec.
      repeat match goal with
             | |- context [if ?c then _ else _] => destruct c
             end; reflexivity.
    + destruct (blockedUntil b <? now)%Z; [|reflexivity].
      cbn [set_tables requests windowMs max ipBlocking_enabled maxViolations
           blockedIPs enabled blockDuration cleanup] in *.
      rewrite Hrec.
      repeat match goal with
             | |- context [if ?c then _ else _] => destruct c
             end; reflexivity.
  - cbn [set_tables requests windowMs max ipBlocking_enabled maxViolations
         blockedIPs enabled blockDuration cleanup] in *.
    rewrite Hrec.
    repeat match goal with
           | |- context [if ?c then _ else _] => destruct c
           end; reflexivity.
Qed.

(** X21 at the module of the rate-limit scenario, blocked until 63000
    and swept at 70000. *)
Lemma cleanup_changes_no_answer_witness :
  let blocked := fst (Scenario.rl_send Scenario.rl_start [0; 1000; 2000; 3000])%Z in
  (70000 <= 80000)%Z
  /\ snd (analyze (cleanup blocked 70000) 80000 Scenario.rl_request)
     = snd (analyze blocked 80000 Scenario.rl_request).
Proof.
  intros blocked.
  assert (H : (70000 <= 80000)%Z) by lia.
  split; [exact H|].
  exact (cleanup_changes_no_answer blocked 70000 80000 Scenario.rl_request H).
Defined.

End SweeperFacts.

(** ** The thresholds derived from the recorded scores *)

Section ThresholdFacts.
Import LearningProfile.
Local Open Scope Q_scope.

Lemma insert_length x l : List.length (insert x l) = S (List.length l).
Proof.
  induction l as [|y l IH]; simpl; [reflexivity|].
  destruct (Qle_bool x y); simpl; [reflexivity | rewrite IH; reflexivity].
Qed.

Lemma sort_length l : List.length (sort l) = List.length l.
Proof.
  induction l as [|x l IH]; simpl; [reflexivity|].
  rewrite insert_length, IH. reflexivity.
Qed.

Lemma insert_Forall (P : Q -> Prop) x l :
  P x -> Forall P l -> Forall P (insert x l).
Proof.
  intros Hx Hl. induction Hl as [|y l Hy Hl IH]; simpl.
  - constructor; [exact Hx | constructor].
  - destruct (Qle_bool x y).
    + constructor; [exact Hx|]. constructor; assumption.
    + constructor; assumption.
Qed.

Lemma insert_ascending x l : ascending l -> ascending (insert x l).
Proof.
  induction l as [|y l IH]; simpl; intros H.
  - split; [constructor | exact I].
  - destruct H as [Hy Hl].
    destruct (Qle_bool x y) eqn:E.
    + apply Qle_bool_iff in E. simpl. split; [|split; assumption].
      constructor; [exact E|].
      eapply List.Forall_impl; [|exact Hy].
      intros z Hz. eapply Qle_trans; eassumption.
    + assert (Hyx : y <= x).
      { destruct (Qlt_le_dec y x) as [H|H]; [apply Qlt_le_weak, H|].
        apply Qle_bool_iff in H. congruence. }
      simpl. split; [|apply IH, Hl].
      apply insert_Forall; assumption.
Qed.

Lemma sort_ascending l : ascending (sort l).
Proof.
  induction l as [|x l IH]; simpl; [exact I | apply insert_ascending, IH].
Qed.

Lemma ascending_nth l : forall i j,
  ascending l -> (i <= j)%nat -> (j < List.length l)%nat ->
  nth i l 0 <= nth j l 0.
Proof.
  induction l as [|x l IH]; intros i j Hl Hij Hj; simpl in Hj; [lia|].
  destruct Hl as [Hx Hl].
  destruct i as [|i], j as [|j]; simpl; try lia.
  - apply Qle_refl.
  - rewrite List.Forall_forall in Hx. apply Hx, nth_In. lia.
  - apply IH; [exact Hl | lia | lia].
Qed.

Lemma percentile_index_mono p q n :
  (0 <= p <= q)%Z -> (percentile_index p n <= percentile_index q n)%nat.
Proof.
  intros [H0 Hpq]. unfold percentile_index.
  apply Z2Nat.inj_le; [lia | lia|].
  apply Z.max_le_compat_l, Z.sub_le_mono_r, Qceiling_resp_le.
  apply Qmult_le_compat_r.
  - apply Qmult_le_compat_r; [rewrite <- Zle_Qle; exact Hpq | discriminate].
  - change 0 with (inject_Z 0). rewrite <- Zle_Qle. lia.
Qed.

Lemma percentile_index_bound p n :
  (0 <= p <= 100)%Z -> (0 < n)%nat -> (percentile_index p n < n)%nat.
Proof.
  intros [H0 Hp] Hn. unfold percentile_index.
  assert (H : (Qceiling ((inject_Z p / 100) * inject_Z (Z.of_nat n))
               <= Z.of_nat n)%Z).
  { rewrite <- (Qceiling_Z (Z.of_nat n)) at 2. apply Qceiling_resp_le.
    apply Qle_trans with (1 * inject_Z (Z.of_nat n)).
    - apply Qmult_le_compat_r.
      + apply Qle_shift_div_r; [reflexivity|].
        change (1 * 100) with (inject_Z 100). rewrite <- Zle_Qle. exact Hp.
      + change 0 with (inject_Z 0). rewrite <- Zle_Qle. lia.
    - rewrite Qmult_1_l. apply Qle_refl. }
  lia.
Qed.

Lemma round_mono x y : x <= y -> (AnomalyScorer.round x <= AnomalyScorer.round y)%Z.
Proof. intros H. unfold AnomalyScorer.round. apply Qfloor_resp_le. lra. Qed.

(** X22. The thresholds [calculateAnomalyThresholds] derives from the
    recorded requests are never below their floors 1, 3, 5 and 10, and
    they are ordered: low, medium, high, critical. *)
Theorem anomaly_thresholds_are_ordered (requests : list Analysis.t) :
  let thresholds := calculateAnomalyThresholds requests in
  (1 <= low thresholds)%Z
  /\ (3 <= medium thresholds)%Z
  /\ (5 <= high thresholds)%Z
  /\ (10 <= critical thresholds)%Z
  /\ (low thresholds <= medium thresholds)%Z
  /\ (medium thresholds <= high thresholds)%Z
  /\ (high thresholds <= critical thresholds)%Z.
Proof.
  unfold calculateAnomalyThresholds.
  destruct (List.filter _ (List.map Analysis.score requests)) as [|s scores].
  { cbn. lia. }
  set (all := s :: scores). cbv zeta.
  assert (Hlen : (0 < List.length (sort (sort all)))%nat)
    by (rewrite !sort_length; simpl; lia).
  unfold calculatePercentiles.
  destruct (sort all) as [|s0 sorted0] eqn:Es.
  { rewrite <- Es in Hlen. rewrite !sort_length in Hlen.
    pose proof (sort_length all) as Hl. rewrite Es in Hl. simpl in Hl. lia. }
  rewrite <- Es in *. clear Es s0 sorted0.
  cbn [List.map get Z.eqb Pos.eqb].
  set (sorted := sort (sort all)) in *.
  assert (Hasc : ascending sorted) by apply sort_ascending.
  assert (Hstep : forall p q, (0 <= p <= q)%Z -> (q <= 100)%Z ->
            (AnomalyScorer.round
               (nth (percentile_index p (List.length sorted)) sorted 0%Q)
             <= AnomalyScorer.round
                  (nth (percentile_index q (List.length sorted)) sorted 0%Q))%Z).
  { intros p q Hpq Hq. apply round_mono, ascending_nth.
    - exact Hasc.
    - apply percentile_index_mono, Hpq.
    - apply percentile_index_bound; [lia | exact Hlen]. }
  pose proof (Hstep 50 75 ltac:(lia) ltac:(lia))%Z as H1.
  pose proof (Hstep 75 90 ltac:(lia) ltac:(lia))%Z as H2.
  pose proof (Hstep 90 95 ltac:(lia) ltac:(lia))%Z as H3.
  cbn [low medium high critical]. lia.
Qed.

End ThresholdFacts.


(** ** The 403 response *)

Section BlockResponse.
Import WAFMiddleware MiddlewareSpec.

Lemma evaluate_analysis self env analysis :
  RuleEngine.analysis (snd (RuleEngine.evaluate self env analysis)) = analysis.
Proof.
  unfold RuleEngine.evaluate.
  destruct (Qle_bool (RuleEngine.threshold self) (Analysis.score analysis));
    destruct (RuleEngine.scan_rules (RuleEngine.rules self) analysis []
                (Analysis.score analysis)) as [[rs' m'] s'];
    destruct (Qle_bool (RuleEngine.threshold self) s'); reflexivity.
Qed.

(** X23. What a 403 response reports.  When the middleware blocks a
    request it emits exactly one [request-blocked] event, which carries
    the decision of the rule engine, and the body of the response takes
    its reason and request id from that decision.  The [score] of the
    body is the score of the analysis record, before the rule scan: the
    score of the decision, which the reason cites, is that score plus
    the scores of the matched rules. *)
Theorem blocked_response_reports_score_before_rules
  (self : WAFMiddleware.t) (env : Env.t) (req : Request.t) (body : BlockBody) :
  snd (fst (middleware self env req)) = status403 body ->
  exists decision,
    decision_of self env req = Some decision
    /\ snd (middleware self env req) = [request_blocked decision]
    /\ bb_reason body = RuleEngine.reason decision
    /\ bb_requestId body = RuleEngine.requestId decision
    /\ bb_score body = Analysis.score (RuleEngine.analysis decision)
    /\ RuleEngine.score decision
       = RuleEngineSpec.add_rule_scores (bb_score body)
           (RuleEngine.matchedRules decision).
Proof.
  unfold middleware, decision_of.
  destruct (shouldSkipPath self (Request.path req)); [discriminate|].
  destruct (analyzeRequest self env req) as [[s1 analysis]|]; [|discriminate].
  set (s2 := set_stats s1 (recordRequest (stats s1))).
  change (ruleEngine s2) with (ruleEngine s1).
  destruct (isLearningMode s2).
  { destruct (handleLearningMode s2 env analysis); discriminate. }
  pose proof (evaluate_final_score (ruleEngine s1) env analysis) as Hs.
  pose proof (evaluate_analysis (ruleEngine s1) env analysis) as Ha.
  destruct (RuleEngine.evaluate (ruleEngine s1) env analysis)
    as [engine decision].
  cbn [snd] in *.
  destruct (RuleEngine.action decision); [discriminate|].
  destruct (Config.dryRun (config (set_ruleEngine s2 engine)));
    [discriminate|].
  unfold handleBlock. cbn [fst snd]. intros H. injection H as <-.
  exists decision.
  cbn [bb_reason bb_requestId bb_score]. rewrite Ha.
  repeat split; try reflexivity. exact Hs.
Qed.

Lemma blocked_response_reports_score_before_rules_witness :
  exists body decision,
    snd (fst (middleware ScenarioPipeline.default_waf ScenarioAnomaly.noon
                ScenarioLearningMode.xss_request)) = status403 body
    /\ decision_of ScenarioPipeline.default_waf ScenarioAnomaly.noon
         ScenarioLearningMode.xss_request = Some decision
    /\ RuleEngine.score decision
       = RuleEngineSpec.add_rule_scores (bb_score body)
           (RuleEngine.matchedRules decision).
Proof.
  eexists.
  destruct (blocked_response_reports_score_before_rules
              ScenarioPipeline.default_waf ScenarioAnomaly.noon
              ScenarioLearningMode.xss_request _
              ltac:(vm_compute; reflexivity))
    as [decision [H1 [_ [_ [_ [_ H2]]]]]].
  exists decision. split; [vm_compute; reflexivity|]. split; assumption.
Defined.

End BlockResponse.

(** ** The progress of learning *)

Section LearningProgress.
Import AdaptiveLearning.
Local Open Scope Q_scope.

Lemma ratio_le_1 (a b : Z) :
  (0 < b)%Z -> (inject_Z a / inject_Z b <= 1 <-> (a <= b)%Z).
Proof.
  intros Hb.
  assert (Hq : 0 < inject_Z b)
    by (change 0 with (inject_Z 0); rewrite <- Zlt_Qlt; exact Hb).
  split; intros H.
  - destruct (Z.le_gt_cases a b) as [Hab|Hab]; [exact Hab|]. exfalso.
    assert (Hr : 1 < inject_Z a / inject_Z b).
    { apply Qlt_shift_div_l; [exact Hq|].
      rewrite Qmult_1_l. rewrite <- Zlt_Qlt. exact Hab. }
    lra.
  - apply Qle_shift_div_r; [exact Hq|].
    rewrite Qmult_1_l. rewrite <- Zle_Qle. exact H.
Qed.

Lemma ratio_nonneg (a b : Z) :
  (0 < b)%Z -> (0 <= inject_Z a / inject_Z b <-> (0 <= a)%Z).
Proof.
  intros Hb.
  assert (Hq : 0 < inject_Z b)
    by (change 0 with (inject_Z 0); rewrite <- Zlt_Qlt; exact Hb).
  split; intros H.
  - destruct (Z.le_gt_cases 0 a) as [Ha|Ha]; [exact Ha|]. exfalso.
    assert (Hr : inject_Z a / inject_Z b < 0).
    { apply Qlt_shift_div_r; [exact Hq|].
      rewrite Qmult_0_l. change 0 with (inject_Z 0). rewrite <- Zlt_Qlt.
      exact Ha. }
    lra.
  - apply Qle_shift_div_l; [exact Hq|].
    rewrite Qmult_0_l. change 0 with (inject_Z 0). rewrite <- Zle_Qle. exact H.
Qed.

(** X24. The progress a learning learner reports.  For a learner whose
    learning interval is not empty, the progress that [processRequest]
    stores and returns is at most 1, it is 1 exactly from the end of the
    interval on, and it is negative only before the start. *)
Theorem learning_progress_is_capped
  (self : AdaptiveLearning.t) (now : Z) (analysis : Analysis.t) :
  isLearning self = true ->
  (startTime self < endTime self)%Z ->
  let after := fst (processRequest self now analysis) in
  lr_progress (snd (processRequest self now analysis))
    = Some (learningProgress after)
  /\ learningProgress after <= 1
  /\ (learningProgress after == 1 <-> (endTime self <= now)%Z)
  /\ (0 <= learningProgress after <-> (startTime self <= now)%Z).
Proof.
  intros Hl Hlt after. subst after.
  unfold processRequest. rewrite Hl. cbn [negb fst snd lr_progress].
  unfold updateLearningProgress, recordRequest.
  cbn [learningProgress startTime endTime].
  set (ratio := inject_Z (now - startTime self)
                / inject_Z (endTime self - startTime self)).
  assert (H1 : ratio <= 1 <-> (now - startTime self
                               <= endTime self - startTime self)%Z)
    by (apply ratio_le_1; lia).
  assert (H0 : 0 <= ratio <-> (0 <= now - startTime self)%Z)
    by (apply ratio_nonneg; lia).
  split; [reflexivity|].
  unfold Qmin. destruct (Qle_bool ratio 1) eqn:E.
  - apply Qle_bool_iff in E. split; [exact E|]. split.
    + split.
      * intros Heq. assert (Hge : (endTime self - startTime self
                                   <= now - startTime self)%Z).
        { destruct (Z.le_gt_cases (endTime self - startTime self)
                                  (now - startTime self)) as [H|H];
            [exact H|].
          exfalso.
          assert (Hr : ratio < 1).
          { subst ratio. apply Qlt_shift_div_r.
            - change 0 with (inject_Z 0). rewrite <- Zlt_Qlt. lia.
            - rewrite Qmult_1_l. rewrite <- Zlt_Qlt. exact H. }
          lra. }
        lia.
      * intros Hend. apply Qle_antisym; [exact E|].
        subst ratio. apply Qle_shift_div_l.
        -- change 0 with (inject_Z 0). rewrite <- Zlt_Qlt. lia.
        -- rewrite Qmult_1_l. rewrite <- Zle_Qle. lia.
    + rewrite H0. lia.
  - assert (Hgt : ~ ratio <= 1)
      by (intros H; apply Qle_bool_iff in H; congruence).
    split; [apply Qle_refl|]. split.
    + split; [intros _ | intros _; reflexivity].
      destruct (Z.le_gt_cases (endTime self) now) as [H|H]; [exact H|].
      exfalso. apply Hgt. apply H1. lia.
    + split; [intros _ | intros _; discriminate].
      destruct (Z.le_gt_cases (startTime self) now) as [H|H]; [exact H|].
      exfalso. apply Hgt. apply H1. lia.
Qed.

Lemma learning_progress_is_capped_witness :
  let learner := new ScenarioLearning.learning_config 0 in
  isLearning learner = true
  /\ (startTime learner < endTime learner)%Z
  /\ learningProgress
       (fst (processRequest learner (8 * dayMs) ScenarioLearning.threat_record))
     <= 1.
Proof.
  intros learner.
  assert (Hl : isLearning learner = true) by reflexivity.
  assert (Ht : (startTime learner < endTime learner)%Z) by reflexivity.
  split; [exact Hl|]. split; [exact Ht|].
  exact (proj1 (proj2 (learning_progress_is_capped learner (8 * dayMs)
                         ScenarioLearning.threat_record Hl Ht))).
Defined.

End LearningProgress.
